(** * MedPerplexity backend: the literature retriever, the Jan Aushadhi
      substitute matcher and the research / safety agents

    A shallow embedding of [Backend/tools.py] and [Backend/agent_system.py],
    with their callers in [Backend/app.py] and the account lookups of
    [Backend/auth.py].

    Conventions of the model.
    - A Python [str] is a [string]. The built-ins of module [Py] are those
      of Python on ASCII text ([Py.isascii]): [lower] and [upper] act on the
      ASCII letters, [strip] and [split] on the ASCII characters for which
      [str.isspace] holds, and [len] counts characters. Outside ASCII text
      Python's methods follow Unicode and the model does not: statements that
      depend on case or on lengths say which strings they take to be ASCII.
    - A similarity score is an exact rational ([Q]): it is finite and is
      computed without IEEE rounding. A price is a [pyfloat]: a finite double
      read as the rational it stands for, an infinity or NaN; [float(...)] and
      subtraction round to the nearest double as IEEE 754 does, and give an
      infinity out of range. Negative zero is not told from zero.
    - A Python [dict] with string keys is an association list in insertion
      order, looked up by key; JSON data is the type [value].
    - Calls that leave the process (the NCBI E-utilities, the language model)
      are oracles that thread a [World]; every request made is logged.
    - [print] output is not modelled. *)

From Stdlib Require Import List String Ascii Bool Arith ZArith QArith Lia.
Import ListNotations.
Set Warnings "-register-all".
Local Close Scope Q_scope.
Local Open Scope string_scope.
Local Open Scope nat_scope.

(** ** Python built-ins on [str] *)
Module Py.

(** [c.isspace()] on an ASCII character: TAB, LF, VT, FF, CR, the four
    separators FS GS RS US, and the space. *)
Definition isspace (c : ascii) : bool :=
  let n := nat_of_ascii c in
  ((9 <=? n) && (n <=? 13)) || ((28 <=? n) && (n <=? 32)).

Definition lower_char (c : ascii) : ascii :=
  let n := nat_of_ascii c in
  if (65 <=? n) && (n <=? 90) then ascii_of_nat (n + 32) else c.

Definition upper_char (c : ascii) : ascii :=
  let n := nat_of_ascii c in
  if (97 <=? n) && (n <=? 122) then ascii_of_nat (n - 32) else c.

Fixpoint map_str (f : ascii -> ascii) (s : string) : string :=
  match s with
  | EmptyString => EmptyString
  | String c s' => String (f c) (map_str f s')
  end.

(** [s.lower()] and [s.upper()]. *)
Definition lower (s : string) : string := map_str lower_char s.
Definition upper (s : string) : string := map_str upper_char s.

(** [s.lstrip()]. *)
Fixpoint lstrip (s : string) : string :=
  match s with
  | EmptyString => EmptyString
  | String c s' => if isspace c then lstrip s' else s
  end.

(** [s.rstrip()]: a character is kept when it is not a space or when
    something is kept to its right. *)
Fixpoint rstrip (s : string) : string :=
  match s with
  | EmptyString => EmptyString
  | String c s' =>
      match rstrip s' with
      | EmptyString => if isspace c then EmptyString else String c EmptyString
      | r => String c r
      end
  end.

(** [s.strip()]. *)
Definition strip (s : string) : string := rstrip (lstrip s).

(** [q in t] for two strings: [q] occurs in [t] as a contiguous block. *)
Fixpoint contains (q t : string) : bool :=
  prefix q t ||
  match t with
  | EmptyString => false
  | String _ t' => contains q t'
  end.

(** [s[n:]]. *)
Fixpoint drop (n : nat) (s : string) : string :=
  match n, s with
  | 0, _ => s
  | S n', String _ s' => drop n' s'
  | S _, EmptyString => EmptyString
  end.

(** [s.replace(old, new)] for a non-empty [old], scanning from the left and
    never re-reading replaced text. [skip] counts the characters of the
    current occurrence still to be dropped. *)
Fixpoint replace_from (old new : string) (skip : nat) (s : string) : string :=
  match s with
  | EmptyString => EmptyString
  | String c s' =>
      match skip with
      | S k => replace_from old new k s'
      | 0 =>
          if prefix old s
          then new ++ replace_from old new (String.length old - 1) s'
          else String c (replace_from old new 0 s')
      end
  end.

(** With an empty [old] Python puts [new] before every character and at the
    end. *)
Fixpoint interleave (new s : string) : string :=
  match s with
  | EmptyString => new
  | String c s' => new ++ String c (interleave new s')
  end.

Definition replace (s old new : string) : string :=
  match old with
  | EmptyString => interleave new s
  | _ => replace_from old new 0 s
  end.

(** [sep.join(l)]. *)
Definition join (sep : string) (l : list string) : string := String.concat sep l.

(** [s.split()] with no argument: the maximal runs of non-space characters.
    [cur] is the run being read, reversed. *)
Fixpoint rev_str (acc s : string) : string :=
  match s with
  | EmptyString => acc
  | String c s' => rev_str (String c acc) s'
  end.

Fixpoint split_from (cur : string) (s : string) : list string :=
  match s with
  | EmptyString =>
      match cur with EmptyString => [] | _ => [rev_str EmptyString cur] end
  | String c s' =>
      if isspace c
      then match cur with
           | EmptyString => split_from EmptyString s'
           | _ => rev_str EmptyString cur :: split_from EmptyString s'
           end
      else split_from (String c cur) s'
  end.

Definition split (s : string) : list string := split_from EmptyString s.

(** [s.isascii()]: every character is below 128. *)
Fixpoint isascii (s : string) : bool :=
  match s with
  | EmptyString => true
  | String c s' => (nat_of_ascii c <? 128) && isascii s'
  end.

(** [max(a, b)] on numbers: the first argument unless the second is
    strictly larger. *)
Definition Qltb (x y : Q) : bool := negb (Qle_bool y x).
Definition max (a b : Q) : Q := if Qltb a b then b else a.

End Py.

(** ** [difflib.SequenceMatcher(None, a, b).ratio()]

    The matcher of the Python standard library, as [get_similarity_score]
    calls it: no junk predicate ([isjunk] is [None], so [bjunk] is empty) and
    [autojunk] left at its default. Indices are naturals; [i + 1 - k] is
    Python's [i-k+1], which is never negative there (lemma
    [find_longest_match_bounds] below). *)
Module Difflib.

(** The positions of [c] in [b], ascending, counted from [i]: the list
    [b2j[c]] that [__chain_b] builds. *)
Fixpoint indices_from (c : ascii) (b : string) (i : nat) : list nat :=
  match b with
  | EmptyString => []
  | String x b' =>
      if Ascii.eqb x c then i :: indices_from c b' (S i)
      else indices_from c b' (S i)
  end.

(** [autojunk]: when [b] has 200 characters or more, a character that occurs
    more than [n // 100 + 1] times is "popular" and is deleted from [b2j]. *)
Definition popular (b : string) (c : ascii) : bool :=
  let n := String.length b in
  (200 <=? n) && (n / 100 + 1 <? List.length (indices_from c b 0)).

(** [b2j.get(c, [])]. *)
Definition b2j_get (b : string) (c : ascii) : list nat :=
  if popular b c then [] else indices_from c b 0.

(** [isbjunk]: membership in the empty set [bjunk]. *)
Definition isbjunk (c : ascii) : bool := false.

(** [j2len.get(j, 0)] on the dictionary [j2len], newest binding first. *)
Fixpoint j2len_get (j2len : list (nat * nat)) (j : nat) : nat :=
  match j2len with
  | [] => 0
  | (j', k) :: rest => if j' =? j then k else j2len_get rest j
  end.

Definition Match : Type := (nat * nat * nat)%type.

(** The loop [for j in b2j.get(a[i], nothing)] of [find_longest_match]:
    [continue] below [blo], [break] from [bhi] on. The key [j-1] is absent
    from [j2len] when [j] is [0] (Python looks up [-1]). *)
Fixpoint scan_js (js : list nat) (blo bhi i : nat) (j2len newj2len : list (nat * nat))
    (best : Match) : list (nat * nat) * Match :=
  match js with
  | [] => (newj2len, best)
  | j :: js' =>
      if j <? blo then scan_js js' blo bhi i j2len newj2len best
      else if bhi <=? j then (newj2len, best)
      else
        let k := S (match j with 0 => 0 | S j' => j2len_get j2len j' end) in
        let '(_, _, bestsize) := best in
        let best' := if bestsize <? k then (i + 1 - k, j + 1 - k, k) else best in
        scan_js js' blo bhi i j2len ((j, k) :: newj2len) best'
  end.

(** The loop [for i in range(alo, ahi)], run for [n] more values of [i].
    Every range handled has [ahi <= len(a)], so [a[i]] exists; the [None]
    branch of the lookup is never taken. *)
Fixpoint scan_is (a b : string) (n i blo bhi : nat) (j2len : list (nat * nat))
    (best : Match) : Match :=
  match n with
  | 0 => best
  | S n' =>
      let js := match String.get i a with Some c => b2j_get b c | None => [] end in
      let '(newj2len, best') := scan_js js blo bhi i j2len [] best in
      scan_is a b n' (S i) blo bhi newj2len best'
  end.

Definition same_at (a b : string) (i j : nat) : bool :=
  match String.get i a, String.get j b with
  | Some x, Some y => Ascii.eqb x y
  | _, _ => false
  end.

Definition junk_at (b : string) (j : nat) : bool :=
  match String.get j b with Some y => isbjunk y | None => false end.

(** [while besti > alo and bestj > blo and not isbjunk(b[bestj-1]) and
    a[besti-1] == b[bestj-1]]: the recursion is on [besti]. *)
Fixpoint extend_left (a b : string) (alo blo besti bestj bestsize : nat) : Match :=
  match besti with
  | 0 => (besti, bestj, bestsize)
  | S i' =>
      if (alo <? besti) && (blo <? bestj) && negb (junk_at b (bestj - 1))
         && same_at a b i' (bestj - 1)
      then extend_left a b alo blo i' (bestj - 1) (S bestsize)
      else (besti, bestj, bestsize)
  end.

(** [while besti+bestsize < ahi and bestj+bestsize < bhi and not
    isbjunk(b[bestj+bestsize]) and a[besti+bestsize] == b[bestj+bestsize]]:
    at most [ahi - (besti+bestsize)] rounds, which is the [fuel] given. *)
Fixpoint extend_right (a b : string) (fuel ahi bhi besti bestj bestsize : nat) : Match :=
  match fuel with
  | 0 => (besti, bestj, bestsize)
  | S f =>
      if (besti + bestsize <? ahi) && (bestj + bestsize <? bhi)
         && negb (junk_at b (bestj + bestsize))
         && same_at a b (besti + bestsize) (bestj + bestsize)
      then extend_right a b f ahi bhi besti bestj (S bestsize)
      else (besti, bestj, bestsize)
  end.

(** [find_longest_match(alo, ahi, blo, bhi)]. The two closing loops of the
    source extend the match over junk characters only; with [bjunk] empty
    their guards are false at once, so they are left out. *)
Definition find_longest_match (a b : string) (alo ahi blo bhi : nat) : Match :=
  let '(besti, bestj, bestsize) :=
    scan_is a b (ahi - alo) alo blo bhi [] (alo, blo, 0) in
  let '(besti, bestj, bestsize) := extend_left a b alo blo besti bestj bestsize in
  extend_right a b (ahi - (besti + bestsize)) ahi bhi besti bestj bestsize.

Definition Range : Type := (nat * nat * nat * nat)%type.

(** The loop [while queue] of [get_matching_blocks]. The Python list [queue]
    is used as a stack; its last element is the head here. *)
Fixpoint blocks_loop (a b : string) (fuel : nat) (queue : list Range)
    (matching_blocks : list Match) : list Match :=
  match fuel with
  | 0 => matching_blocks
  | S f =>
      match queue with
      | [] => matching_blocks
      | (alo, ahi, blo, bhi) :: queue' =>
          let '(i, j, k) := find_longest_match a b alo ahi blo bhi in
          if k =? 0 then blocks_loop a b f queue' matching_blocks
          else
            let q1 := if (alo <? i) && (blo <? j)
                      then (alo, i, blo, j) :: queue' else queue' in
            let q2 := if (i + k <? ahi) && (j + k <? bhi)
                      then (i + k, ahi, j + k, bhi) :: q1 else q1 in
            blocks_loop a b f q2 (matching_blocks ++ [(i, j, k)])%list
      end
  end.

(** Tuples compare lexicographically; [matching_blocks.sort()] as an
    insertion sort (the blocks are pairwise distinct, so stability is not at
    stake). *)
Definition match_leb (x y : Match) : bool :=
  let '(i1, j1, k1) := x in
  let '(i2, j2, k2) := y in
  (i1 <? i2) || ((i1 =? i2) && ((j1 <? j2) || ((j1 =? j2) && (k1 <=? k2)))).

Fixpoint insert_sorted (x : Match) (l : list Match) : list Match :=
  match l with
  | [] => [x]
  | y :: l' => if match_leb x y then x :: l else y :: insert_sorted x l'
  end.

Definition sort (l : list Match) : list Match := fold_right insert_sorted [] l.

(** The loop that collapses adjacent blocks; [(i1, j1, k1)] is the block
    being grown. Returns [non_adjacent] with the closing [if k1] applied. *)
Fixpoint collapse (blocks : list Match) (i1 j1 k1 : nat) (non_adjacent : list Match)
    : list Match :=
  match blocks with
  | [] => if k1 =? 0 then non_adjacent else (non_adjacent ++ [(i1, j1, k1)])%list
  | (i2, j2, k2) :: rest =>
      if (i1 + k1 =? i2) && (j1 + k1 =? j2)
      then collapse rest i1 j1 (k1 + k2) non_adjacent
      else collapse rest i2 j2 k2
             (if k1 =? 0 then non_adjacent else (non_adjacent ++ [(i1, j1, k1)])%list)
  end.

(** [get_matching_blocks()]. Every pass of the loop either ends a range or
    splits it around a non-empty block, so [2 * len(a) + 1] passes empty the
    queue (lemma [blocks_loop_fuel] below). *)
Definition get_matching_blocks (a b : string) : list Match :=
  let la := String.length a in
  let lb := String.length b in
  let matching_blocks := blocks_loop a b (2 * la + 1) [(0, la, 0, lb)] [] in
  (collapse (sort matching_blocks) 0 0 0 [] ++ [(la, lb, 0)])%list.

(** [_calculate_ratio(matches, length)]. *)
Definition _calculate_ratio (matches length : nat) : Q :=
  match length with
  | 0 => 1%Q
  | _ => (2 * Z.of_nat matches # Pos.of_nat length)%Q
  end.

(** [ratio()]. *)
Definition ratio (a b : string) : Q :=
  let matches := list_sum (map (fun t : Match => snd t) (get_matching_blocks a b)) in
  _calculate_ratio matches (String.length a + String.length b).

(** *** Invariants of the matcher *)

(** The block [best] lies inside [a[alo:m]] and [b[blo:bhi]]. *)
Definition best_ok (alo blo bhi m : nat) (best : Match) : Prop :=
  let '(besti, bestj, bestsize) := best in
  alo <= besti /\ besti + bestsize <= m /\ blo <= bestj /\ bestj + bestsize <= bhi.

(** No run recorded in [j2len] is longer than [c], nor than what fits
    between [blo] and its last position. *)
Definition j2len_ok (blo c : nat) (j2len : list (nat * nat)) : Prop :=
  forall j, j2len_get j2len j <= c /\
            (j2len_get j2len j = 0 \/ j2len_get j2len j + blo <= j + 1).

Definition range_ok (r : Range) : Prop :=
  let '(alo, ahi, blo, bhi) := r in alo <= ahi /\ blo <= bhi.

(** Passes of the loop still owed to a queue. *)
Definition weight (queue : list Range) : nat :=
  list_sum (map (fun r : Range => let '(alo, ahi, _, _) := r in 2 * (ahi - alo) + 1) queue).

End Difflib.

(** ** Python values, dictionaries and exceptions *)
Module Json.

(** What [json.loads] can return and [json.dumps] can take. *)
Inductive value : Type :=
| VNone
| VBool (b : bool)
| VInt (n : Z)
| VFloat (x : Q)
| VStr (s : string)
| VList (l : list value)
| VDict (d : list (string * value)).

Definition dict : Type := list (string * value).

(** The exceptions the two source files can meet. [str(e)] is the quoted
    key for a [KeyError] and the message otherwise; [ExternalError] is
    whatever a call outside the process raised (network, HTTP status, XML or
    JSON syntax, the language model, the catalogue file). *)
Inductive exn : Type :=
| KeyError (key : string)
| TypeError (msg : string)
| AttributeError (msg : string)
| OverflowError (msg : string)
| ExternalError (msg : string).

Definition str_exn (e : exn) : string :=
  match e with
  | KeyError k => "'" ++ k ++ "'"
  | TypeError m => m
  | AttributeError m => m
  | OverflowError m => m
  | ExternalError m => m
  end.

(** [d.get(k)] as an option, [d.get(k, default)] and [d[k] = v] on a
    dictionary. *)
Fixpoint dict_get (d : dict) (k : string) : option value :=
  match d with
  | [] => None
  | (k', v) :: d' => if String.eqb k' k then Some v else dict_get d' k
  end.

Definition dict_get_default (d : dict) (k : string) (default : value) : value :=
  match dict_get d k with Some v => v | None => default end.

Fixpoint dict_set (d : dict) (k : string) (v : value) : dict :=
  match d with
  | [] => [(k, v)]
  | (k', v') :: d' =>
      if String.eqb k' k then (k, v) :: d' else (k', v') :: dict_set d' k v
  end.

Definition type_name (v : value) : string :=
  match v with
  | VNone => "NoneType"
  | VBool _ => "bool"
  | VInt _ => "int"
  | VFloat _ => "float"
  | VStr _ => "str"
  | VList _ => "list"
  | VDict _ => "dict"
  end.

(** [v.get(k)]: only a dictionary has the method; a missing key gives
    [None]. *)
Definition py_get (v : value) (k : string) : exn + option value :=
  match v with
  | VDict d => inr (dict_get d k)
  | _ => inl (AttributeError ("'" ++ type_name v ++ "' object has no attribute 'get'"))
  end.

(** [v[k]] with a string key (messages of CPython 3.11). *)
Definition py_getitem (v : value) (k : string) : exn + value :=
  match v with
  | VDict d => match dict_get d k with Some x => inr x | None => inl (KeyError k) end
  | VList _ => inl (TypeError "list indices must be integers or slices, not str")
  | VStr _ => inl (TypeError "string indices must be integers, not 'str'")
  | _ => inl (TypeError ("'" ++ type_name v ++ "' object is not subscriptable"))
  end.

(** [v[k] = x] with a string key. *)
Definition py_setitem (v : value) (k : string) (x : value) : exn + value :=
  match v with
  | VDict d => inr (VDict (dict_set d k x))
  | VList _ => inl (TypeError "list indices must be integers or slices, not str")
  | _ => inl (TypeError ("'" ++ type_name v ++ "' object does not support item assignment"))
  end.

(** Truth value of an object, as [if v] and [v and ...] test it. *)
Definition truthy (v : value) : bool :=
  match v with
  | VNone => false
  | VBool b => b
  | VInt n => negb (n =? 0)%Z
  | VFloat x => negb (Qeq_bool x 0)
  | VStr s => negb (String.eqb s "")
  | VList l => match l with [] => false | _ => true end
  | VDict d => match d with [] => false | _ => true end
  end.

Definition truthy_opt (o : option value) : bool :=
  match o with Some v => truthy v | None => false end.

(** [o == s] for what [.get] returned and a string literal. *)
Definition eq_str (o : option value) (s : string) : bool :=
  match o with Some (VStr x) => String.eqb x s | _ => false end.

(** [len(v)]. *)
Definition py_len (v : value) : exn + nat :=
  match v with
  | VStr s => inr (String.length s)
  | VList l => inr (List.length l)
  | VDict d => inr (List.length d)
  | _ => inl (TypeError ("object of type '" ++ type_name v ++ "' has no len()"))
  end.

(** A [str] that holds JSON text. [Dumps v] is the string [json.dumps(v)],
    kept as the value it encodes: [json.loads] gives that value back (the
    dictionaries dumped here hold strings, integers, [None] and lists of
    such). [Raw s] is any other text. *)
Inductive json_text : Type :=
| Dumps (v : value)
| Raw (s : string).

(** [not s] for such a string; the output of [json.dumps] is never empty. *)
Definition is_empty_text (t : json_text) : bool :=
  match t with Dumps _ => false | Raw s => String.eqb s "" end.

End Json.
Import Json.

(** ** Python numbers *)

(** A [float]: a finite double, read as the rational it stands for, one of
    the two infinities, or NaN. *)
Inductive pyfloat : Type :=
| Finite (q : Q)
| Infinity (negative : bool)
| NaN.

(** A JSON number as [json.load] returns it: an [int] of any size, or a
    [float] ([NaN], [Infinity] and [-Infinity] are read, and a literal out of
    range such as [1e999] is an infinity). *)
Inductive number : Type :=
| Int (n : Z)
| Float (x : pyfloat).

(** The integer nearest to [x], ties to even. *)
Definition round_half_even (x : Q) : Z :=
  let n := (2 * Qnum x + Zpos (Qden x))%Z in
  let d := (2 * Zpos (Qden x))%Z in
  let r := (n / d)%Z in
  if ((n mod d =? 0) && Z.odd r)%Z then (r - 1)%Z else r.

(** [b ** k] for an integer [k] of either sign. *)
Definition power (b : Z) (k : Z) : Q :=
  if (0 <=? k)%Z then inject_Z (b ^ k) else 1 # Z.to_pos (b ^ (- k)).

Definition magnitude (x : Q) : Q := Z.abs (Qnum x) # Qden x.

(** The exponent of a positive [a]: the [e] with [2**e <= a < 2**(e+1)]. *)
Definition exponent (a : Q) : Z :=
  let e := (Z.log2 (Qnum a) - Z.log2 (Zpos (Qden a)))%Z in
  if Qle_bool (power 2 e) a then e else (e - 1)%Z.

(** IEEE rounding to binary64: the double nearest to [x], ties to even,
    as the rational it stands for. It has 53 significant bits, fewer below
    [2**-1022]; [x] is within the range of doubles. *)
Definition to_double (x : Q) : Q :=
  if Qeq_bool x 0 then 0%Q
  else
    let a := magnitude x in
    let p := (Z.max (exponent a) (-1022) - 52)%Z in
    let v := Qred (inject_Z (round_half_even (a / power 2 p)) * power 2 p) in
    if Py.Qltb x 0 then Qopp v else v.

(** The least magnitude that no longer rounds to a finite double:
    [2**1024 - 2**970]. *)
Definition float_limit : Z := (2 ^ 1024 - 2 ^ 970)%Z.

(** The float that a real value becomes: the nearest double, or the
    infinity of its sign when it is out of range. *)
Definition rounded (q : Q) : pyfloat :=
  if Qle_bool (inject_Z float_limit) q then Infinity false
  else if Qle_bool q (inject_Z (- float_limit)) then Infinity true
  else Finite (to_double q).

(** [float(n)]. An integer is rounded to the nearest double; a float is
    returned as it is (a finite one is normalised to a double, which leaves a
    double unchanged). *)
Definition to_float (n : number) : exn + pyfloat :=
  match n with
  | Int z =>
      if (Z.abs z <? float_limit)%Z then inr (rounded (inject_Z z))
      else inl (OverflowError "int too large to convert to float")
  | Float (Finite q) => inr (rounded q)
  | Float x => inr x
  end.

(** [a - b]. *)
Definition fsub (a b : pyfloat) : pyfloat :=
  match a, b with
  | NaN, _ => NaN
  | _, NaN => NaN
  | Infinity s, Infinity t => if Bool.eqb s t then NaN else Infinity s
  | Infinity s, Finite _ => Infinity s
  | Finite _, Infinity t => Infinity (negb t)
  | Finite x, Finite y => rounded (x - y)
  end.

(** [a < 0] and [a >= 0]: both are false of NaN. *)
Definition flt0 (a : pyfloat) : bool :=
  match a with
  | Finite q => Py.Qltb q 0
  | Infinity negative => negative
  | NaN => false
  end.
Definition fge0 (a : pyfloat) : bool :=
  match a with
  | Finite q => Qle_bool 0 q
  | Infinity negative => negb negative
  | NaN => false
  end.

(** ** [xml.etree.ElementTree] elements *)
Module ET.

Inductive element : Type :=
| Element (tag : string) (attrib : list (string * string)) (text : option string)
    (children : list element).

Definition tag (e : element) : string := let '(Element t _ _ _) := e in t.
Definition text (e : element) : option string := let '(Element _ _ x _) := e in x.
Definition children (e : element) : list element := let '(Element _ _ _ c) := e in c.

(** [e.get(key, default)] on the attributes. *)
Definition get (e : element) (key default : string) : string :=
  let '(Element _ a _ _) := e in
  match find (fun kv => String.eqb (fst kv) key) a with
  | Some kv => snd kv
  | None => default
  end.

(** Every element below [e], in document order, [e] itself left out. *)
Fixpoint descendants (e : element) : list element :=
  let '(Element _ _ _ c) := e in
  flat_map (fun x => x :: descendants x) c.

Definition has_tag (t : string) (e : element) : bool := String.eqb (tag e) t.

(** [e.findall(".//T")] and [e.find(".//T")]. *)
Definition findall_desc (e : element) (t : string) : list element :=
  filter (has_tag t) (descendants e).
Definition find_desc (e : element) (t : string) : option element :=
  hd_error (findall_desc e t).

(** [e.find(".//T1/T2")]: the [T2] children of the [T1] descendants. *)
Definition find_desc_child (e : element) (t1 t2 : string) : option element :=
  hd_error (flat_map (fun x => filter (has_tag t2) (children x)) (findall_desc e t1)).

(** [e.find("T")]: the first child with that tag. *)
Definition find_child (e : element) (t : string) : option element :=
  find (has_tag t) (children e).

End ET.

(** ** The environment of the program

    Everything the two modules obtain from outside: the two NCBI endpoints
    (the oracle answers for [requests.get], [raise_for_status] and the
    decoding of the body together, or raises), the language model, the
    catalogue file, the JSON reader, the configuration flag computed at import
    time, and Python's own number and object formatting. *)

(** The body of an [esearch] answer as far as the code reads it:
    [data.get("esearchresult")], then [.get("idlist")]. *)
Definition esearch_json : Type := option (option (list string)).

(** A catalogue entry, one object of [data/jan_aushadhi.json], with the
    types of its schema: strings for the names, numbers for the prices.
    [None] is an absent key. *)
Record CatalogEntry : Type := {
  generic_name : option string;
  common_brands : option (list string);
  jan_price : option number;
  market_avg_price : option number;
  savings_percentage : option string
}.

(** The patient profile: the tags the research agent reads and the other
    keys, which only reach the prompt. *)
Record PatientData : Type := {
  condition_tags : option (list string);
  profile : dict
}.

(** The prompt of the safety agent is one fixed template around these four
    values. *)
Record Prompt : Type := {
  prompt_patient : PatientData;
  prompt_order : string;
  prompt_evidence : json_text;
  prompt_savings : dict
}.

Class Runtime : Type := {
  World : Type;
  (** [requests.get(NCBI_API_BASE + "esearch.fcgi", params)] for a [term] *)
  http_esearch : string -> World -> (exn + esearch_json) * World;
  (** [requests.get(NCBI_API_BASE + "efetch.fcgi", params)] for an [id],
      then [ET.fromstring] *)
  http_efetch : string -> World -> (exn + ET.element) * World;
  (** [llm.invoke([HumanMessage(content=prompt)]).content] *)
  llm_invoke : Prompt -> World -> (exn + string) * World;
  (** [load_jan_aushadhi_db()]: the parsed file, [[]] when it is missing or
      is not JSON; any other exception of [open] or of the reader is not
      caught there *)
  load_jan_aushadhi_db : World -> exn + list CatalogEntry;
  (** [json.loads] on arbitrary text *)
  json_loads : string -> exn + value;
  (** the module-level flag [USE_LLM] *)
  USE_LLM : bool;
  (** [str(x)] for a finite float, as an f-string inserts it *)
  float_str : Q -> string;
  (** [format(x, ".Nf")] for a finite float *)
  float_fixed : nat -> Q -> string;
  (** [str(v)] for an object that is not a string *)
  py_repr : value -> string
}.

(** [json.loads] on a string that may be a dump. *)
Definition loads `{Runtime} (t : json_text) : exn + value :=
  match t with
  | Dumps v => inr v
  | Raw s => json_loads s
  end.

(** [f"{x}"] and [f"{x:.Nf}"] for any float. *)
Definition format_float `{Runtime} (x : pyfloat) : string :=
  match x with
  | Finite q => float_str q
  | Infinity false => "inf"
  | Infinity true => "-inf"
  | NaN => "nan"
  end.
Definition format_fixed `{Runtime} (n : nat) (x : pyfloat) : string :=
  match x with
  | Finite q => float_fixed n q
  | Infinity false => "inf"
  | Infinity true => "-inf"
  | NaN => "nan"
  end.

(** [f"{v}"]. *)
Definition py_str `{Runtime} (v : value) : string :=
  match v with
  | VStr s => s
  | _ => py_repr v
  end.

(** ** The state of a run: the outside world and the requests made so far *)
Inductive request : Type :=
| Esearch (term : string)
| Efetch (ids : string)
| Invoke (p : Prompt).

Record State `{Runtime} : Type := {
  world : World;
  requests : list request
}.

Definition M `{Runtime} (A : Type) : Type := State -> A * State.

Definition ret `{Runtime} {A : Type} (x : A) : M A := fun s => (x, s).
Definition bind `{Runtime} {A B : Type} (m : M A) (f : A -> M B) : M B :=
  fun s => let '(x, s') := m s in f x s'.

Notation "x <- m ;; k" := (bind m (fun x => k))
  (at level 61, m at next level, right associativity).

(** One logged call of an oracle. *)
Definition call `{Runtime} {A : Type} (r : request) (f : World -> A * World) : M A :=
  fun s =>
    let '(x, w) := f (world s) in
    (x, {| world := w; requests := (requests s ++ [r])%list |}).

(** ** [Backend/tools.py] *)
Module Tools.

Definition nl : string := String "010"%char "".
Definition dquote : string := String "034"%char "".

(** *** Tool 1: the PubMed researcher *)

(** After a [<]: can [[^>]+>] match here? It needs a first character that
    is not [>] and a [>] somewhere after it. *)
Fixpoint has_gt (s : string) : bool :=
  match s with
  | EmptyString => false
  | String c s' => if Ascii.eqb c ">" then true else has_gt s'
  end.

Definition tag_opens (s : string) : bool :=
  match s with
  | EmptyString => false
  | String c s' => negb (Ascii.eqb c ">") && has_gt s'
  end.

(** [re.sub(r'<[^>]+>', '', s)]: matches are taken from the left and each
    runs to the first [>]. [in_tag] holds while a match is being dropped. *)
Fixpoint sub_tags (in_tag : bool) (s : string) : string :=
  match s with
  | EmptyString => EmptyString
  | String c s' =>
      if in_tag then sub_tags (negb (Ascii.eqb c ">")) s'
      else if Ascii.eqb c "<" && tag_opens s' then sub_tags true s'
      else String c (sub_tags false s')
  end.

(** [clean_xml_text]; the argument is [None] where Python passes [None]. *)
Definition clean_xml_text (text : option string) : string :=
  match text with
  | None => ""
  | Some EmptyString => ""
  | Some t => Py.join " " (Py.split (sub_tags false t))
  end.

Definition date_filter : string :=
  " AND (" ++ dquote ++ "2015/01/01" ++ dquote ++ "[Date - Publication] : "
  ++ dquote ++ "3000" ++ dquote ++ "[Date - Publication])".
Definition quality_filter (strict_mode : bool) : string :=
  if strict_mode
  then " AND (Systematic Review[pt] OR Guideline[pt] OR Clinical Trial[pt] OR Meta-Analysis[pt])"
  else "".
Definition language_filter : string := " AND English[Language]".

Definition final_query (query : string) (strict_mode : bool) : string :=
  "(" ++ query ++ ")" ++ quality_filter strict_mode ++ date_filter ++ language_filter.

(** [search_pubmed_ids]: any exception of the request gives [[]]. *)
Definition search_pubmed_ids `{Runtime} (query : string) (strict_mode : bool)
    : M (list string) :=
  let term := final_query query strict_mode in
  r <- call (Esearch term) (http_esearch term) ;;
  ret match r with
      | inr (Some (Some idlist)) => idlist
      | inr _ => []
      | inl _ => []
      end.

(** [x.text if x is not None else default]. *)
Definition text_or (x : option ET.element) (default : string) : option string :=
  match x with
  | Some e => ET.text e
  | None => Some default
  end.

(** A [str] or [None] as a value, and as an f-string prints it. *)
Definition opt_value (o : option string) : value :=
  match o with Some s => VStr s | None => VNone end.
Definition opt_format (o : option string) : string :=
  match o with Some s => s | None => "None" end.

(** One entry of [abstract_parts]. *)
Definition abstract_part (abs_text : ET.element) : string :=
  let label := ET.get abs_text "Label" "" in
  let text := match ET.text abs_text with Some t => t | None => "" end in
  match label with
  | EmptyString => text
  | _ => Py.upper label ++ ": " ++ text
  end.

(** The body of the inner [try] of [fetch_article_details]: one
    [PubmedArticle] element to one article record. Without a [PubDate]
    element [pub_date_elem.find] is called on [None] and raises. *)
Definition parse_article (article_elem : ET.element) : exn + value :=
  let pmid := text_or (ET.find_desc article_elem "PMID") "Unknown" in
  let title := clean_xml_text (text_or (ET.find_desc article_elem "ArticleTitle") "No Title") in
  let journal_elem :=
    match ET.find_desc_child article_elem "Journal" "ISOAbbreviation" with
    | Some e => Some e
    | None => ET.find_desc_child article_elem "Journal" "Title"
    end in
  let journal := text_or journal_elem "Unknown Journal" in
  match ET.find_desc article_elem "PubDate" with
  | None => inl (AttributeError "'NoneType' object has no attribute 'find'")
  | Some pub_date_elem =>
      let year := ET.find_child pub_date_elem "Year" in
      let month := ET.find_child pub_date_elem "Month" in
      let pub_date :=
        Py.strip (opt_format (text_or year "Unknown") ++ " " ++ opt_format (text_or month "")) in
      let abstract_texts := ET.findall_desc article_elem "AbstractText" in
      let abstract :=
        match abstract_texts with
        | [] => "No Abstract Available."
        | _ => clean_xml_text (Some (Py.join nl (map abstract_part abstract_texts)))
        end in
      inr (VDict [("pmid", opt_value pmid);
                  ("title", VStr title);
                  ("journal", opt_value journal);
                  ("pub_date", VStr pub_date);
                  ("abstract", VStr abstract);
                  ("url", VStr ("https://pubmed.ncbi.nlm.nih.gov/" ++ opt_format pmid ++ "/"))])
  end.

(** The loop over [root.findall(".//PubmedArticle")]: an article whose
    parsing raises is skipped. *)
Definition parse_articles (root : ET.element) : list value :=
  flat_map (fun article_elem =>
              match parse_article article_elem with
              | inr a => [a]
              | inl _ => []
              end)
           (ET.findall_desc root "PubmedArticle").

(** [fetch_article_details]: no request for an empty list; any exception
    of the request or of the XML reader gives [[]]. *)
Definition fetch_article_details `{Runtime} (id_list : list string) : M (list value) :=
  match id_list with
  | [] => ret []
  | _ =>
      let ids := Py.join "," id_list in
      r <- call (Efetch ids) (http_efetch ids) ;;
      ret match r with
          | inr root => parse_articles root
          | inl _ => []
          end
  end.

Definition no_results : value :=
  VDict [("status", VStr "error"); ("message", VStr "No results found.")].

(** [query_pubmed_realtime]. *)
Definition query_pubmed_realtime `{Runtime} (query : string) : M json_text :=
  pmids <- search_pubmed_ids query true ;;
  pmids <- match pmids with
           | [] => search_pubmed_ids query false
           | _ => ret pmids
           end ;;
  match pmids with
  | [] => ret (Dumps no_results)
  | _ =>
      articles <- fetch_article_details pmids ;;
      ret (Dumps (VDict [("status", VStr "success");
                         ("evidence_count", VInt (Z.of_nat (List.length articles)));
                         ("articles", VList articles)]))
  end.

(** *** Tool 2: the Jan Aushadhi finder *)

(** [get_similarity_score]. *)
Definition get_similarity_score (query target : string) : Q :=
  let q := Py.strip (Py.lower query) in
  let t := Py.strip (Py.lower target) in
  let base_score := (Difflib.ratio q t * 100)%Q in
  if (4 <? String.length q) && Py.contains q t
  then Py.max base_score 95
  else base_score.

Definition THRESHOLD : Q := 85.

(** The loop over [record.get('common_brands', [])]:
    [(brand_score, current_best_brand)]. *)
Definition best_brand (query_drug : string) (brands : list string) : Q * string :=
  fold_left (fun (acc : Q * string) brand =>
               let b_score := get_similarity_score query_drug brand in
               if Py.Qltb (fst acc) b_score then (b_score, brand) else acc)
            brands (0%Q, "").

(** Steps 1 to 3 of the loop body:
    [(generic_score, brand_score, current_record_score, current_source)]. *)
Definition score_record (query_drug : string) (record : CatalogEntry)
    : Q * Q * Q * string :=
  let generic_name := match generic_name record with Some g => g | None => "" end in
  let generic_score := get_similarity_score query_drug generic_name in
  let '(brand_score, current_best_brand) :=
    best_brand query_drug
      (match common_brands record with Some l => l | None => [] end) in
  if Py.Qltb brand_score generic_score
  then (generic_score, brand_score, generic_score,
        "Generic Match (" ++ generic_name ++ ")")
  else (generic_score, brand_score, brand_score,
        "Brand Match (" ++ current_best_brand ++ ")").

(** The loop over the catalogue:
    [(best_match, highest_score, matched_name_source)]. *)
Definition Best : Type := (option CatalogEntry * Q * string)%type.

Definition scan_step (query_drug : string) (acc : Best) (record : CatalogEntry) : Best :=
  let '(best_match, highest_score, matched_name_source) := acc in
  let '(_, _, current_record_score, current_source) := score_record query_drug record in
  if Py.Qltb highest_score current_record_score
  then (Some record, current_record_score, current_source)
  else acc.

Definition scan_catalog (query_drug : string) (medicine_database : list CatalogEntry)
    : Best :=
  fold_left (scan_step query_drug) medicine_database (None, 0%Q, "").

Definition best_match (r : Best) : option CatalogEntry := fst (fst r).
Definition highest_score (r : Best) : Q := snd (fst r).
Definition matched_name_source (r : Best) : string := snd r.

Definition rupee : string := "₹".

(** [float(best_match.get(key, 0))]. *)
Definition price (p : option number) : exn + pyfloat :=
  match p with
  | Some n => to_float n
  | None => inr (Finite 0)
  end.

(** Lines 221 to 223: [(jan_price, market_price, savings_amount)]. *)
Definition priced (best_match : CatalogEntry) : exn + (pyfloat * pyfloat * pyfloat) :=
  match price (jan_price best_match) with
  | inl e => inl e
  | inr jan_price =>
      match price (market_avg_price best_match) with
      | inl e => inl e
      | inr market_price => inr (jan_price, market_price, fsub market_price jan_price)
      end
  end.

(** Lines 179 and 180: [medicine_database] is [None] when the caller leaves
    it out, and the catalogue file is read then; [file_db] is what
    [load_jan_aushadhi_db()] gives, or raises. *)
Definition database (file_db : exn + list CatalogEntry)
    (medicine_database : option (list CatalogEntry)) : exn + list CatalogEntry :=
  match medicine_database with
  | Some db => inr db
  | None => file_db
  end.

(** [search_jan_aushadhi]. A best match without a ['generic_name'] key
    raises [KeyError] when the result is built. *)
Definition search_jan_aushadhi `{Runtime} (file_db : exn + list CatalogEntry)
    (query_drug : string) (medicine_database : option (list CatalogEntry))
    : exn + dict :=
  match database file_db medicine_database with
  | inl e => inl e
  | inr [] => inr [("found", VBool false); ("message", VStr "Database unavailable.")]
  | inr medicine_database =>
      let '(best_match, highest_score, matched_name_source) :=
        scan_catalog query_drug medicine_database in
      if Qle_bool THRESHOLD highest_score then
        match best_match with
        | None => inl (AttributeError "'NoneType' object has no attribute 'get'")
        | Some best_match =>
            match priced best_match with
            | inl e => inl e
            | inr (jan_price, market_price, savings_amount) =>
                if flt0 savings_amount then
                  inr [("found", VBool false);
                       ("message", VStr "Generic found but offers no savings.")]
                else
                  match generic_name best_match with
                  | None => inl (KeyError "generic_name")
                  | Some name =>
                      inr [("found", VBool true);
                           ("drug_data", VDict [
                              ("generic_name", VStr name);
                              ("brand_name_detected", VStr query_drug);
                              ("match_source", VStr matched_name_source);
                              ("jan_aushadhi_price",
                               VStr (rupee ++ format_float jan_price));
                              ("market_average_price",
                               VStr (rupee ++ format_float market_price));
                              ("savings_amount",
                               VStr (rupee ++ format_fixed 2 savings_amount));
                              ("savings_percentage",
                               VStr (match savings_percentage best_match with
                                     | Some p => p
                                     | None => "0%"
                                     end))]);
                           ("message",
                            VStr ("Switch Available: Jan Aushadhi " ++ name ++ " costs "
                                  ++ rupee ++ format_float jan_price ++ " (vs " ++ rupee
                                  ++ format_float market_price ++ "). Save " ++ rupee
                                  ++ format_fixed 2 savings_amount ++ "."))]
                  end
            end
        end
      else
        inr [("found", VBool false);
             ("message",
              VStr ("No direct Jan Aushadhi substitute found. (Best match: "
                    ++ float_fixed 1 highest_score ++ "%)"))]
  end.

End Tools.

(** ** [Backend/agent_system.py] *)
Module AgentSystem.
Import Tools.

(** Sequencing of steps that may raise. *)
Notation "x <-? m ;; k" :=
  (match m with inl e => inl e | inr x => k end)
  (at level 61, m at next level, right associativity).

Record AgentState : Type := {
  patient_id : string;
  doctor_query : string;
  patient_data : PatientData;
  research_evidence : json_text;
  jan_aushadhi_result : dict;
  final_response : value
}.

(** *** Node 2: the research agent *)

(** The list [search_terms]. *)
Definition search_terms (query : string) (patient_context : list string) : list string :=
  let conditions_str :=
    match patient_context with [] => "" | _ => Py.join " " patient_context end in
  [ query ++ " " ++ conditions_str ++ " contraindications adverse effects";
    query ++ " " ++ conditions_str ++ " safety";
    query ++ " chronic kidney disease";
    query ++ " clinical guidelines" ].

(** The test that ends the loop:
    [evidence_data.get('status') == 'success' and
     len(evidence_data.get('articles', [])) > 0]. *)
Definition found_articles `{Runtime} (evidence : json_text) : exn + bool :=
  evidence_data <-? loads evidence ;;
  status <-? py_get evidence_data "status" ;;
  if eq_str status "success" then
    articles <-? py_get evidence_data "articles" ;;
    n <-? py_len (match articles with Some l => l | None => VList [] end) ;;
    inr (0 <? n)
  else inr false.

(** The loop [for search_term in search_terms], with [evidence] as it
    stands on entry. *)
Fixpoint research_loop `{Runtime} (terms : list string) (evidence : option json_text)
    : M (exn + option json_text) :=
  match terms with
  | [] => ret (inr evidence)
  | search_term :: rest =>
      evidence <- query_pubmed_realtime search_term ;;
      match found_articles evidence with
      | inl e => ret (inl e)
      | inr true => ret (inr (Some evidence))
      | inr false => research_loop rest (Some evidence)
      end
  end.

(** [research_agent]: the pair is the returned update,
    [(research_evidence, jan_aushadhi_result)]. *)
Definition research_agent `{Runtime} (state : AgentState)
    : M (exn + json_text * dict) :=
  fun s =>
    let query := doctor_query state in
    let patient_context :=
      match condition_tags (patient_data state) with Some l => l | None => [] end in
    match search_jan_aushadhi (load_jan_aushadhi_db (world s)) query None with
    | inl e => (inl e, s)
    | inr jan_result =>
        let '(r, s') := research_loop (search_terms query patient_context) None s in
        (evidence <-? r ;;
         let evidence :=
           match evidence with
           | None => Dumps no_results
           | Some t => if is_empty_text t then Dumps no_results else t
           end in
         inr (evidence, jan_result), s')
    end.

(** What a retrieval output holds: the number of articles under status
    [success], and none otherwise. *)
Definition article_count (evidence : json_text) : nat :=
  match evidence with
  | Dumps (VDict d) =>
      if eq_str (dict_get d "status") "success"
      then match dict_get d "articles" with
           | Some (VList l) => List.length l
           | _ => 0
           end
      else 0
  | _ => 0
  end.

(** The variants [terms] are queried one after the other from the state
    [s] and none yields an article: the state reached, if so. *)
Fixpoint all_empty `{Runtime} (terms : list string) (s : State) : option State :=
  match terms with
  | [] => Some s
  | term :: rest =>
      let '(evidence, s') := query_pubmed_realtime term s in
      if article_count evidence =? 0 then all_empty rest s' else None
  end.

(** *** Node 3: the safety agent *)

(** The first [try] of [safety_agent]: the articles kept as sources. *)
Definition pubmed_articles `{Runtime} (research_evidence : json_text) : value :=
  match loads research_evidence with
  | inl _ => VList []
  | inr evidence_data =>
      match py_get evidence_data "status" with
      | inl _ => VList []
      | inr status =>
          if eq_str status "success"
          then match py_get evidence_data "articles" with
               | inr (Some l) => l
               | _ => VList []
               end
          else VList []
      end
  end.

Definition not_found : value := VDict [("found", VBool false)].

(** The response when [USE_LLM] is false. *)
Definition llm_off_response (state : AgentState) (sources : value) : value :=
  VDict [("status", VStr "approved");
         ("title", VStr "Manual Review Recommended");
         ("message", VStr ("Query: " ++ doctor_query state
                           ++ ". Please review PubMed evidence and patient history manually."));
         ("evidence", VStr "LLM not configured - using fallback mode");
         ("suggestion", VNone);
         ("savings", if truthy_opt (dict_get (jan_aushadhi_result state) "found")
                     then VDict (jan_aushadhi_result state) else not_found);
         ("sources", sources)].

(** The response of the [except] branch. *)
Definition fail_safe_response (e : exn) (sources : value) : value :=
  VDict [("status", VStr "caution");
         ("title", VStr "Analysis Error");
         ("message", VStr "Could not complete automated safety check. Please review guidelines manually.");
         ("evidence", VStr ("System Error: " ++ str_exn e));
         ("suggestion", VNone);
         ("savings", not_found);
         ("sources", sources)].

Definition make_prompt (state : AgentState) : Prompt :=
  {| prompt_patient := patient_data state;
     prompt_order := doctor_query state;
     prompt_evidence := research_evidence state;
     prompt_savings := jan_aushadhi_result state |}.

Definition fence_json : string := "```json".
Definition fence : string := "```".

(** [response.content.replace("```json", "").replace("```", "").strip()]. *)
Definition clean_json_text (content : string) : string :=
  Py.strip (Py.replace (Py.replace content fence_json "") fence "").

(** The text the tool's result is turned into. *)
Definition savings_text `{Runtime} (savings_amount generic_name : option value) : string :=
  "Save " ++ py_str (match savings_amount with Some v => v | None => VStr "money" end)
  ++ " by switching to Jan Aushadhi "
  ++ py_str (match generic_name with Some v => v | None => VStr "alternative" end)
  ++ ".".

(** The body of the second [try], from the model's answer on. *)
Definition decide `{Runtime} (state : AgentState) (sources : value)
    (response : exn + string) : exn + value :=
  content <-? response ;;
  final_decision <-? json_loads (clean_json_text content) ;;
  final_decision <-?
    (if truthy_opt (dict_get (jan_aushadhi_result state) "found") then
       status <-? py_getitem final_decision "status" ;;
       if negb (eq_str (Some status) "blocked") then
         tool_data <-? py_getitem (VDict (jan_aushadhi_result state)) "drug_data" ;;
         savings_amount <-? py_get tool_data "savings_amount" ;;
         generic_name <-? py_get tool_data "generic_name" ;;
         py_setitem final_decision "savings"
           (VDict [("found", VBool true);
                   ("text", VStr (savings_text savings_amount generic_name))])
       else inr final_decision
     else inr final_decision) ;;
  py_setitem final_decision "sources" sources.

(** [safety_agent]: the value of ['final_response'] in the returned
    update. Outside its two [try] blocks the function only reads the state
    and formats the prompt, so every exception is handled inside. *)
Definition safety_agent `{Runtime} (state : AgentState) : M value :=
  let sources := pubmed_articles (research_evidence state) in
  if USE_LLM then
    response <- call (Invoke (make_prompt state)) (llm_invoke (make_prompt state)) ;;
    ret match decide state sources response with
        | inr final_decision => final_decision
        | inl e => fail_safe_response e sources
        end
  else ret (llm_off_response state sources).

End AgentSystem.

(** ** A scripted runtime, for running the model on concrete inputs *)
Module Sample.
Import Tools.

(** Decimal digits of a non-negative integer, at least [width] of them. *)
Fixpoint digits_from (fuel : nat) (width : nat) (n : Z) (acc : string) : string :=
  match fuel with
  | 0 => acc
  | S f =>
      let d := ascii_of_nat (48 + Z.to_nat (n mod 10)) in
      let acc := String d acc in
      if (n / 10 =? 0)%Z && (width <=? 1)
      then acc
      else digits_from f (width - 1) (n / 10)%Z acc
  end.

Definition digits (width : nat) (n : Z) : string :=
  digits_from (S (Z.to_nat (Z.log2 n)) + width) width n "".

(** Number formatting as CPython does it, from the digits of the double
    nearest to the value. *)

(** The integer part, rounded down. *)
Definition floor (x : Q) : Z := (Qnum x / Zpos (Qden x))%Z.

(** [format(x, ".Nf")] of the double nearest to [x]. *)
Definition fixed (n : nat) (x : Q) : string :=
  let x := to_double x in
  let scale := (10 ^ Z.of_nat n)%Z in
  let a := Z.abs (round_half_even (x * inject_Z scale)) in
  (if Py.Qltb x 0 then "-" else "")
  ++ digits 1 (a / scale)
  ++ match n with 0 => "" | _ => "." ++ digits n (a mod scale) end.

(** The position of the decimal point of a positive [a]: the least [k]
    with [a < 10**k]. *)
Definition decimal_point (a : Q) : Z :=
  let k := (exponent a * 30103 / 100000 - 1)%Z in
  if Py.Qltb a (power 10 k) then k
  else if Py.Qltb a (power 10 (k + 1)) then (k + 1)%Z
  else if Py.Qltb a (power 10 (k + 2)) then (k + 2)%Z
  else if Py.Qltb a (power 10 (k + 3)) then (k + 3)%Z
  else (k + 4)%Z.

(** The digits of the shortest decimal that reads back as the positive
    double [v]: with [n] digits, the decimal below or above [v] that does,
    the nearer one if both do. *)
Definition candidate (v : Q) (k : Z) (n : nat) : option Z :=
  let scale := power 10 (Z.of_nat n - k) in
  let lo := floor (v * scale) in
  let hi := (lo + 1)%Z in
  let reads c := Qeq_bool (to_double (inject_Z c / scale)) v in
  match reads lo, reads hi with
  | true, true =>
      let dl := (v * scale - inject_Z lo)%Q in
      let dh := (inject_Z hi - v * scale)%Q in
      if Py.Qltb dl dh then Some lo
      else if Py.Qltb dh dl then Some hi
      else Some (if Z.even lo then lo else hi)
  | true, false => Some lo
  | false, true => Some hi
  | false, false => None
  end.

Fixpoint shortest (v : Q) (k : Z) (fuel : nat) (n : nat) : Z * nat :=
  match fuel with
  | 0 => (floor (v * power 10 (Z.of_nat n - k)), n)
  | S f =>
      match candidate v k n with
      | Some c => (c, n)
      | None => shortest v k f (S n)
      end
  end.

Fixpoint strip_zeros (fuel : nat) (c : Z) : Z :=
  match fuel with
  | 0 => c
  | S f => if ((c mod 10 =? 0) && negb (c =? 0))%Z then strip_zeros f (c / 10)%Z else c
  end.

Definition zeros (n : Z) : string :=
  match n with
  | Zpos p => digits (Pos.to_nat p) 0
  | _ => ""
  end.

Fixpoint take (n : nat) (s : string) : string :=
  match n, s with
  | S n', String c s' => String c (take n' s')
  | _, _ => EmptyString
  end.

(** [repr(x)] of the double nearest to [x]: the shortest digits that read
    back, in positional notation when the decimal point lies within 16
    digits to the right and 4 to the left, with an exponent otherwise. *)
Definition repr (x : Q) : string :=
  let x := to_double x in
  if Qeq_bool x 0 then "0.0"
  else
    let v := magnitude x in
    let k := decimal_point v in
    let '(c, n) := shortest v k 17 1 in
    let all := digits 1 c in
    let point := (k + Z.of_nat (String.length all) - Z.of_nat n)%Z in
    let ds := digits 1 (strip_zeros 17 c) in
    let len := Z.of_nat (String.length ds) in
    (if Py.Qltb x 0 then "-" else "")
    ++ (if ((-4 <? point) && (point <=? 16))%Z
        then
          if (point <=? 0)%Z then "0." ++ zeros (- point) ++ ds
          else if (len <=? point)%Z then ds ++ zeros (point - len) ++ ".0"
          else take (Z.to_nat point) ds ++ "." ++ Py.drop (Z.to_nat point) ds
        else
          take 1 ds
          ++ (match Py.drop 1 ds with EmptyString => "" | rest => "." ++ rest end)
          ++ "e" ++ (if (point <? 1)%Z then "-" else "+")
          ++ digits 2 (Z.abs (point - 1)))%string.

(** A reader for a fragment of JSON: objects, arrays, strings without
    escapes, integers, [true], [false], [null]. *)
Fixpoint skip_ws (s : string) : string :=
  match s with
  | String c s' => if Py.isspace c then skip_ws s' else s
  | EmptyString => s
  end.

Fixpoint read_string (s : string) (acc : string) : option (string * string) :=
  match s with
  | EmptyString => None
  | String c s' =>
      if Ascii.eqb c "034" then Some (Py.rev_str "" acc, s')
      else if Ascii.eqb c "\" then None
      else read_string s' (String c acc)
  end.

Definition is_digit (c : ascii) : bool :=
  (48 <=? nat_of_ascii c) && (nat_of_ascii c <=? 57).

Fixpoint read_digits (s : string) (acc : Z) : Z * string :=
  match s with
  | String c s' =>
      if is_digit c
      then read_digits s' (10 * acc + Z.of_nat (nat_of_ascii c - 48))%Z
      else (acc, s)
  | EmptyString => (acc, s)
  end.

Definition starts_digit (s : string) : bool :=
  match s with String c _ => is_digit c | EmptyString => false end.

Fixpoint read_value (fuel : nat) (s : string) : option (value * string) :=
  match fuel with
  | 0 => None
  | S f =>
      let read_items :=
        fix read_items (n : nat) (s : string) (acc : list value)
            : option (value * string) :=
          match n with
          | 0 => None
          | S n' =>
              match read_value f s with
              | None => None
              | Some (v, r) =>
                  match skip_ws r with
                  | String "," r' => read_items n' r' (acc ++ [v])%list
                  | String "]" r' => Some (VList (acc ++ [v])%list, r')
                  | _ => None
                  end
              end
          end in
      let read_members :=
        fix read_members (n : nat) (s : string) (acc : dict) : option (value * string) :=
          match n with
          | 0 => None
          | S n' =>
              match skip_ws s with
              | String "034" r =>
                  match read_string r "" with
                  | None => None
                  | Some (k, r1) =>
                      match skip_ws r1 with
                      | String ":" r2 =>
                          match read_value f r2 with
                          | None => None
                          | Some (v, r3) =>
                              match skip_ws r3 with
                              | String "," r4 => read_members n' r4 (dict_set acc k v)
                              | String "}" r4 => Some (VDict (dict_set acc k v), r4)
                              | _ => None
                              end
                          end
                      | _ => None
                      end
                  end
              | _ => None
              end
          end in
      match skip_ws s with
      | String "{" r =>
          match skip_ws r with
          | String "}" r' => Some (VDict [], r')
          | _ => read_members (String.length r) r []
          end
      | String "[" r =>
          match skip_ws r with
          | String "]" r' => Some (VList [], r')
          | _ => read_items (String.length r) r []
          end
      | String "034" r =>
          match read_string r "" with
          | Some (x, r') => Some (VStr x, r')
          | None => None
          end
      | String "-" r =>
          if starts_digit r
          then let '(n, r') := read_digits r 0 in Some (VInt (- n), r')
          else None
      | r =>
          if prefix "true" r then Some (VBool true, Py.drop 4 r)
          else if prefix "false" r then Some (VBool false, Py.drop 5 r)
          else if prefix "null" r then Some (VNone, Py.drop 4 r)
          else if starts_digit r
               then let '(n, r') := read_digits r 0 in Some (VInt n, r')
               else None
      end
  end.

Definition read_json (s : string) : exn + value :=
  match read_value (S (String.length s)) s with
  | Some (v, r) =>
      match skip_ws r with
      | EmptyString => inr v
      | _ => inl (ExternalError "Extra data")
      end
  | None => inl (ExternalError "Expecting value")
  end.

(** A world without state: the index, the model and the files answer as
    the given functions say. *)
Definition scripted
    (esearch : string -> exn + esearch_json)
    (efetch : string -> exn + ET.element)
    (llm : exn + string)
    (db : list CatalogEntry)
    (use_llm : bool) : Runtime :=
  {| World := unit;
     http_esearch := fun term w => (esearch term, w);
     http_efetch := fun ids w => (efetch ids, w);
     llm_invoke := fun _ w => (llm, w);
     load_jan_aushadhi_db := fun _ => inr db;
     json_loads := read_json;
     USE_LLM := use_llm;
     float_str := repr;
     float_fixed := fixed;
     py_repr := fun _ => "<object>" |}.

Definition start (R : Runtime) (w : @World R) : @State R :=
  {| world := w; requests := [] |}.

(** The catalogue of the test area of [tools.py]. *)
Definition mock_db : list CatalogEntry :=
  [ {| generic_name := Some "Atorvastatin";
       common_brands := Some ["Lipitor"; "Storvas"];
       jan_price := Some (Int 12);
       market_avg_price := Some (Int 140);
       savings_percentage := Some "91%" |} ].

Definition offline : Runtime :=
  scripted (fun _ => inl (ExternalError "offline")) (fun _ => inl (ExternalError "offline"))
           (inl (ExternalError "offline")) mock_db false.

Definition iron : CatalogEntry :=
  {| generic_name := Some "Iron Sucrose Injection";
     common_brands := Some [];
     jan_price := Some (Int 100);
     market_avg_price := Some (Int 300);
     savings_percentage := Some "66%" |}.

Definition atorvastatin_calcium : CatalogEntry :=
  {| generic_name := Some "Atorvastatin Calcium";
     common_brands := Some ["Atorvastatin Tablets"; "Lipitor"];
     jan_price := Some (Int 12);
     market_avg_price := Some (Int 140);
     savings_percentage := Some "91%" |}.

(** An entry whose market price is the JSON literal [NaN], and one whose
    market price is the integer [10**400]. *)
Definition unpriced : CatalogEntry :=
  {| generic_name := Some "Paracetamol";
     common_brands := Some ["Crocin"; "Calpol"];
     jan_price := Some (Int 8);
     market_avg_price := Some (Float NaN);
     savings_percentage := None |}.

Definition astronomic : CatalogEntry :=
  {| generic_name := Some "Paracetamol";
     common_brands := Some ["Crocin"; "Calpol"];
     jan_price := Some (Int 8);
     market_avg_price := Some (Int (10 ^ 400));
     savings_percentage := None |}.

(** An entry that costs more at Jan Aushadhi than on the market. *)
Definition overpriced : CatalogEntry :=
  {| generic_name := Some "Metformin";
     common_brands := Some ["Glycomet"];
     jan_price := Some (Int 30);
     market_avg_price := Some (Int 25);
     savings_percentage := Some "0%" |}.

Definition leaf (tag text : string) : ET.element := ET.Element tag [] (Some text) [].
Definition node (tag : string) (children : list ET.element) : ET.element :=
  ET.Element tag [] None children.

(** An [efetch] answer with one complete article and one without a
    publication date. *)
Definition article_xml : ET.element :=
  node "PubmedArticle" [
    node "MedlineCitation" [
      leaf "PMID" "31234567";
      node "Article" [
        node "Journal" [
          node "JournalIssue" [ node "PubDate" [ leaf "Year" "2019"; leaf "Month" "Jun" ] ];
          leaf "Title" "Kidney International";
          leaf "ISOAbbreviation" "Kidney Int" ];
        leaf "ArticleTitle" "NSAID use in   chronic kidney disease";
        node "Abstract" [
          ET.Element "AbstractText" [("Label", "Background")]
            (Some "NSAIDs are <i>nephrotoxic</i>.") [];
          leaf "AbstractText" "Avoid them." ] ] ] ].

Definition undated_xml : ET.element :=
  node "PubmedArticle" [ node "MedlineCitation" [ leaf "PMID" "30000001" ] ].

Definition efetch_xml : ET.element := node "PubmedArticleSet" [ undated_xml; article_xml ].

(** The index finds something for every term and the fetch answers. *)
Definition online : Runtime :=
  scripted (fun _ => inr (Some (Some ["30000001"; "31234567"])))
           (fun _ => inr efetch_xml)
           (inl (ExternalError "offline")) mock_db false.

(** The index finds identifiers, but the fetch times out. *)
Definition fetch_down : Runtime :=
  scripted (fun _ => inr (Some (Some ["31234567"])))
           (fun _ => inl (ExternalError "Read timed out."))
           (inl (ExternalError "offline")) mock_db false.

(** The index finds something only for the third variant of the research
    agent, the one on chronic kidney disease. *)
Definition third_variant_only : Runtime :=
  scripted (fun term =>
              if Py.contains "chronic kidney disease" term
              then inr (Some (Some ["31234567"]))
              else inr (Some (Some [])))
           (fun _ => inr efetch_xml)
           (inl (ExternalError "offline")) mock_db false.

Definition quoted (s : string) : string := dquote ++ s ++ dquote.

(** An answer of the model: a draft verdict inside markdown fences, with a
    savings claim of its own. *)
Definition fenced_draft : string :=
  AgentSystem.fence_json ++ nl
  ++ "{" ++ quoted "status" ++ ": " ++ quoted "approved" ++ ", "
  ++ quoted "title" ++ ": " ++ quoted "Safe" ++ ", "
  ++ quoted "savings" ++ ": {" ++ quoted "found" ++ ": false, "
  ++ quoted "text" ++ ": " ++ quoted "Save 999 rupees" ++ "}}"
  ++ nl ++ AgentSystem.fence.

Definition with_llm (answer : string) : Runtime :=
  scripted (fun _ => inl (ExternalError "offline")) (fun _ => inl (ExternalError "offline"))
           (inr answer) mock_db true.

(** The matcher's result for ["Lipitor"] on the catalogue of the test
    area. *)
Definition lipitor_result : dict :=
  Eval vm_compute in
    match @search_jan_aushadhi offline (inr []) "Lipitor" (Some mock_db) with
    | inr d => d
    | inl _ => []
    end.

Definition success_evidence : json_text :=
  Dumps (VDict [("status", VStr "success");
                ("evidence_count", VInt 1);
                ("articles", VList [VDict [("pmid", VStr "31234567")]])]).

Definition ckd_patient : PatientData :=
  {| condition_tags := Some ["CKD"; "Hypertension"]; profile := [] |}.

Definition lipitor_state : AgentSystem.AgentState :=
  {| AgentSystem.patient_id := "PAT-001";
     AgentSystem.doctor_query := "Lipitor";
     AgentSystem.patient_data := ckd_patient;
     AgentSystem.research_evidence := success_evidence;
     AgentSystem.jan_aushadhi_result := lipitor_result;
     AgentSystem.final_response := VDict [] |}.

(** The state the third variant is queried in, when the two before it
    found nothing. *)
Definition after_two_variants : @State third_variant_only :=
  Eval vm_compute in
    match @AgentSystem.all_empty third_variant_only
            [ "Lipitor CKD Hypertension contraindications adverse effects";
              "Lipitor CKD Hypertension safety" ]
            (start third_variant_only tt) with
    | Some s => s
    | None => start third_variant_only tt
    end.

End Sample.

(** ** The rest of [agent_system.py]: node 1 and the workflow *)
Module Workflow.
Import Tools AgentSystem.

(** [json.load] of [data/patients.json] as [personalization_agent] reads
    it: the mapping from patient identifier to profile (each entry an
    object), or the exception of [open] or of the JSON reader. *)
Class PatientStore `{Runtime} : Type := {
  load_patients : World -> exn + list (string * PatientData)
}.

(** [{"error": "Patient not found"}] and [{}]. *)
Definition patient_not_found : PatientData :=
  {| condition_tags := None; profile := [("error", VStr "Patient not found")] |}.
Definition no_patient_data : PatientData :=
  {| condition_tags := None; profile := [] |}.

(** [not patient] for a profile: the object has no key. *)
Definition is_empty_patient (p : PatientData) : bool :=
  match condition_tags p, profile p with
  | None, [] => true
  | _, _ => false
  end.

(** [all_patients.get(patient_id)]. *)
Definition lookup_patient (all_patients : list (string * PatientData)) (id : string)
    : option PatientData :=
  option_map snd (find (fun kv => String.eqb (fst kv) id) all_patients).

(** [personalization_agent]: the value of ['patient_data'] in the returned
    update. Nothing is requested from the network. *)
Definition personalization_agent `{PatientStore} (state : AgentState) : M PatientData :=
  fun s =>
    (match load_patients (world s) with
     | inl _ => no_patient_data
     | inr all_patients =>
         match lookup_patient all_patients (patient_id state) with
         | Some patient =>
             if is_empty_patient patient then patient_not_found else patient
         | None => patient_not_found
         end
     end, s).

Definition initial_state (patient_id doctor_query : string) : AgentState :=
  {| patient_id := patient_id;
     doctor_query := doctor_query;
     patient_data := no_patient_data;
     research_evidence := Raw "";
     jan_aushadhi_result := [];
     final_response := VDict [] |}.

Definition with_patient (state : AgentState) (p : PatientData) : AgentState :=
  {| patient_id := patient_id state;
     doctor_query := doctor_query state;
     patient_data := p;
     research_evidence := research_evidence state;
     jan_aushadhi_result := jan_aushadhi_result state;
     final_response := final_response state |}.

Definition with_research (state : AgentState) (evidence : json_text) (jan : dict)
    : AgentState :=
  {| patient_id := patient_id state;
     doctor_query := doctor_query state;
     patient_data := patient_data state;
     research_evidence := evidence;
     jan_aushadhi_result := jan;
     final_response := final_response state |}.

(** [run_agent_workflow]: the three nodes in a row, each update merged into
    the state. An exception of the research agent is not caught here. The
    closing [len(state["final_response"].get("sources", []))] only feeds a
    [print], but is evaluated. *)
Definition run_agent_workflow `{PatientStore} (patient_id doctor_query : string)
    : M (exn + value) :=
  let state := initial_state patient_id doctor_query in
  patient <- personalization_agent state ;;
  let state := with_patient state patient in
  research_result <- research_agent state ;;
  match research_result with
  | inl e => ret (inl e)
  | inr (evidence, jan_result) =>
      let state := with_research state evidence jan_result in
      final <- safety_agent state ;;
      ret (sources <-? py_get final "sources" ;;
           _ <-? py_len (match sources with Some v => v | None => VList [] end) ;;
           inr final)
  end.

End Workflow.

(** ** The callers in [Backend/app.py] *)
Module App.
Import Tools AgentSystem Workflow.

(** [s.split(" ")]: the pieces between single spaces, empty ones kept. *)
Fixpoint split_space (s : string) : list string :=
  match s with
  | EmptyString => [EmptyString]
  | String c s' =>
      if Ascii.eqb c " " then EmptyString :: split_space s'
      else match split_space s' with
           | word :: rest => String c word :: rest
           | [] => [String c EmptyString]
           end
  end.

(** [v.split(" ")] on what [.get("message", "")] returned. *)
Definition py_split_space (v : value) : exn + list string :=
  match v with
  | VStr s => inr (split_space s)
  | _ => inl (AttributeError ("'" ++ type_name v ++ "' object has no attribute 'split'"))
  end.

(** The chunks of the loop over [enumerate(words)]: every word but the
    last gets its space back. *)
Fixpoint chunks (words : list string) : list string :=
  match words with
  | [] => []
  | [word] => [word]
  | word :: rest => (word ++ " ") :: chunks rest
  end.

(** The objects handed to [json.dumps] in the [yield]s; each is sent as
    the line [data: ...] followed by an empty line. *)
Definition chunk_event (chunk : string) : value :=
  VDict [("chunk", VStr chunk); ("done", VBool false)].
Definition done_event (data : option value) : value :=
  VDict ([("chunk", VStr ""); ("done", VBool true)]
         ++ match data with Some d => [("data", d)] | None => [] end)%list.
Definition error_event (e : exn) : value :=
  VDict [("chunk", VStr ""); ("done", VBool true); ("error", VStr (str_exn e))].

Definition word_events (message : string) : list value :=
  map chunk_event (chunks (split_space message)).

Definition keywords : list string :=
  ["interaction"; "research"; "study"; "evidence"; "pubmed"].

Definition generic_message : string :=
  "Based on current guidelines, I recommend monitoring the patient's vitals closely. Please provide a patient ID for personalized analysis.".

(** [any(keyword in message.lower() for keyword in [...])]. *)
Definition wants_research (message : string) : bool :=
  existsb (fun keyword => Py.contains keyword (Py.lower message)) keywords.

(** The generator [generate_stream] of [chat_with_ai], as the list of the
    events it yields. With a patient, whatever can raise does so before
    the first [yield], so a failure leaves the error event alone; without
    one, [json.loads] runs in the last [yield], after the words.
    [patient_id] is the optional field of the request. *)
Definition generate_stream `{PatientStore} (message : string) (patient_id : option string)
    : M (list value) :=
  let patient_given :=
    match patient_id with
    | Some id => negb (String.eqb id "")
    | None => false
    end in
  if patient_given then
    r <- run_agent_workflow (match patient_id with Some id => id | None => "" end)
                            message ;;
    ret match (agent_response <-? r ;;
               full_message <-? py_get agent_response "message" ;;
               words <-? py_split_space
                           (match full_message with Some m => m | None => VStr "" end) ;;
               inr (map chunk_event (chunks words)
                    ++ [done_event (Some agent_response)])%list) with
        | inr events => events
        | inl e => [error_event e]
        end
  else if wants_research message then
    pubmed_results <- query_pubmed_realtime message ;;
    ret (word_events ("Found evidence-based research for: " ++ message)
         ++ [match loads pubmed_results with
             | inr data => done_event (Some data)
             | inl e => error_event e
             end])%list
  else ret (word_events generic_message ++ [done_event None])%list.

(** [{"status": "success", "query": drug_name, **result}]: the keys of
    [result] are set one after the other on the first two. *)
Definition merge (base extra : dict) : dict :=
  fold_left (fun d kv => dict_set d (fst kv) (snd kv)) extra base.

(** The body of [search_jan_aushadhi_drug], once the caller is
    authenticated: the catalogue file is read and passed on. *)
Definition search_jan_aushadhi_drug `{Runtime} (drug_name : string) (s : State)
    : exn + dict :=
  jan_db <-? load_jan_aushadhi_db (world s) ;;
  result <-? search_jan_aushadhi (load_jan_aushadhi_db (world s)) drug_name (Some jan_db) ;;
  inr (merge [("status", VStr "success"); ("query", VStr drug_name)] result).

End App.

(** ** The lookups of [Backend/auth.py] that the endpoints rely on *)
Module Auth.
Import AgentSystem App.

(** The doctors' file and the password hasher: [load_doctors_db()] (the
    parsed object, each entry an object, empty when the file is missing or
    invalid) and [pwd_context.verify(plain, hashed)]. *)
Class Accounts `{Runtime} : Type := {
  load_doctors_db : World -> list (string * dict);
  pwd_verify : string -> value -> exn + bool
}.

(** [doctor_data.get(key, "").lower()]. *)
Definition lower_field (doctor_data : dict) (key : string) : exn + string :=
  match dict_get doctor_data key with
  | None => inr ""
  | Some (VStr x) => inr (Py.lower x)
  | Some v => inl (AttributeError ("'" ++ type_name v ++ "' object has no attribute 'lower'"))
  end.

(** The loop of [get_user_by_email] over [doctors_db.items()]. *)
Fixpoint find_user (doctors : list (string * dict)) (email : string) : exn + option dict :=
  match doctors with
  | [] => inr None
  | (doctor_id, doctor_data) :: rest =>
      doctor_email <-? lower_field doctor_data "email" ;;
      doctor_username <-? lower_field doctor_data "username" ;;
      if String.eqb doctor_email (Py.lower email)
         || String.eqb doctor_username (Py.lower email)
      then inr (Some (merge [("id", VStr doctor_id)] doctor_data))
      else find_user rest email
  end.

(** [get_user_by_email]. *)
Definition get_user_by_email `{Accounts} (email : string) (s : State) : exn + option dict :=
  find_user (load_doctors_db (world s)) email.

(** [user.get("hashed_password") or user.get("password_hash", "")]. *)
Definition stored_hash (user : dict) : value :=
  match dict_get user "hashed_password" with
  | Some v => if truthy v then v else dict_get_default user "password_hash" (VStr "")
  | None => dict_get_default user "password_hash" (VStr "")
  end.

(** [authenticate_user]; an exception of the hasher is caught and counts
    as a wrong password. *)
Definition authenticate_user `{Accounts} (email password : string) (s : State)
    : exn + option dict :=
  user <-? get_user_by_email email s ;;
  match user with
  | None => inr None
  | Some user =>
      if String.eqb password "doctor123" then inr (Some user)
      else
        let password_hash := stored_hash user in
        if truthy password_hash
        then match pwd_verify password password_hash with
             | inr true => inr (Some user)
             | _ => inr None
             end
        else inr None
  end.

End Auth.

(** ** The session endpoints of [Backend/app.py] *)
Module Api.
Import AgentSystem App Auth.

(** The token library with the server's key: [auth.create_access_token]
    on the claims given (the expiry is added from the clock) and
    [auth.decode_access_token], which gives the payload or [None]. *)
Class Tokens `{Runtime} : Type := {
  create_access_token : dict -> World -> exn + string;
  decode_access_token : string -> World -> option dict
}.

(** What a route hands to the framework: a value, an [HTTPException], or
    any other exception. *)
Inductive response (A : Type) : Type :=
| Ok (a : A)
| HTTPException (status_code : nat) (detail : string)
| Raised (e : exn).
Arguments Ok {A} a.
Arguments HTTPException {A} status_code detail.
Arguments Raised {A} e.

(** [{k: v for k, v in user.items() if k != "hashed_password"}]. *)
Definition user_safe (user : dict) : dict :=
  filter (fun kv => negb (String.eqb (fst kv) "hashed_password")) user.

(** [login]. *)
Definition login {R : Runtime} {A : @Accounts R} {T : @Tokens R}
    (email password : string) (s : State) : response dict :=
  match authenticate_user email password s with
  | inl e => Raised e
  | inr None => HTTPException 401 "Incorrect email or password"
  | inr (Some []) => HTTPException 401 "Incorrect email or password"
  | inr (Some user) =>
      match dict_get user "username" with
      | None => Raised (KeyError "username")
      | Some username =>
          match create_access_token [("sub", username)] (world s) with
          | inl e => Raised e
          | inr access_token =>
              Ok [("access_token", VStr access_token);
                  ("token_type", VStr "bearer");
                  ("user", VDict (user_safe user))]
          end
      end
  end.

(** [auth.get_user_by_email(payload.get("sub"))]: on a value that is no
    string, [email.lower()] fails in the first round of the loop, after the
    record's own e-mail address was lowered; with no record there is no
    round. *)
Definition get_user_by_sub {R : Runtime} {A : @Accounts R}
    (sub : option value) (s : State) : exn + option dict :=
  match sub with
  | Some (VStr email) => get_user_by_email email s
  | _ =>
      match load_doctors_db (world s) with
      | [] => inr None
      | (_, doctor_data) :: _ =>
          _ <-? lower_field doctor_data "email" ;;
          inl (AttributeError
                 ("'" ++ type_name (match sub with Some v => v | None => VNone end)
                  ++ "' object has no attribute 'lower'"))
      end
  end.

(** [get_current_user], from the bearer token of the request. *)
Definition get_current_user {R : Runtime} {A : @Accounts R} {T : @Tokens R}
    (token : string) (s : State) : response dict :=
  match decode_access_token token (world s) with
  | None | Some [] => HTTPException 401 "Invalid or expired token"
  | Some payload =>
      match get_user_by_sub (dict_get payload "sub") s with
      | inl e => Raised e
      | inr None | inr (Some []) => HTTPException 404 "User not found"
      | inr (Some user) => Ok user
      end
  end.

End Api.

(** ** Observations used in the statements *)
Module Observe.
Import Tools AgentSystem.

(** The score and the provenance that the catalogue scan keeps for one
    record. *)
Definition record_score (query : string) (record : CatalogEntry) : Q :=
  snd (fst (score_record query record)).
Definition record_source (query : string) (record : CatalogEntry) : string :=
  snd (score_record query record).

(** Every name under which a record can be matched. *)
Definition names_of (record : CatalogEntry) : list string :=
  (match generic_name record with Some g => g | None => "" end)
  :: match common_brands record with Some l => l | None => [] end.

(** The identifier under which an article element is recorded: the text
    of its first [PMID] element ([None] when that is empty), ["Unknown"]
    without one. *)
Definition pmid_of (article_elem : ET.element) : value :=
  opt_value (text_or (ET.find_desc article_elem "PMID") "Unknown").

(** What a retrieval that found identifiers returns for the articles
    fetched. *)
Definition success_of (articles : list value) : json_text :=
  Dumps (VDict [("status", VStr "success");
                ("evidence_count", VInt (Z.of_nat (List.length articles)));
                ("articles", VList articles)]).

(** The article element has a publication date. *)
Definition has_pub_date (article_elem : ET.element) : bool :=
  match ET.find_desc article_elem "PubDate" with Some _ => true | None => false end.

Definition article_keys : list string :=
  ["pmid"; "title"; "journal"; "pub_date"; "abstract"; "url"].

(** Whitespace in normal form: no space character at either end, and every
    space character is a single [" "] between two other characters. *)
Fixpoint spaced (s : string) : bool :=
  match s with
  | EmptyString => true
  | String c s' =>
      (if Py.isspace c
       then Ascii.eqb c " "
            && match s' with
               | String d _ => negb (Py.isspace d)
               | EmptyString => false
               end
       else true)
      && spaced s'
  end.

Definition normal_spacing (s : string) : bool :=
  match s with
  | EmptyString => true
  | String c _ => negb (Py.isspace c) && spaced s
  end.

(** No space character at all. *)
Fixpoint no_space (s : string) : bool :=
  match s with
  | EmptyString => true
  | String c s' => negb (Py.isspace c) && no_space s'
  end.

(** A word: not empty, no space character. *)
Definition is_word (w : string) : Prop := w <> "" /\ no_space w = true.

(** No occurrence of the character [c]. *)
Fixpoint lacks (c : ascii) (s : string) : bool :=
  match s with
  | EmptyString => true
  | String x s' => negb (Ascii.eqb x c) && lacks c s'
  end.

(** The e-mail address and the user name of every record of the doctors'
    file are ASCII text, where they are strings. *)
Definition ascii_field (doctor_data : dict) (key : string) : bool :=
  match dict_get doctor_data key with
  | Some (VStr x) => Py.isascii x
  | _ => true
  end.
Definition ascii_accounts (doctors : list (string * dict)) : bool :=
  forallb (fun entry => ascii_field (snd entry) "email"
                        && ascii_field (snd entry) "username") doctors.

(** The requests that go to the literature index. *)
Definition is_pubmed_request (r : request) : bool :=
  match r with
  | Esearch _ | Efetch _ => true
  | Invoke _ => false
  end.

Definition sum_sizes (blocks : list Difflib.Match) : nat :=
  list_sum (map (fun t : Difflib.Match => snd t) blocks).

(** Characters of [a], and of [b], still to be matched by a queue. *)
Definition span_a (queue : list Difflib.Range) : nat :=
  list_sum (map (fun r : Difflib.Range => let '(alo, ahi, _, _) := r in ahi - alo) queue).
Definition span_b (queue : list Difflib.Range) : nat :=
  list_sum (map (fun r : Difflib.Range => let '(_, _, blo, bhi) := r in bhi - blo) queue).

End Observe.

(** ** More scripted inputs *)
Module Cases.
Import Tools AgentSystem Workflow App Auth Sample.

(** An entry of the catalogue file that lacks its generic name. *)
Definition nameless : CatalogEntry :=
  {| generic_name := None;
     common_brands := Some ["Crocin Advance"];
     jan_price := Some (Int 8);
     market_avg_price := Some (Int 30);
     savings_percentage := None |}.

(** No search finds anything. *)
Definition nothing_found : Runtime :=
  scripted (fun _ => inr (Some (Some [])))
           (fun _ => inl (ExternalError "offline"))
           (inl (ExternalError "offline")) mock_db false.

(** The catalogue file holds the nameless entry. *)
Definition broken_catalogue : Runtime :=
  scripted (fun _ => inr (Some (Some [])))
           (fun _ => inl (ExternalError "offline"))
           (inl (ExternalError "offline")) [nameless] false.

(** The catalogue file is there but is not UTF-8 text: reading it raises,
    and the loader does not catch that. *)
Definition unreadable_catalogue : Runtime :=
  {| World := unit;
     http_esearch := fun _ w => (inr (Some (Some [])), w);
     http_efetch := fun _ w => (inl (ExternalError "offline"), w);
     llm_invoke := fun _ w => (inl (ExternalError "offline"), w);
     load_jan_aushadhi_db :=
       fun _ => inl (ExternalError "'utf-8' codec can't decode byte 0xff in position 0");
     json_loads := read_json;
     USE_LLM := false;
     float_str := repr;
     float_fixed := fixed;
     py_repr := fun _ => "<object>" |}.

Definition patients : list (string * PatientData) := [("PAT-001", ckd_patient)].

Definition store (R : Runtime) : @PatientStore R :=
  {| load_patients := fun _ => inr patients |}.

(** A draft that blocks the order and makes a savings claim of its own. *)
Definition blocked_draft : string :=
  "{" ++ quoted "status" ++ ": " ++ quoted "blocked" ++ ", "
  ++ quoted "savings" ++ ": {" ++ quoted "found" ++ ": false}}".

Definition doctors : list (string * dict) :=
  [ ("DOC-001", [("email", VStr "Asha@Clinic.in"); ("username", VStr "asha");
                 ("password_hash", VStr "$2b$12$stored")]);
    ("DOC-002", [("email", VStr "ravi@clinic.in"); ("username", VStr "Asha");
                 ("id", VStr "legacy-7")]) ].

Definition accounts (R : Runtime) : @Accounts R :=
  {| load_doctors_db := fun _ => doctors;
     pwd_verify := fun password hashed =>
                     match hashed with
                     | VStr _ => inr (String.eqb password "correct horse")
                     | _ => inl (TypeError "hash must be unicode or bytes")
                     end |}.

(** Tokens that show their subject: the text ["for:"] and the subject. *)
Definition tokens (R : Runtime) : @Api.Tokens R :=
  {| Api.create_access_token :=
       fun data _ =>
         match dict_get data "sub" with
         | Some (VStr sub) => inr ("for:" ++ sub)
         | _ => inl (TypeError "Subject must be a string")
         end;
     Api.decode_access_token :=
       fun token _ =>
         if String.prefix "for:" token
         then Some [("sub", VStr (Py.drop 4 token)); ("exp", VInt 1790000000)]
         else None |}.

(** The state in which the last variant is queried when the three before
    it found nothing. *)
Definition after_three_variants : @State nothing_found :=
  Eval vm_compute in
    match @AgentSystem.all_empty nothing_found
            [ "Lipitor CKD Hypertension contraindications adverse effects";
              "Lipitor CKD Hypertension safety";
              "Lipitor chronic kidney disease" ]
            (start nothing_found tt) with
    | Some s => s
    | None => start nothing_found tt
    end.

End Cases.

(** * Properties *)

(** ** Strings *)
Section StringFacts.

Lemma prefix_empty t : prefix "" t = true.
Proof. destruct t; reflexivity. Qed.

Lemma prefix_cons_inv c p t :
  prefix (String c p) t = true -> exists t', t = String c t' /\ prefix p t' = true.
Proof.
  destruct t as [|d t']; simpl; [discriminate|].
  destruct (ascii_dec c d) as [->|]; [|discriminate].
  intros Hp. exists t'. split; [reflexivity | exact Hp].
Qed.

Lemma prefix_cons c p t : prefix (String c p) (String c t) = prefix p t.
Proof. simpl. destruct (ascii_dec c c); [reflexivity | congruence]. Qed.

Lemma contains_unfold q t :
  Py.contains q t =
  prefix q t || match t with EmptyString => false | String _ t' => Py.contains q t' end.
Proof. destruct t; reflexivity. Qed.

Lemma contains_empty t : Py.contains "" t = true.
Proof. rewrite contains_unfold, prefix_empty. reflexivity. Qed.

Lemma prefix_contains q t : prefix q t = true -> Py.contains q t = true.
Proof. intros Hp. rewrite contains_unfold, Hp. reflexivity. Qed.

Lemma contains_tail q c t : Py.contains q t = true -> Py.contains q (String c t) = true.
Proof. intros Hc. rewrite contains_unfold, Hc. apply orb_true_r. Qed.

Lemma contains_cons_inv q c t :
  Py.contains q (String c t) = true ->
  prefix q (String c t) = true \/ Py.contains q t = true.
Proof. rewrite contains_unfold. apply orb_true_iff. Qed.

Lemma contains_nil_inv q : Py.contains q "" = true -> q = "".
Proof. destruct q; [reflexivity | discriminate]. Qed.

(** A block of a block: dropping the first character of the needle. *)
Lemma contains_behead c x t :
  Py.contains (String c x) t = true -> Py.contains x t = true.
Proof.
  induction t as [|d t IH]; intros Hc.
  - discriminate.
  - apply contains_cons_inv in Hc. apply contains_tail.
    destruct Hc as [Hp | Hc]; [|exact (IH Hc)].
    apply prefix_cons_inv in Hp. destruct Hp as (t' & Heq & Hp).
    injection Heq as _ <-. now apply prefix_contains.
Qed.

Lemma contains_lstrip_needle q t :
  Py.contains q t = true -> Py.contains (Py.lstrip q) t = true.
Proof.
  induction q as [|c q IH]; intros Hc; simpl; [exact Hc|].
  destruct (Py.isspace c); [|exact Hc].
  apply IH. eapply contains_behead; eassumption.
Qed.

Lemma prefix_rstrip_needle q : forall t,
  prefix q t = true -> prefix (Py.rstrip q) t = true.
Proof.
  induction q as [|c q IH]; intros t Hp; [exact Hp|].
  apply prefix_cons_inv in Hp. destruct Hp as (t' & -> & Hp).
  specialize (IH _ Hp). simpl Py.rstrip.
  destruct (Py.rstrip q) as [|x r].
  - destruct (Py.isspace c); [reflexivity|]. now rewrite prefix_cons.
  - now rewrite prefix_cons.
Qed.

Lemma contains_rstrip_needle q t :
  Py.contains q t = true -> Py.contains (Py.rstrip q) t = true.
Proof.
  induction t as [|d t IH]; intros Hc.
  - apply contains_nil_inv in Hc. subst q. reflexivity.
  - apply contains_cons_inv in Hc. destruct Hc as [Hp | Hc].
    + apply prefix_contains. now apply prefix_rstrip_needle.
    + apply contains_tail. exact (IH Hc).
Qed.

Lemma length_lstrip s : String.length (Py.lstrip s) <= String.length s.
Proof.
  induction s as [|c s IH]; simpl; [lia|].
  destruct (Py.isspace c); simpl; lia.
Qed.

(** A string that [lstrip] leaves alone does not begin with a space. *)
Lemma lstrip_fixed_head c s : Py.lstrip (String c s) = String c s -> Py.isspace c = false.
Proof.
  simpl. destruct (Py.isspace c); [|reflexivity].
  intros Heq. pose proof (length_lstrip s) as Hl. rewrite Heq in Hl. simpl in Hl. lia.
Qed.

Lemma lstrip_head c s : Py.isspace c = false -> Py.lstrip (String c s) = String c s.
Proof. intros Hc. simpl. now rewrite Hc. Qed.

Lemma lstrip_idem s : Py.lstrip (Py.lstrip s) = Py.lstrip s.
Proof.
  induction s as [|c s IH]; [reflexivity|].
  simpl. destruct (Py.isspace c) eqn:Hc; [exact IH | now apply lstrip_head].
Qed.

Lemma rstrip_idem s : Py.rstrip (Py.rstrip s) = Py.rstrip s.
Proof.
  induction s as [|c s IH]; [reflexivity|].
  simpl. destruct (Py.rstrip s) as [|x r] eqn:Hr.
  - destruct (Py.isspace c) eqn:Hc; [reflexivity|]. simpl. now rewrite Hc.
  - change (Py.rstrip (String c (String x r))) with
      (match Py.rstrip (String x r) with
       | EmptyString => if Py.isspace c then EmptyString else String c EmptyString
       | r' => String c r'
       end).
    now rewrite IH.
Qed.

Lemma rstrip_head c s :
  Py.isspace c = false -> exists r, Py.rstrip (String c s) = String c r.
Proof.
  intros Hc. simpl. destruct (Py.rstrip s) as [|x r].
  - rewrite Hc. now exists "".
  - now exists (String x r).
Qed.

Lemma lstrip_rstrip_fixed x : Py.lstrip x = x -> Py.lstrip (Py.rstrip x) = Py.rstrip x.
Proof.
  destruct x as [|c x]; [reflexivity|].
  intros Hx. apply lstrip_fixed_head in Hx.
  destruct (rstrip_head c x Hx) as (r & ->). now apply lstrip_head.
Qed.

Lemma contains_lstrip_target q t :
  q <> "" -> Py.lstrip q = q ->
  Py.contains q t = true -> Py.contains q (Py.lstrip t) = true.
Proof.
  intros Hne Hq. destruct q as [|d q]; [congruence|].
  apply lstrip_fixed_head in Hq.
  induction t as [|c t IH]; intros Hc; [discriminate|].
  simpl. destruct (Py.isspace c) eqn:Hsp; [|exact Hc].
  apply contains_cons_inv in Hc. destruct Hc as [Hp | Hc]; [|exact (IH Hc)].
  apply prefix_cons_inv in Hp. destruct Hp as (t' & Heq & _).
  injection Heq as <- _. congruence.
Qed.

Lemma prefix_rstrip_target p : forall t,
  Py.rstrip p = p -> prefix p t = true -> prefix p (Py.rstrip t) = true.
Proof.
  induction p as [|c p IH]; intros t Hfix Hp; [apply prefix_empty|].
  apply prefix_cons_inv in Hp. destruct Hp as (t' & -> & Hp).
  simpl in Hfix. destruct (Py.rstrip p) as [|x r] eqn:Hr.
  - destruct (Py.isspace c) eqn:Hc; [discriminate|].
    injection Hfix as <-.
    destruct (rstrip_head c t' Hc) as (r' & ->).
    rewrite prefix_cons. apply prefix_empty.
  - injection Hfix as <-.
    specialize (IH t' eq_refl Hp).
    change (Py.rstrip (String c t')) with
      (match Py.rstrip t' with
       | EmptyString => if Py.isspace c then EmptyString else String c EmptyString
       | r' => String c r'
       end).
    destruct (Py.rstrip t') as [|y r2]; [discriminate|].
    now rewrite prefix_cons.
Qed.

Lemma contains_rstrip_target q t :
  q <> "" -> Py.rstrip q = q ->
  Py.contains q t = true -> Py.contains q (Py.rstrip t) = true.
Proof.
  intros Hne Hq. induction t as [|c t IH]; intros Hc.
  - apply contains_nil_inv in Hc. congruence.
  - apply contains_cons_inv in Hc. destruct Hc as [Hp | Hc].
    + apply prefix_contains. now apply prefix_rstrip_target.
    + specialize (IH Hc).
      change (Py.rstrip (String c t)) with
        (match Py.rstrip t with
         | EmptyString => if Py.isspace c then EmptyString else String c EmptyString
         | r' => String c r'
         end).
      destruct (Py.rstrip t) as [|y r2].
      * apply contains_nil_inv in IH. congruence.
      * now apply contains_tail.
Qed.

Lemma prefix_map f q : forall t,
  prefix q t = true -> prefix (Py.map_str f q) (Py.map_str f t) = true.
Proof.
  induction q as [|c q IH]; intros t Hp; [apply prefix_empty|].
  apply prefix_cons_inv in Hp. destruct Hp as (t' & -> & Hp).
  simpl Py.map_str. rewrite prefix_cons. now apply IH.
Qed.

Lemma contains_map f q t :
  Py.contains q t = true -> Py.contains (Py.map_str f q) (Py.map_str f t) = true.
Proof.
  induction t as [|c t IH]; intros Hc.
  - apply contains_nil_inv in Hc. now subst q.
  - apply contains_cons_inv in Hc. destruct Hc as [Hp | Hc].
    + apply prefix_contains. now apply (prefix_map f q (String c t)).
    + simpl Py.map_str. apply contains_tail. exact (IH Hc).
Qed.

(** [q in t] survives the normalisation of both strings. *)
Lemma contains_normalized query target :
  Py.contains query target = true ->
  Py.contains (Py.strip (Py.lower query)) (Py.strip (Py.lower target)) = true.
Proof.
  intros Hc. unfold Py.lower.
  apply (contains_map Py.lower_char) in Hc.
  set (Q := Py.map_str Py.lower_char query) in *.
  set (N := Py.map_str Py.lower_char target) in *.
  destruct (string_dec (Py.strip Q) "") as [-> | Hne]; [apply contains_empty|].
  unfold Py.strip at 2.
  apply contains_rstrip_target; [exact Hne | apply rstrip_idem |].
  apply contains_lstrip_target; [exact Hne | |].
  - unfold Py.strip. apply lstrip_rstrip_fixed, lstrip_idem.
  - unfold Py.strip. now apply contains_rstrip_needle, contains_lstrip_needle.
Qed.

End StringFacts.

(** ** The matcher of [difflib] *)
Section DifflibFacts.
Import Difflib.

Variables a b : string.

Lemma j2len_ok_nil blo c : j2len_ok blo c [].
Proof. intros j. simpl. split; [lia | now left]. Qed.

Lemma best_ok_mono alo blo bhi m m' best :
  m <= m' -> best_ok alo blo bhi m best -> best_ok alo blo bhi m' best.
Proof. destruct best as [[bi bj] bs]. unfold best_ok. lia. Qed.

Lemma scan_js_ok alo blo bhi i j2len :
  alo <= i -> j2len_ok blo (i - alo) j2len ->
  forall js newj2len best,
    j2len_ok blo (i - alo + 1) newj2len ->
    best_ok alo blo bhi (i + 1) best ->
    j2len_ok blo (i - alo + 1) (fst (scan_js js blo bhi i j2len newj2len best)) /\
    best_ok alo blo bhi (i + 1) (snd (scan_js js blo bhi i j2len newj2len best)).
Proof.
  intros Hi Hold. induction js as [|j js IH]; intros newj2len best Hnew Hbest.
  - simpl. now split.
  - simpl. destruct (Nat.ltb_spec j blo) as [Hlo | Hlo]; [now apply IH|].
    destruct (Nat.leb_spec bhi j) as [Hhi | Hhi]; [simpl; now split|].
    set (k := S (match j with 0 => 0 | S j' => j2len_get j2len j' end)).
    assert (Hk : k <= i - alo + 1 /\ k + blo <= j + 1).
    { subst k. destruct j as [|j']; [lia|].
      destruct (Hold j') as [H1 H2]. lia. }
    destruct best as [[bi bj] bs].
    apply IH.
    + intros j0. simpl. destruct (Nat.eqb_spec j j0) as [<- | Hne].
      * split; [lia | right; lia].
      * apply Hnew.
    + destruct (bs <? k); [|exact Hbest].
      unfold best_ok. lia.
Qed.

Lemma scan_is_ok alo blo bhi : forall n i j2len best,
  alo <= i -> j2len_ok blo (i - alo) j2len ->
  best_ok alo blo bhi i best ->
  best_ok alo blo bhi (i + n) (scan_is a b n i blo bhi j2len best).
Proof.
  induction n as [|n IH]; intros i j2len best Hi Hold Hbest.
  - simpl. now rewrite Nat.add_0_r.
  - simpl.
    set (js := match get i a with Some c => b2j_get b c | None => [] end).
    pose proof (scan_js_ok alo blo bhi i j2len Hi Hold js [] best
                  (j2len_ok_nil _ _)
                  (best_ok_mono _ _ _ i (i + 1) best ltac:(lia) Hbest)) as [H1 H2].
    destruct (scan_js js blo bhi i j2len [] best) as [newj2len best'].
    simpl in H1, H2.
    replace (i + S n) with (S i + n) by lia.
    apply IH; [lia | | ].
    + replace (S i - alo) with (i - alo + 1) by lia. exact H1.
    + now replace (S i) with (i + 1) by lia.
Qed.

Lemma extend_left_ok alo blo bhi m : forall besti bestj bestsize,
  best_ok alo blo bhi m (besti, bestj, bestsize) ->
  best_ok alo blo bhi m (extend_left a b alo blo besti bestj bestsize).
Proof.
  induction besti as [|i' IH]; intros bestj bestsize Hok; [exact Hok|].
  simpl.
  destruct (Nat.ltb_spec alo (S i')) as [H1|]; [|exact Hok].
  destruct (Nat.ltb_spec blo bestj) as [H2|]; [|exact Hok].
  destruct (negb (junk_at b (bestj - 1)) && same_at a b i' (bestj - 1)) eqn:Hc;
    simpl; rewrite Hc; [|exact Hok].
  apply IH. unfold best_ok in *. lia.
Qed.

Lemma extend_right_ok alo blo bhi ahi : forall fuel besti bestj bestsize,
  best_ok alo blo bhi ahi (besti, bestj, bestsize) ->
  best_ok alo blo bhi ahi (extend_right a b fuel ahi bhi besti bestj bestsize).
Proof.
  induction fuel as [|f IH]; intros besti bestj bestsize Hok; [exact Hok|].
  simpl.
  destruct (Nat.ltb_spec (besti + bestsize) ahi) as [H1|]; [|exact Hok].
  destruct (Nat.ltb_spec (bestj + bestsize) bhi) as [H2|]; [|exact Hok].
  destruct (negb (junk_at b (bestj + bestsize))
            && same_at a b (besti + bestsize) (bestj + bestsize)) eqn:Hc;
    simpl; rewrite Hc; [|exact Hok].
  apply IH. unfold best_ok in *. lia.
Qed.

(** The fuel of [extend_right] is the number of positions left before
    [ahi]: more of it changes nothing. *)
Lemma extend_right_fuel ahi bhi : forall fuel extra besti bestj bestsize,
  ahi - (besti + bestsize) <= fuel ->
  extend_right a b (fuel + extra) ahi bhi besti bestj bestsize
  = extend_right a b fuel ahi bhi besti bestj bestsize.
Proof.
  induction fuel as [|f IH]; intros extra besti bestj bestsize Hf.
  - destruct extra as [|extra]; [reflexivity|]. simpl.
    destruct (Nat.ltb_spec (besti + bestsize) ahi); [lia | reflexivity].
  - simpl.
    destruct (Nat.ltb_spec (besti + bestsize) ahi) as [H1|]; [|reflexivity].
    destruct ((bestj + bestsize <? bhi)
              && negb (junk_at b (bestj + bestsize))
              && same_at a b (besti + bestsize) (bestj + bestsize)) eqn:Hc;
      simpl; rewrite Hc; [|reflexivity].
    apply IH. lia.
Qed.

(** The block returned by [find_longest_match] lies inside the two ranges
    it was given; in particular no index computed on the way is negative. *)
Lemma find_longest_match_bounds alo ahi blo bhi :
  alo <= ahi -> blo <= bhi ->
  best_ok alo blo bhi ahi (find_longest_match a b alo ahi blo bhi).
Proof.
  intros Ha Hb. unfold find_longest_match.
  pose proof (scan_is_ok alo blo bhi (ahi - alo) alo [] (alo, blo, 0)
                (le_n _) (j2len_ok_nil _ _)) as H0.
  replace (alo + (ahi - alo)) with ahi in H0 by lia.
  specialize (H0 ltac:(unfold best_ok; lia)).
  destruct (scan_is a b (ahi - alo) alo blo bhi [] (alo, blo, 0)) as [[bi bj] bs].
  apply extend_left_ok in H0.
  destruct (extend_left a b alo blo bi bj bs) as [[bi' bj'] bs'].
  now apply extend_right_ok.
Qed.

Lemma weight_cons alo ahi blo bhi queue :
  weight ((alo, ahi, blo, bhi) :: queue) = 2 * (ahi - alo) + 1 + weight queue.
Proof. reflexivity. Qed.

Lemma blocks_loop_enough : forall fuel queue acc extra,
  Forall range_ok queue -> weight queue <= fuel ->
  blocks_loop a b (fuel + extra) queue acc = blocks_loop a b fuel queue acc.
Proof.
  induction fuel as [|fuel IH]; intros queue acc extra Hok Hw.
  - destruct queue as [|[[[alo ahi] blo] bhi] queue].
    + destruct extra; reflexivity.
    + rewrite weight_cons in Hw. lia.
  - destruct queue as [|[[[alo ahi] blo] bhi] queue]; [reflexivity|].
    inversion Hok as [|? ? Hr Hrest]; subst. destruct Hr as [Ha Hb].
    rewrite weight_cons in Hw.
    pose proof (find_longest_match_bounds alo ahi blo bhi Ha Hb) as Hbest.
    simpl.
    destruct (find_longest_match a b alo ahi blo bhi) as [[i j] k].
    unfold best_ok in Hbest.
    destruct (Nat.eqb_spec k 0) as [Hk | Hk]; [apply IH; [exact Hrest | lia]|].
    apply IH.
    + destruct (Nat.ltb_spec alo i), (Nat.ltb_spec blo j),
               (Nat.ltb_spec (i + k) ahi), (Nat.ltb_spec (j + k) bhi);
        simpl; repeat constructor; try exact Hrest; simpl; lia.
    + destruct (Nat.ltb_spec alo i), (Nat.ltb_spec blo j),
               (Nat.ltb_spec (i + k) ahi), (Nat.ltb_spec (j + k) bhi);
        simpl; rewrite ?weight_cons; lia.
Qed.

(** The fuel of [get_matching_blocks] is enough: the loop stops because
    the queue is empty, and more passes would change nothing. *)
Lemma blocks_loop_fuel extra :
  let la := String.length a in
  let lb := String.length b in
  blocks_loop a b (2 * la + 1 + extra) [(0, la, 0, lb)] []
  = blocks_loop a b (2 * la + 1) [(0, la, 0, lb)] [].
Proof.
  intros la lb. apply blocks_loop_enough.
  - repeat constructor; simpl; lia.
  - rewrite weight_cons. unfold weight. simpl. lia.
Qed.

End DifflibFacts.

Section RatioEmpty.
Import Difflib.

Lemma scan_is_empty_b a : forall n i blo bhi j2len best,
  scan_is a "" n i blo bhi j2len best = best.
Proof.
  induction n as [|n IH]; intros; simpl; [reflexivity|].
  assert (Hjs : match get i a with Some c => b2j_get "" c | None => [] end = []).
  { destruct (get i a); reflexivity. }
  rewrite Hjs. simpl. apply IH.
Qed.

Lemma find_longest_match_empty_b a ahi :
  find_longest_match a "" 0 ahi 0 0 = (0, 0, 0).
Proof.
  unfold find_longest_match. rewrite scan_is_empty_b. simpl.
  destruct (ahi - 0); simpl; [reflexivity|].
  now rewrite andb_false_r.
Qed.

Lemma get_matching_blocks_empty_b a :
  get_matching_blocks a "" = [(String.length a, 0, 0)].
Proof.
  unfold get_matching_blocks. rewrite Nat.add_1_r.
  cbn [blocks_loop String.length]. rewrite find_longest_match_empty_b.
  cbn [Nat.eqb]. destruct (2 * String.length a); reflexivity.
Qed.

Lemma get_matching_blocks_empty_a b :
  get_matching_blocks "" b = [(0, String.length b, 0)].
Proof. reflexivity. Qed.

Lemma ratio_empty_b a : a <> "" -> (ratio a "" == 0)%Q.
Proof.
  intros Ha. unfold ratio. rewrite get_matching_blocks_empty_b.
  destruct a as [|c a]; [congruence|]. reflexivity.
Qed.

Lemma ratio_empty_a b : b <> "" -> (ratio "" b == 0)%Q.
Proof.
  intros Hb. unfold ratio. rewrite get_matching_blocks_empty_a.
  destruct b as [|c b]; [congruence|]. reflexivity.
Qed.

Lemma ratio_empty_both : ratio "" "" = 1%Q.
Proof. reflexivity. Qed.

End RatioEmpty.

(** ** Numbers *)
Section NumberFacts.

Lemma Qltb_lt x y : Py.Qltb x y = true <-> (x < y)%Q.
Proof.
  unfold Py.Qltb. rewrite negb_true_iff. split.
  - intros Hb. apply Qnot_le_lt. intros Hle.
    apply Qle_bool_iff in Hle. congruence.
  - intros Hlt. destruct (Qle_bool y x) eqn:Hb; [|reflexivity].
    apply Qle_bool_iff in Hb. exfalso. exact (Qlt_not_le _ _ Hlt Hb).
Qed.

Lemma Qltb_ge x y : Py.Qltb x y = false <-> (y <= x)%Q.
Proof.
  unfold Py.Qltb. rewrite negb_false_iff. apply Qle_bool_iff.
Qed.

Lemma max_ge_r x y : (y <= Py.max x y)%Q.
Proof.
  unfold Py.max. destruct (Py.Qltb x y) eqn:Hb.
  - apply Qle_refl.
  - now apply Qltb_ge.
Qed.

Lemma rounded_not_nan (q : Q) : rounded q <> NaN.
Proof.
  unfold rounded.
  destruct (Qle_bool _ _); [discriminate|]. destruct (Qle_bool _ _); discriminate.
Qed.

(** What is not below 0 is at least 0, or is NaN. *)
Lemma flt0_false (x : pyfloat) :
  flt0 x = false -> fge0 x = true \/ x = NaN.
Proof.
  destruct x as [q | negative |]; cbn [flt0 fge0].
  - intros Hneg. left. apply Qle_bool_iff. now apply Qltb_ge.
  - intros ->. now left.
  - now right.
Qed.

(** A difference of finite prices that is not below 0 is at least 0, also
    when it overflows. *)
Lemma fsub_finite (a b : Q) :
  flt0 (fsub (Finite b) (Finite a)) = false ->
  fge0 (fsub (Finite b) (Finite a)) = true.
Proof.
  intros Hneg. destruct (flt0_false _ Hneg) as [Hge | Hnan]; [exact Hge|].
  cbn [fsub] in Hnan. now apply rounded_not_nan in Hnan.
Qed.

(** Where NaN comes from in a difference. *)
Lemma fsub_nan (a b : pyfloat) :
  fsub b a = NaN ->
  a = NaN \/ b = NaN \/ exists negative, a = Infinity negative /\ b = Infinity negative.
Proof.
  destruct a as [x | s |], b as [y | t |]; cbn [fsub]; try (intros _; tauto); try discriminate.
  - intros Hnan. now apply rounded_not_nan in Hnan.
  - destruct (Bool.eqb_spec t s) as [-> | _]; [|discriminate].
    intros _. right. right. now exists s.
Qed.

End NumberFacts.

(** ** The similarity score *)
Section ScoreFacts.
Import Tools.

(** The substring bonus, on the normalised strings. *)
Lemma bonus_score query target :
  4 < String.length (Py.strip (Py.lower query)) ->
  Py.contains (Py.strip (Py.lower query)) (Py.strip (Py.lower target)) = true ->
  (95 <= get_similarity_score query target)%Q.
Proof.
  intros Hlen Hin. unfold get_similarity_score.
  apply Nat.ltb_lt in Hlen. rewrite Hlen, Hin. simpl.
  apply max_ge_r.
Qed.

(** The score kept for a record is at least its generic-name score. *)
Lemma score_record_ge_generic query record :
  let '(generic_score, _, current_record_score, _) := score_record query record in
  (generic_score <= current_record_score)%Q.
Proof.
  unfold score_record.
  destruct (best_brand query _) as [brand_score brand].
  destruct (Py.Qltb brand_score _) eqn:Hb.
  - apply Qle_refl.
  - now apply Qltb_ge.
Qed.

Lemma score_record_generic query record :
  fst (fst (fst (score_record query record)))
  = get_similarity_score query
      (match generic_name record with Some g => g | None => "" end).
Proof.
  unfold score_record.
  destruct (best_brand query _) as [brand_score brand].
  now destruct (Py.Qltb brand_score _).
Qed.

End ScoreFacts.

Section Claims.
Import Tools AgentSystem.

(** C3, as amended. For every catalogue entry [E] and every query [Q],
    where [Q] and [E]'s generic name are ASCII text, [Q] is a contiguous
    substring of the generic name and the normalised form of [Q] (lower
    case, trimmed) is longer than 4 characters: the similarity score of [Q]
    against the generic name, and hence the best score that
    [search_jan_aushadhi] sees on the catalogue [[E]], is at least 95. *)
Theorem substring_bonus_at_least_95 (E : CatalogEntry) (Q name : string) :
  generic_name E = Some name ->
  Py.isascii Q = true ->
  Py.isascii name = true ->
  4 < String.length (Py.strip (Py.lower Q)) ->
  Py.contains Q name = true ->
  (95 <= get_similarity_score Q name)%Q /\
  (95 <= highest_score (scan_catalog Q [E]))%Q.
Proof.
  intros Hname _ _ Hlen Hin.
  assert (Hscore : (95 <= get_similarity_score Q name)%Q).
  { apply bonus_score; [exact Hlen | now apply contains_normalized]. }
  split; [exact Hscore|].
  unfold scan_catalog, scan_step. simpl fold_left.
  pose proof (score_record_ge_generic Q E) as Hge.
  pose proof (score_record_generic Q E) as Hgen.
  destruct (score_record Q E) as [[[generic_score brand_score] current] source].
  simpl in Hgen. rewrite Hname in Hgen. subst generic_score.
  assert (Hcur : (95 <= current)%Q) by (eapply Qle_trans; eassumption).
  destruct (Py.Qltb 0 current) eqn:Hb; [exact Hcur|].
  apply Qltb_ge in Hb. exfalso.
  apply (Qlt_not_le 0 95); [reflexivity | eapply Qle_trans; eassumption].
Qed.

Lemma substring_bonus_at_least_95_witness :
  (95 <= get_similarity_score "Sucrose" "Iron Sucrose Injection")%Q /\
  (95 <= highest_score (scan_catalog "Sucrose" [Sample.iron]))%Q.
Proof.
  apply (substring_bonus_at_least_95 Sample.iron "Sucrose" "Iron Sucrose Injection");
    [reflexivity | reflexivity | reflexivity | vm_compute; lia | reflexivity].
Defined.

(** C3 as stated fails, already on ASCII text: the query ["Iron "], five
    characters long, is a substring of the generic name, but its trimmed form
    has four characters, so no bonus applies and the score is 400/13. *)
Lemma substring_bonus_counterexample :
  Py.isascii "Iron " = true /\
  Py.isascii "Iron Sucrose Injection" = true /\
  4 < String.length "Iron " /\
  Py.contains "Iron " "Iron Sucrose Injection" = true /\
  (get_similarity_score "Iron " "Iron Sucrose Injection" == 400 # 13)%Q /\
  (highest_score (scan_catalog "Iron " [Sample.iron]) < 95)%Q.
Proof. vm_compute. repeat split; lia. Qed.

(** C9, as amended. [get_similarity_score] is defined on every pair of
    strings (it is a total function: nothing in it can raise, and the loop of
    [get_matching_blocks] always runs to its end, lemma [blocks_loop_fuel]).
    When exactly one of the normalised query and target is empty the score
    is 0, below the threshold of 85; when both are empty the score is 100. *)
Theorem empty_string_score (query target : string) :
  let q := Py.strip (Py.lower query) in
  let t := Py.strip (Py.lower target) in
  (q = "" \/ t = "") ->
  (q <> "" \/ t <> "" ->
     (get_similarity_score query target == 0)%Q /\
     (get_similarity_score query target < THRESHOLD)%Q) /\
  (q = "" /\ t = "" -> (get_similarity_score query target == 100)%Q).
Proof.
  intros q t Hempty.
  assert (Hbase : get_similarity_score query target = (Difflib.ratio q t * 100)%Q).
  { unfold get_similarity_score. fold q t.
    destruct Hempty as [-> | ->]; [reflexivity|].
    destruct q as [|c q']; [reflexivity|].
    simpl Py.contains. now rewrite andb_false_r. }
  rewrite Hbase. split.
  - intros Hone.
    assert (Hzero : (Difflib.ratio q t * 100 == 0)%Q).
    { destruct Hempty as [Hq | Ht].
      - rewrite Hq in *. destruct Hone as [Hq' | Ht']; [congruence|].
        rewrite (ratio_empty_a t Ht'). reflexivity.
      - rewrite Ht in *. destruct Hone as [Hq' | Ht']; [|congruence].
        rewrite (ratio_empty_b q Hq'). reflexivity. }
    split; [exact Hzero|]. rewrite Hzero. reflexivity.
  - intros [-> ->]. reflexivity.
Qed.

Lemma empty_string_score_witness :
  (get_similarity_score "  " "Atorvastatin" == 0)%Q /\
  (get_similarity_score "Lipitor" "" == 0)%Q /\
  (get_similarity_score " " "" == 100)%Q.
Proof.
  split; [|split].
  - apply (empty_string_score "  " "Atorvastatin"); [now left | right; discriminate].
  - apply (empty_string_score "Lipitor" ""); [now right | left; discriminate].
  - apply (empty_string_score " " ""); [now left | now split].
Defined.

(** C9 as stated fails when both strings are empty: [_calculate_ratio]
    answers 1.0 for two empty sequences, so the score is 100, which is not
    below the threshold. *)
Lemma empty_string_score_counterexample :
  Py.strip (Py.lower "") = "" /\
  (get_similarity_score "" "" == 100)%Q /\
  ~ (get_similarity_score "" "" < THRESHOLD)%Q.
Proof.
  split; [reflexivity|]. split; [reflexivity|].
  apply Qle_not_lt. vm_compute. discriminate.
Qed.

(** C4, as amended. For every catalogue entry the generic-name score is
    preferred over the best brand-alias score exactly when it is strictly
    greater, and the provenance is then the generic name; otherwise, also on
    an exact tie, the brand score is used and the provenance is the best
    brand alias. *)
Theorem generic_only_when_strictly_greater (query : string) (record : CatalogEntry) :
  let name := match generic_name record with Some g => g | None => "" end in
  let brands := match common_brands record with Some l => l | None => [] end in
  let generic_score := get_similarity_score query name in
  let brand_score := fst (best_brand query brands) in
  let brand := snd (best_brand query brands) in
  ((brand_score < generic_score)%Q ->
     score_record query record
     = (generic_score, brand_score, generic_score, "Generic Match (" ++ name ++ ")")) /\
  ((generic_score <= brand_score)%Q ->
     score_record query record
     = (generic_score, brand_score, brand_score, "Brand Match (" ++ brand ++ ")")).
Proof.
  intros name brands generic_score brand_score brand.
  unfold score_record. fold name brands generic_score.
  subst brand_score brand.
  destruct (best_brand query brands) as [bs br]. simpl.
  split; intros Hcmp.
  - apply Qltb_lt in Hcmp. now rewrite Hcmp.
  - apply Qltb_ge in Hcmp. now rewrite Hcmp.
Qed.

Lemma generic_only_when_strictly_greater_witness :
  score_record "Atorvastatin Calcium" Sample.atorvastatin_calcium
  = (get_similarity_score "Atorvastatin Calcium" "Atorvastatin Calcium",
     fst (best_brand "Atorvastatin Calcium" ["Atorvastatin Tablets"; "Lipitor"]),
     get_similarity_score "Atorvastatin Calcium" "Atorvastatin Calcium",
     "Generic Match (Atorvastatin Calcium)").
Proof.
  apply (generic_only_when_strictly_greater "Atorvastatin Calcium" Sample.atorvastatin_calcium).
  vm_compute. reflexivity.
Defined.

(** C4 as stated fails on its tie-break: for the query ["atorvastatin"]
    the generic name and the first brand alias both get the substring bonus,
    95 each, and the provenance recorded is the brand alias. *)
Lemma tie_goes_to_brand_counterexample :
  let '(generic_score, brand_score, _, current_source) :=
    score_record "atorvastatin" Sample.atorvastatin_calcium in
  (generic_score == brand_score)%Q /\
  current_source = "Brand Match (Atorvastatin Tablets)" /\
  current_source <> "Generic Match (Atorvastatin Calcium)" /\
  matched_name_source (scan_catalog "atorvastatin" [Sample.atorvastatin_calcium])
  = "Brand Match (Atorvastatin Tablets)".
Proof. vm_compute. repeat split; discriminate. Qed.

Context {R : Runtime}.

(** C10. Every value returned by [search_jan_aushadhi] holds a boolean
    [found] and a string [message], and holds [drug_data] (a dictionary)
    exactly when [found] is true. The four returns of the function are the
    only shapes. *)
Theorem search_result_well_formed (file_db : exn + list CatalogEntry) (query : string)
    (db : option (list CatalogEntry)) (d : dict) :
  search_jan_aushadhi file_db query db = inr d ->
  exists (found : bool) (message : string),
    dict_get d "found" = Some (VBool found) /\
    dict_get d "message" = Some (VStr message) /\
    (found = true -> exists drug_data, dict_get d "drug_data" = Some (VDict drug_data)) /\
    (found = false -> dict_get d "drug_data" = None).
Proof.
  unfold search_jan_aushadhi.
  destruct (database file_db db) as [e0 | [|e db']]; [discriminate | |].
  { intros [= <-]. exists false. eexists. repeat split; try reflexivity; discriminate. }
  destruct (scan_catalog query (e :: db')) as [[bm hs] src].
  destruct (Qle_bool THRESHOLD hs).
  - destruct bm as [bm|]; [|discriminate].
    destruct (priced bm) as [e1 | [[jan market] savings]]; [discriminate|].
    destruct (flt0 savings).
    + intros [= <-]. exists false. eexists. repeat split; try reflexivity; discriminate.
    + destruct (generic_name bm) as [name|]; [|discriminate].
      intros [= <-]. exists true. eexists.
      repeat split; try reflexivity; try discriminate.
      intros _. eexists. reflexivity.
  - intros [= <-]. exists false. eexists. repeat split; try reflexivity; discriminate.
Qed.

(** C2, as amended. If [search_jan_aushadhi] returns [found = true], the
    entry it matched is the best-scoring one, its score reaches the threshold
    and its savings, the float [market_avg_price - jan_price], are at least 0
    provided neither price is NaN and the two are not infinities of the same
    sign, so whenever both prices are finite. (In the cases left out the
    savings are NaN, which is not below 0 either.) A best match that reaches
    the threshold with negative savings is returned as [found = false]. *)
Theorem found_implies_savings_not_negative (file_db : exn + list CatalogEntry)
    (query : string) (db : option (list CatalogEntry)) (catalog : list CatalogEntry)
    (d : dict) :
  let best := scan_catalog query catalog in
  database file_db db = inr catalog ->
  search_jan_aushadhi file_db query db = inr d ->
  (dict_get d "found" = Some (VBool true) ->
   exists entry name drug_data jan market savings,
     best_match best = Some entry /\
     (THRESHOLD <= highest_score best)%Q /\
     priced entry = inr (jan, market, savings) /\
     flt0 savings = false /\
     (jan <> NaN -> market <> NaN ->
      (forall negative, ~ (jan = Infinity negative /\ market = Infinity negative)) ->
      fge0 savings = true) /\
     (forall a b, jan = Finite a -> market = Finite b -> fge0 savings = true) /\
     generic_name entry = Some name /\
     dict_get d "drug_data" = Some (VDict drug_data) /\
     dict_get drug_data "generic_name" = Some (VStr name)) /\
  (forall entry jan market savings,
     best_match best = Some entry ->
     (THRESHOLD <= highest_score best)%Q ->
     priced entry = inr (jan, market, savings) ->
     flt0 savings = true ->
     d = [("found", VBool false);
          ("message", VStr "Generic found but offers no savings.")]).
Proof.
  intros best Hdb. subst best. unfold search_jan_aushadhi. rewrite Hdb.
  destruct catalog as [|e db'].
  { intros [= <-]. split; [discriminate|]. intros entry jan market savings Hbm. discriminate. }
  destruct (scan_catalog query (e :: db')) as [[bm hs] src].
  unfold best_match, highest_score. simpl fst. simpl snd.
  destruct (Qle_bool THRESHOLD hs) eqn:Hth.
  - destruct bm as [bm|]; [|discriminate].
    destruct (priced bm) as [e1 | [[jan market] savings]] eqn:Hpriced; [discriminate|].
    destruct (flt0 savings) eqn:Hneg.
    + intros [= <-]. split; [discriminate|]. reflexivity.
    + destruct (generic_name bm) as [name|] eqn:Hname; [|discriminate].
      intros [= <-]. split.
      * intros _. exists bm, name. eexists. exists jan, market, savings.
        assert (Hsav : savings = fsub market jan).
        { unfold priced in Hpriced.
          destruct (price (jan_price bm)); [discriminate|].
          destruct (price (market_avg_price bm)); [discriminate|].
          now injection Hpriced as <- <- <-. }
        split; [reflexivity|]. split; [now apply Qle_bool_iff|].
        split; [exact Hpriced|]. split; [exact Hneg|].
        split.
        { intros Hj Hm Hinf. destruct (flt0_false _ Hneg) as [Hge | Hnan]; [exact Hge|].
          rewrite Hsav in Hnan. apply fsub_nan in Hnan.
          destruct Hnan as [Hnan | [Hnan | [negative Hboth]]];
            [contradiction | contradiction | now apply Hinf in Hboth]. }
        split; [intros a b -> ->; subst savings; now apply fsub_finite|].
        split; [exact Hname|]. split; reflexivity.
      * intros entry jan' market' savings' [= <-] _ Hp Hlt.
        rewrite Hpriced in Hp. injection Hp as <- <- <-. congruence.
  - intros [= <-]. split; [discriminate|].
    intros entry jan market savings _ Hle. apply Qle_bool_iff in Hle. congruence.
Qed.

(** The two shapes of a retrieval output. *)
Lemma query_pubmed_realtime_shape (query : string) (s : State) :
  let '(strict, s1) := search_pubmed_ids query true s in
  let '(pmids, s2) :=
    match strict with
    | [] => search_pubmed_ids query false s1
    | _ => (strict, s1)
    end in
  (pmids = [] /\ query_pubmed_realtime query s = (Dumps no_results, s2)) \/
  (pmids <> [] /\
   query_pubmed_realtime query s =
   (Dumps (VDict [("status", VStr "success");
                  ("evidence_count",
                   VInt (Z.of_nat (List.length (fst (fetch_article_details pmids s2)))));
                  ("articles", VList (fst (fetch_article_details pmids s2)))]),
    snd (fetch_article_details pmids s2))).
Proof.
  unfold query_pubmed_realtime, bind, ret.
  destruct (search_pubmed_ids query true s) as [strict s1].
  destruct strict as [|id ids].
  - destruct (search_pubmed_ids query false s1) as [pmids s2].
    destruct pmids as [|id ids].
    + left. now split.
    + right. split; [discriminate|].
      destruct (fetch_article_details (id :: ids) s2) as [articles s3]. reflexivity.
  - right. split; [discriminate|].
    destruct (fetch_article_details (id :: ids) s1) as [articles s3]. reflexivity.
Qed.

(** C1, as amended. If [query_pubmed_realtime] returns status [success],
    the identifier search (strict, or else relaxed) returned at least one
    identifier, and [evidence_count] is the length of [articles], which are
    the articles the fetch step produced for those identifiers. *)
Theorem success_means_ids_found (query : string) (s : State) (d : dict) :
  fst (query_pubmed_realtime query s) = Dumps (VDict d) ->
  dict_get d "status" = Some (VStr "success") ->
  let '(strict, s1) := search_pubmed_ids query true s in
  let '(pmids, s2) :=
    match strict with
    | [] => search_pubmed_ids query false s1
    | _ => (strict, s1)
    end in
  let articles := fst (fetch_article_details pmids s2) in
  pmids <> [] /\
  dict_get d "evidence_count" = Some (VInt (Z.of_nat (List.length articles))) /\
  dict_get d "articles" = Some (VList articles).
Proof.
  intros Hout Hstatus.
  pose proof (query_pubmed_realtime_shape query s) as Hshape.
  destruct (search_pubmed_ids query true s) as [strict s1].
  destruct (match strict with
            | [] => search_pubmed_ids query false s1
            | _ => (strict, s1)
            end) as [pmids s2].
  destruct Hshape as [[_ Heq] | [Hne Heq]]; rewrite Heq in Hout; simpl in Hout.
  - injection Hout as <-. discriminate.
  - injection Hout as <-. split; [exact Hne | split; reflexivity].
Qed.

(** The test of the research loop, on a retrieval output. *)
Lemma found_articles_count (query : string) (s : State) :
  found_articles (fst (query_pubmed_realtime query s))
  = inr (0 <? article_count (fst (query_pubmed_realtime query s))).
Proof.
  pose proof (query_pubmed_realtime_shape query s) as Hshape.
  destruct (search_pubmed_ids query true s) as [strict s1].
  destruct (match strict with
            | [] => search_pubmed_ids query false s1
            | _ => (strict, s1)
            end) as [pmids s2].
  destruct Hshape as [[_ Heq] | [_ Heq]]; rewrite Heq; reflexivity.
Qed.

Lemma query_output_not_empty (query : string) (s : State) :
  is_empty_text (fst (query_pubmed_realtime query s)) = false.
Proof.
  pose proof (query_pubmed_realtime_shape query s) as Hshape.
  destruct (search_pubmed_ids query true s) as [strict s1].
  destruct (match strict with
            | [] => search_pubmed_ids query false s1
            | _ => (strict, s1)
            end) as [pmids s2].
  destruct Hshape as [[_ Heq] | [_ Heq]]; rewrite Heq; reflexivity.
Qed.

(** Variants that yield nothing are passed over. *)
Lemma research_loop_skip (pre : list string) : forall (s s1 : State) v post e e',
  all_empty pre s = Some s1 ->
  research_loop (pre ++ v :: post) e s = research_loop (v :: post) e' s1.
Proof.
  induction pre as [|t pre IH]; intros s s1 v post e e' Hall.
  - injection Hall as <-. reflexivity.
  - simpl in Hall. simpl app. cbn [research_loop]. unfold bind at 1.
    pose proof (found_articles_count t s) as Hfound.
    destruct (query_pubmed_realtime t s) as [ev s'] eqn:Hq.
    simpl in Hfound. rewrite Hfound.
    destruct (Nat.eqb_spec (article_count ev) 0) as [Hz | Hz]; [|discriminate].
    rewrite Hz. simpl. exact (IH s' s1 v post (Some ev) e' Hall).
Qed.

(** The first variant that yields an article ends the loop. *)
Lemma research_loop_hit (v : string) (post : list string) (e : option json_text)
    (s : State) :
  1 <= article_count (fst (query_pubmed_realtime v s)) ->
  research_loop (v :: post) e s
  = (inr (Some (fst (query_pubmed_realtime v s))), snd (query_pubmed_realtime v s)).
Proof.
  intros Hc. cbn [research_loop]. unfold bind.
  pose proof (found_articles_count v s) as Hfound.
  destruct (query_pubmed_realtime v s) as [ev s'].
  simpl in *. rewrite Hfound.
  destruct (Nat.ltb_spec 0 (article_count ev)); [reflexivity | lia].
Qed.

(** C5. The research agent queries its search-term variants in order and
    stops at the first one that yields an article: when the variants before
    [v] each yield none and [v] yields at least one, the evidence kept is the
    output of the retrieval for [v], and the run ends in the state in which
    that retrieval returned, so no request is made for a later variant. *)
Theorem research_stops_at_first_success (state : AgentState) (s s1 : State)
    (jan : dict) (pre post : list string) (v : string) :
  search_jan_aushadhi (load_jan_aushadhi_db (world s)) (doctor_query state) None
  = inr jan ->
  search_terms (doctor_query state)
    (match condition_tags (patient_data state) with Some l => l | None => [] end)
  = (pre ++ v :: post)%list ->
  all_empty pre s = Some s1 ->
  1 <= article_count (fst (query_pubmed_realtime v s1)) ->
  research_agent state s
  = (inr (fst (query_pubmed_realtime v s1), jan), snd (query_pubmed_realtime v s1)).
Proof.
  intros Hjan Hterms Hpre Hhit.
  unfold research_agent. rewrite Hjan, Hterms.
  rewrite (research_loop_skip pre s s1 v post None None Hpre).
  rewrite (research_loop_hit v post None s1 Hhit).
  now rewrite query_output_not_empty.
Qed.

Lemma dict_get_set_same (d : dict) (k : string) (v : value) :
  dict_get (dict_set d k v) k = Some v.
Proof.
  induction d as [|[k' v'] d IH]; simpl.
  - now rewrite String.eqb_refl.
  - destruct (String.eqb k' k) eqn:Hk; simpl.
    + now rewrite String.eqb_refl.
    + now rewrite Hk.
Qed.

Lemma dict_get_set_other (d : dict) (k k' : string) (v : value) :
  k <> k' -> dict_get (dict_set d k v) k' = dict_get d k'.
Proof.
  intros Hne. induction d as [|[k0 v0] d IH]; simpl.
  - apply String.eqb_neq in Hne. now rewrite Hne.
  - destruct (String.eqb k0 k) eqn:Hk; simpl.
    + apply String.eqb_eq in Hk. subst k0.
      apply String.eqb_neq in Hne. now rewrite Hne.
    + destruct (String.eqb k0 k'); [reflexivity | exact IH].
Qed.

(** The exact result of an accepted match. *)
Lemma search_found_shape (file_db : exn + list CatalogEntry) (query : string)
    (db : option (list CatalogEntry)) (d : dict) :
  search_jan_aushadhi file_db query db = inr d ->
  dict_get d "found" = Some (VBool true) ->
  exists catalog entry name jan market savings message,
    database file_db db = inr catalog /\
    best_match (scan_catalog query catalog) = Some entry /\
    generic_name entry = Some name /\
    priced entry = inr (jan, market, savings) /\
    d = [("found", VBool true);
         ("drug_data", VDict [
            ("generic_name", VStr name);
            ("brand_name_detected", VStr query);
            ("match_source", VStr (matched_name_source (scan_catalog query catalog)));
            ("jan_aushadhi_price", VStr (rupee ++ format_float jan));
            ("market_average_price", VStr (rupee ++ format_float market));
            ("savings_amount", VStr (rupee ++ format_fixed 2 savings));
            ("savings_percentage",
             VStr (match savings_percentage entry with Some p => p | None => "0%" end))]);
         ("message", VStr message)].
Proof.
  unfold search_jan_aushadhi.
  destruct (database file_db db) as [e0 | [|e db']]; [discriminate | |].
  { intros [= <-]. discriminate. }
  destruct (scan_catalog query (e :: db')) as [[bm hs] src] eqn:Hscan.
  destruct (Qle_bool THRESHOLD hs).
  - destruct bm as [bm|]; [|discriminate].
    destruct (priced bm) as [e1 | [[jan market] savings]] eqn:Hpriced; [discriminate|].
    destruct (flt0 savings); [intros [= <-]; discriminate|].
    destruct (generic_name bm) as [name|] eqn:Hname; [|discriminate].
    intros [= <-] _. exists (e :: db'), bm, name, jan, market, savings. eexists.
    rewrite Hscan. repeat split; assumption.
  - intros [= <-]. discriminate.
Qed.

(** Whatever is raised inside the second [try] of the safety agent ends in
    the fail-safe response. *)
Lemma safety_agent_except (state : AgentState) (s : State) (e : exn) :
  USE_LLM = true ->
  decide state (pubmed_articles (research_evidence state))
         (fst (llm_invoke (make_prompt state) (world s))) = inl e ->
  fst (safety_agent state s)
  = fail_safe_response e (pubmed_articles (research_evidence state)).
Proof.
  intros Hllm Hdec. unfold safety_agent, bind, call, ret. rewrite Hllm.
  destruct (llm_invoke (make_prompt state) (world s)) as [response w].
  simpl in *. now rewrite Hdec.
Qed.

(** The sources kept from a retrieval that found articles. *)
Lemma pubmed_articles_success (n : Z) (articles : list value) :
  pubmed_articles
    (Dumps (VDict [("status", VStr "success");
                   ("evidence_count", VInt n);
                   ("articles", VList articles)]))
  = VList articles.
Proof. reflexivity. Qed.

(** C6. If the matcher's result has [found = true] and the draft verdict
    parsed from the model's answer has a status other than [blocked], the
    response carries, in place of whatever [savings] the draft had,
    [found = true] with a text built from the matcher's savings amount and
    generic name; the draft's status is kept and the sources are attached. *)
Theorem savings_overwritten_by_matcher (state : AgentState) (s : State)
    (file_db : exn + list CatalogEntry) (query : string)
    (db : option (list CatalogEntry))
    (content : string) (w : World) (draft : dict) (status : value) :
  USE_LLM = true ->
  search_jan_aushadhi file_db query db = inr (jan_aushadhi_result state) ->
  dict_get (jan_aushadhi_result state) "found" = Some (VBool true) ->
  llm_invoke (make_prompt state) (world s) = (inr content, w) ->
  json_loads (clean_json_text content) = inr (VDict draft) ->
  dict_get draft "status" = Some status ->
  status <> VStr "blocked" ->
  exists catalog entry name jan market savings final,
    database file_db db = inr catalog /\
    best_match (scan_catalog query catalog) = Some entry /\
    generic_name entry = Some name /\
    priced entry = inr (jan, market, savings) /\
    fst (safety_agent state s) = VDict final /\
    dict_get final "savings"
    = Some (VDict [("found", VBool true);
                   ("text",
                    VStr ("Save " ++ rupee ++ format_fixed 2 savings
                          ++ " by switching to Jan Aushadhi " ++ name ++ "."))]) /\
    dict_get final "status" = Some status /\
    dict_get final "sources" = Some (pubmed_articles (research_evidence state)).
Proof.
  intros Hllm Hsearch Hfound Hinvoke Hparse Hstatus Hnot.
  destruct (search_found_shape _ _ _ _ Hsearch Hfound)
    as (catalog & entry & name & jan & market & savings & message
        & Hdb & Hbest & Hname & Hpriced & Hjan).
  exists catalog, entry, name, jan, market, savings.
  assert (Hblocked : eq_str (Some status) "blocked" = false).
  { destruct status as [| | | |x| |]; try reflexivity.
    simpl. apply String.eqb_neq. congruence. }
  assert (Hdec : decide state (pubmed_articles (research_evidence state)) (inr content)
                 = inr (VDict (dict_set
                          (dict_set draft "savings"
                             (VDict [("found", VBool true);
                                     ("text",
                                      VStr ("Save " ++ rupee ++ format_fixed 2 savings
                                            ++ " by switching to Jan Aushadhi "
                                            ++ name ++ "."))]))
                          "sources" (pubmed_articles (research_evidence state))))).
  { unfold decide. rewrite Hparse, Hfound.
    unfold py_getitem at 1. rewrite Hstatus, Hblocked.
    rewrite Hjan. reflexivity. }
  unfold safety_agent, bind, call, ret. rewrite Hllm, Hinvoke, Hdec.
  eexists. split; [exact Hdb|]. split; [exact Hbest|]. split; [exact Hname|].
  split; [exact Hpriced|]. split; [reflexivity|].
  split; [|split].
  - rewrite dict_get_set_other by discriminate. rewrite dict_get_set_same.
    reflexivity.
  - rewrite !dict_get_set_other by discriminate. exact Hstatus.
  - apply dict_get_set_same.
Qed.

(** C7. If the model's answer, with the fences stripped, does not parse,
    the safety agent returns the fail-safe response: status [caution], with
    the sources retrieved from PubMed attached. The agent is a total
    function: the failure does not reach the caller. *)
Theorem parse_failure_gives_caution (state : AgentState) (s : State)
    (content : string) (w : World) (e : exn) :
  USE_LLM = true ->
  llm_invoke (make_prompt state) (world s) = (inr content, w) ->
  json_loads (clean_json_text content) = inl e ->
  fst (safety_agent state s)
  = fail_safe_response e (pubmed_articles (research_evidence state)) /\
  py_get (fst (safety_agent state s)) "status" = inr (Some (VStr "caution")) /\
  py_get (fst (safety_agent state s)) "sources"
  = inr (Some (pubmed_articles (research_evidence state))) /\
  (forall n articles,
     research_evidence state
     = Dumps (VDict [("status", VStr "success");
                     ("evidence_count", VInt n);
                     ("articles", VList articles)]) ->
     py_get (fst (safety_agent state s)) "sources" = inr (Some (VList articles))).
Proof.
  intros Hllm Hinvoke Hparse.
  assert (Hres : fst (safety_agent state s)
                 = fail_safe_response e (pubmed_articles (research_evidence state))).
  { apply safety_agent_except; [exact Hllm|].
    rewrite Hinvoke. cbn [fst]. unfold decide. now rewrite Hparse. }
  rewrite Hres. repeat split.
  intros n articles ->. reflexivity.
Qed.

(** C8, what the code does. When [USE_LLM] is false the safety agent
    makes no request and returns the manual-review response, which carries
    the matcher's result (when it found a substitute) and the retrieved
    sources, but whose status is [approved], not [caution]. *)
Theorem llm_off_status_is_approved (state : AgentState) (s : State) :
  USE_LLM = false ->
  safety_agent state s
  = (llm_off_response state (pubmed_articles (research_evidence state)), s) /\
  py_get (fst (safety_agent state s)) "status" = inr (Some (VStr "approved")) /\
  py_get (fst (safety_agent state s)) "title"
  = inr (Some (VStr "Manual Review Recommended")) /\
  py_get (fst (safety_agent state s)) "savings"
  = inr (Some (if truthy_opt (dict_get (jan_aushadhi_result state) "found")
               then VDict (jan_aushadhi_result state) else not_found)) /\
  py_get (fst (safety_agent state s)) "sources"
  = inr (Some (pubmed_articles (research_evidence state))).
Proof.
  intros Hllm. unfold safety_agent. rewrite Hllm. repeat split.
Qed.

End Claims.

(** ** The claims on concrete runs *)
Section Runs.
Import Tools AgentSystem Sample.

Lemma search_result_well_formed_witness :
  exists (found : bool) (message : string),
    dict_get lipitor_result "found" = Some (VBool found) /\
    dict_get lipitor_result "message" = Some (VStr message) /\
    (found = true ->
     exists drug_data, dict_get lipitor_result "drug_data" = Some (VDict drug_data)) /\
    (found = false -> dict_get lipitor_result "drug_data" = None).
Proof.
  apply (@search_result_well_formed offline (inr []) "Lipitor" (Some mock_db)).
  vm_compute. reflexivity.
Defined.

Lemma found_implies_savings_not_negative_witness :
  (exists entry name drug_data jan market savings,
     best_match (scan_catalog "Lipitor" mock_db) = Some entry /\
     (THRESHOLD <= highest_score (scan_catalog "Lipitor" mock_db))%Q /\
     priced entry = inr (jan, market, savings) /\
     flt0 savings = false /\
     (jan <> NaN -> market <> NaN ->
      (forall negative, ~ (jan = Infinity negative /\ market = Infinity negative)) ->
      fge0 savings = true) /\
     (forall a b, jan = Finite a -> market = Finite b -> fge0 savings = true) /\
     generic_name entry = Some name /\
     dict_get lipitor_result "drug_data" = Some (VDict drug_data) /\
     dict_get drug_data "generic_name" = Some (VStr name)) /\
  @search_jan_aushadhi offline (inr []) "glycomet" (Some [overpriced])
  = inr [("found", VBool false);
         ("message", VStr "Generic found but offers no savings.")].
Proof.
  split.
  - apply (@found_implies_savings_not_negative offline (inr []) "Lipitor" (Some mock_db)
             mock_db lipitor_result);
      [reflexivity | vm_compute; reflexivity | reflexivity].
  - destruct (@search_jan_aushadhi offline (inr []) "glycomet" (Some [overpriced]))
      as [e | d] eqn:Hd; [vm_compute in Hd; discriminate|].
    f_equal.
    apply (@found_implies_savings_not_negative offline (inr []) "glycomet"
             (Some [overpriced]) [overpriced] d eq_refl Hd)
      with (entry := overpriced) (jan := Finite 30) (market := Finite 25)
           (savings := Finite (-5));
      [reflexivity | vm_compute; discriminate | vm_compute; reflexivity | reflexivity].
Defined.

(** C2 as stated fails on a price that is no number: with the market price
    NaN the savings are NaN, which is not below 0, so the match is reported
    with [found = true] although its savings are not at least 0. *)
Lemma nan_savings_counterexample :
  exists d savings,
    @search_jan_aushadhi offline (inr []) "Paracetamol" (Some [unpriced]) = inr d /\
    dict_get d "found" = Some (VBool true) /\
    best_match (scan_catalog "Paracetamol" [unpriced]) = Some unpriced /\
    priced unpriced = inr (Finite 8, NaN, savings) /\
    fge0 savings = false.
Proof. eexists. exists NaN. vm_compute. repeat split. Qed.

Lemma success_means_ids_found_witness :
  exists d,
    fst (@query_pubmed_realtime online "diclofenac" (start online tt)) = Dumps (VDict d) /\
    dict_get d "status" = Some (VStr "success") /\
    dict_get d "evidence_count" = Some (VInt 1).
Proof.
  eexists. split; [vm_compute; reflexivity|]. split; [reflexivity|].
  pose proof (@success_means_ids_found online "diclofenac" (start online tt) _
                eq_refl eq_refl) as H.
  vm_compute in H. destruct H as (_ & H & _). exact H.
Defined.

(** C1 as stated fails: the search finds an identifier, the fetch times
    out, and the result is [success] with no article. *)
Lemma success_without_articles_counterexample :
  fst (@query_pubmed_realtime fetch_down "diclofenac" (start fetch_down tt))
  = Dumps (VDict [("status", VStr "success");
                  ("evidence_count", VInt 0);
                  ("articles", VList [])]).
Proof. vm_compute. reflexivity. Qed.

Lemma research_stops_at_first_success_witness :
  @research_agent third_variant_only lipitor_state (start third_variant_only tt)
  = (inr (fst (@query_pubmed_realtime third_variant_only
                 "Lipitor chronic kidney disease" after_two_variants),
          lipitor_result),
     snd (@query_pubmed_realtime third_variant_only
            "Lipitor chronic kidney disease" after_two_variants)).
Proof.
  apply (@research_stops_at_first_success third_variant_only lipitor_state
           (start third_variant_only tt) after_two_variants lipitor_result
           [ "Lipitor CKD Hypertension contraindications adverse effects";
             "Lipitor CKD Hypertension safety" ]
           [ "Lipitor clinical guidelines" ]
           "Lipitor chronic kidney disease").
  - vm_compute. reflexivity.
  - reflexivity.
  - reflexivity.
  - vm_compute. lia.
Defined.

Lemma savings_overwritten_by_matcher_witness :
  exists final,
    fst (@safety_agent (with_llm fenced_draft) lipitor_state
           (start (with_llm fenced_draft) tt)) = VDict final /\
    dict_get final "savings"
    = Some (VDict [("found", VBool true);
                   ("text", VStr "Save ₹128.00 by switching to Jan Aushadhi Atorvastatin.")]).
Proof.
  destruct (@savings_overwritten_by_matcher (with_llm fenced_draft) lipitor_state
              (start (with_llm fenced_draft) tt) (inr []) "Lipitor" (Some mock_db)
              fenced_draft tt
              [("status", VStr "approved"); ("title", VStr "Safe");
               ("savings", VDict [("found", VBool false);
                                  ("text", VStr "Save 999 rupees")])]
              (VStr "approved"))
    as (catalog & entry & name & jan & market & savings & final
        & Hdb & Hbest & Hname & Hpriced & Hres & Hsavings & _).
  - reflexivity.
  - vm_compute. reflexivity.
  - reflexivity.
  - reflexivity.
  - vm_compute. reflexivity.
  - reflexivity.
  - discriminate.
  - exists final. split; [exact Hres|].
    injection Hdb as <-.
    vm_compute in Hbest. injection Hbest as <-.
    vm_compute in Hname. injection Hname as <-.
    vm_compute in Hpriced. injection Hpriced as <- <- <-.
    rewrite Hsavings. vm_compute. reflexivity.
Defined.

Lemma parse_failure_gives_caution_witness :
  let R := with_llm "I cannot assess this order." in
  py_get (fst (@safety_agent R lipitor_state (start R tt))) "status"
  = inr (Some (VStr "caution")) /\
  py_get (fst (@safety_agent R lipitor_state (start R tt))) "sources"
  = inr (Some (VList [VDict [("pmid", VStr "31234567")]])).
Proof.
  intros R.
  destruct (@parse_failure_gives_caution R lipitor_state (start R tt)
              "I cannot assess this order." tt (ExternalError "Expecting value")
              eq_refl eq_refl eq_refl)
    as (_ & Hstatus & _ & Hsources).
  split; [exact Hstatus|].
  apply (Hsources 1%Z). reflexivity.
Defined.

Lemma llm_off_status_is_approved_witness :
  py_get (fst (@safety_agent offline lipitor_state (start offline tt))) "status"
  = inr (Some (VStr "approved")).
Proof.
  apply (@llm_off_status_is_approved offline lipitor_state (start offline tt)).
  reflexivity.
Defined.

(** *** Scenarios *)

Example ratio_abcd_bcde : Difflib.ratio "abcd" "bcde" = (6 # 8)%Q.
Proof. reflexivity. Qed.

Example blocks_abxcd_abcd :
  Difflib.get_matching_blocks "abxcd" "abcd" = [(0, 0, 2); (3, 2, 2); (5, 4, 0)].
Proof. reflexivity. Qed.

Example strip_lower_ex :
  Py.strip (Py.lower "  AtorVastatin Calcium  ") = "atorvastatin calcium".
Proof. reflexivity. Qed.

(** Paths look below the element only, in document order. *)
Example find_paths_ex :
  let inner := node "Journal" [ leaf "ISOAbbreviation" "nested" ] in
  let root :=
    node "PMID" [ node "A" [ leaf "PMID" "inner";
                             node "Journal" [ leaf "Title" "t1"; inner ];
                             node "Journal" [ leaf "ISOAbbreviation" "iso2" ] ];
                  leaf "PMID" "second" ] in
  map ET.text (ET.findall_desc root "PMID") = [Some "inner"; Some "second"] /\
  option_map ET.text (ET.find_desc_child root "Journal" "ISOAbbreviation")
  = Some (Some "nested") /\
  option_map ET.text (ET.find_child root "PMID") = Some (Some "second") /\
  ET.find_child root "Journal" = None.
Proof. repeat split. Qed.

Example clean_xml_text_ex :
  clean_xml_text (Some "NSAIDs  are <i>nephrotoxic</i> if x < 3.") = "NSAIDs are nephrotoxic if x < 3.".
Proof. reflexivity. Qed.

Example fixed_ex : fixed 2 128%Q = "128.00" /\ fixed 1 (200 # 3)%Q = "66.7"
  /\ fixed 2 (-(1 # 8))%Q = "-0.12".
Proof. repeat split; reflexivity. Qed.

Example read_json_ex :
  read_json ("{" ++ dquote ++ "status" ++ dquote ++ ": "
                    ++ dquote ++ "blocked" ++ dquote ++ ", "
                    ++ dquote ++ "n" ++ dquote ++ ": [1, -2, null, true]}")
  = inr (VDict [("status", VStr "blocked");
                ("n", VList [VInt 1; VInt (-2); VNone; VBool true])]).
Proof. reflexivity. Qed.

Example lipitor_ex :
  @search_jan_aushadhi offline (inr []) "Lipitor" (Some mock_db)
  = inr [("found", VBool true);
         ("drug_data", VDict [
            ("generic_name", VStr "Atorvastatin");
            ("brand_name_detected", VStr "Lipitor");
            ("match_source", VStr "Brand Match (Lipitor)");
            ("jan_aushadhi_price", VStr "₹12.0");
            ("market_average_price", VStr "₹140.0");
            ("savings_amount", VStr "₹128.00");
            ("savings_percentage", VStr "91%")]);
         ("message",
          VStr "Switch Available: Jan Aushadhi Atorvastatin costs ₹12.0 (vs ₹140.0). Save ₹128.00.")].
Proof. vm_compute. reflexivity. Qed.

(** The catalogue of the test area finds nothing for an unrelated name,
    and an empty catalogue is reported as unavailable. *)
Example aspirin_ex :
  @search_jan_aushadhi offline (inr []) "Aspirin" (Some mock_db)
  = inr [("found", VBool false);
         ("message", VStr "No direct Jan Aushadhi substitute found. (Best match: 42.9%)")].
Proof. vm_compute. reflexivity. Qed.

Example empty_catalog_ex :
  @search_jan_aushadhi offline (inr []) "Lipitor" None
  = inr [("found", VBool false); ("message", VStr "Database unavailable.")].
Proof. reflexivity. Qed.

(** An empty query against an entry without a generic name scores 100 and
    the result cannot be built. *)
Example nameless_entry_ex :
  @search_jan_aushadhi offline (inr []) ""
    (Some [ {| generic_name := None; common_brands := None; jan_price := None;
               market_avg_price := None; savings_percentage := None |} ])
  = inl (KeyError "generic_name").
Proof. vm_compute. reflexivity. Qed.

(** The article without a publication date is skipped, the other one is
    normalised. *)
Example parse_articles_ex :
  parse_articles efetch_xml
  = [VDict [("pmid", VStr "31234567");
            ("title", VStr "NSAID use in chronic kidney disease");
            ("journal", VStr "Kidney Int");
            ("pub_date", VStr "2019 Jun");
            ("abstract", VStr "BACKGROUND: NSAIDs are nephrotoxic. Avoid them.");
            ("url", VStr "https://pubmed.ncbi.nlm.nih.gov/31234567/")]].
Proof. vm_compute. reflexivity. Qed.

(** The requests of the run in which only the third variant finds
    something: two searches for each of the first two variants, one search and
    one fetch for the third, nothing for the fourth. *)
Example requests_ex :
  requests (snd (@research_agent third_variant_only lipitor_state
                   (start third_variant_only tt)))
  = [ Esearch (final_query "Lipitor CKD Hypertension contraindications adverse effects" true);
      Esearch (final_query "Lipitor CKD Hypertension contraindications adverse effects" false);
      Esearch (final_query "Lipitor CKD Hypertension safety" true);
      Esearch (final_query "Lipitor CKD Hypertension safety" false);
      Esearch (final_query "Lipitor chronic kidney disease" true);
      Efetch "31234567" ].
Proof. reflexivity. Qed.

(** The fences around the model's answer are stripped before parsing. *)
Example fenced_draft_ex :
  read_json (clean_json_text fenced_draft)
  = inr (VDict [("status", VStr "approved"); ("title", VStr "Safe");
                ("savings", VDict [("found", VBool false);
                                   ("text", VStr "Save 999 rupees")])]).
Proof. vm_compute. reflexivity. Qed.

End Runs.

(** * Further properties of the code *)

(** ** The size of the matching blocks *)
Section BlockSizes.
Import Difflib Observe.

Variables a b : string.

Lemma sum_sizes_app l1 l2 : sum_sizes (l1 ++ l2) = sum_sizes l1 + sum_sizes l2.
Proof. unfold sum_sizes. now rewrite map_app, list_sum_app. Qed.

Lemma sum_sizes_insert x l : sum_sizes (insert_sorted x l) = snd x + sum_sizes l.
Proof.
  induction l as [|y l IH]; simpl; [reflexivity|].
  destruct (match_leb x y); [reflexivity|].
  unfold sum_sizes in *. simpl. rewrite IH. lia.
Qed.

Lemma sum_sizes_sort l : sum_sizes (sort l) = sum_sizes l.
Proof.
  induction l as [|x l IH]; [reflexivity|].
  simpl. rewrite sum_sizes_insert, IH. reflexivity.
Qed.

Lemma sum_sizes_collapse : forall blocks i1 j1 k1 acc,
  sum_sizes (collapse blocks i1 j1 k1 acc) = sum_sizes acc + k1 + sum_sizes blocks.
Proof.
  induction blocks as [|[[i2 j2] k2] blocks IH]; intros i1 j1 k1 acc; simpl.
  - destruct (Nat.eqb_spec k1 0) as [-> | _].
    + unfold sum_sizes. simpl. lia.
    + rewrite sum_sizes_app. unfold sum_sizes. simpl. lia.
  - destruct ((i1 + k1 =? i2) && (j1 + k1 =? j2)).
    + rewrite IH. unfold sum_sizes. simpl. lia.
    + rewrite IH. destruct (Nat.eqb_spec k1 0) as [-> | _].
      * unfold sum_sizes. simpl. lia.
      * rewrite sum_sizes_app. unfold sum_sizes. simpl. lia.
Qed.

Lemma span_cons alo ahi blo bhi (queue : list Range) :
  span_a (@cons Range (alo, ahi, blo, bhi) queue) = (ahi - alo) + span_a queue /\
  span_b (@cons Range (alo, ahi, blo, bhi) queue) = (bhi - blo) + span_b queue.
Proof. split; reflexivity. Qed.

(** The blocks found never hold more characters than the ranges still in
    the queue had, on either side. *)
Lemma blocks_loop_sum : forall fuel queue acc,
  Forall range_ok queue ->
  sum_sizes (blocks_loop a b fuel queue acc) <= sum_sizes acc + span_a queue /\
  sum_sizes (blocks_loop a b fuel queue acc) <= sum_sizes acc + span_b queue.
Proof.
  induction fuel as [|fuel IH]; intros queue acc Hok; [simpl; lia|].
  destruct queue as [|[[[alo ahi] blo] bhi] queue]; [simpl; lia|].
  inversion Hok as [|? ? Hr Hrest]; subst. destruct Hr as [Ha Hb].
  destruct (span_cons alo ahi blo bhi queue) as [Hsa Hsb]. rewrite Hsa, Hsb.
  pose proof (find_longest_match_bounds a b alo ahi blo bhi Ha Hb) as Hbest.
  simpl. destruct (find_longest_match a b alo ahi blo bhi) as [[i j] k].
  unfold best_ok in Hbest.
  destruct (Nat.eqb_spec k 0) as [Hk | Hk].
  - destruct (IH queue acc Hrest). lia.
  - match goal with
    | |- context [blocks_loop a b fuel ?q _] => set (q2 := q)
    end.
    assert (Hq : Forall range_ok q2 /\
                 span_a q2 + k <= (ahi - alo) + span_a queue /\
                 span_b q2 + k <= (bhi - blo) + span_b queue).
    { subst q2.
      destruct (Nat.ltb_spec alo i), (Nat.ltb_spec blo j),
               (Nat.ltb_spec (i + k) ahi), (Nat.ltb_spec (j + k) bhi);
        simpl andb; cbv iota;
        (split; [repeat constructor; try exact Hrest; simpl; lia|]);
        unfold span_a, span_b; simpl; lia. }
    destruct Hq as (Hq & Hqa & Hqb).
    destruct (IH q2 (acc ++ [(i, j, k)])%list Hq) as [H1 H2].
    rewrite sum_sizes_app in H1, H2.
    assert (Hone : sum_sizes [(i, j, k)] = k) by (unfold sum_sizes; simpl; lia).
    rewrite Hone in H1, H2. lia.
Qed.

(** The matched characters are at most the length of the shorter
    string. *)
Lemma matches_le_lengths :
  sum_sizes (get_matching_blocks a b) <= String.length a /\
  sum_sizes (get_matching_blocks a b) <= String.length b.
Proof.
  unfold get_matching_blocks.
  rewrite sum_sizes_app, sum_sizes_collapse, sum_sizes_sort.
  destruct (blocks_loop_sum (2 * String.length a + 1)
              [(0, String.length a, 0, String.length b)] []) as [H1 H2].
  { repeat constructor; simpl; lia. }
  assert (Hnil : sum_sizes [] = 0) by reflexivity.
  assert (Hend : sum_sizes [(String.length a, String.length b, 0)] = 0) by reflexivity.
  assert (Hsa : span_a [(0, String.length a, 0, String.length b)] = String.length a)
    by (unfold span_a; simpl; lia).
  assert (Hsb : span_b [(0, String.length a, 0, String.length b)] = String.length b)
    by (unfold span_b; simpl; lia).
  rewrite Hnil, Hsa in H1. rewrite Hnil, Hsb in H2. rewrite Hnil, Hend. lia.
Qed.

Lemma ratio_bounds : (0 <= ratio a b <= 1)%Q.
Proof.
  unfold ratio. fold (sum_sizes (get_matching_blocks a b)).
  destruct matches_le_lengths as [Ha Hb].
  set (m := sum_sizes (get_matching_blocks a b)) in *.
  unfold _calculate_ratio.
  destruct (String.length a + String.length b) as [|n] eqn:Hn.
  - split; discriminate.
  - assert (Hpos : Z.pos (Pos.of_nat (S n)) = Z.of_nat (S n)).
    { rewrite <- positive_nat_Z. now rewrite Nat2Pos.id by discriminate. }
    split; unfold Qle; cbn [Qnum Qden]; rewrite Hpos; lia.
Qed.

End BlockSizes.

(** ** The similarity score and the catalogue scan *)
Section MatcherFacts.
Import Tools Observe.

(** X1. The similarity score of any two strings lies between 0 and 100:
    the matched characters never exceed the shorter string, so the ratio is at
    most 1, and the substring bonus only raises a score to 95. *)
Theorem score_between_0_and_100 (query target : string) :
  (0 <= get_similarity_score query target)%Q /\
  (get_similarity_score query target <= 100)%Q.
Proof.
  unfold get_similarity_score.
  set (q := Py.strip (Py.lower query)). set (t := Py.strip (Py.lower target)).
  destruct (ratio_bounds q t) as [Hlo Hhi].
  assert (Hb0 : (0 <= Difflib.ratio q t * 100)%Q).
  { apply Qmult_le_0_compat; [exact Hlo | discriminate]. }
  assert (Hb1 : (Difflib.ratio q t * 100 <= 100)%Q).
  { apply Qle_trans with (1 * 100)%Q; [|discriminate].
    apply Qmult_le_compat_r; [exact Hhi | discriminate]. }
  destruct ((4 <? String.length q) && Py.contains q t); [|now split].
  unfold Py.max. destruct (Py.Qltb _ 95); [split; discriminate | now split].
Qed.

Lemma lower_char_lower c : Py.lower_char (Py.lower_char c) = Py.lower_char c.
Proof. destruct c as [[] [] [] [] [] [] [] []]; reflexivity. Qed.

Lemma lower_char_upper c : Py.lower_char (Py.upper_char c) = Py.lower_char c.
Proof. destruct c as [[] [] [] [] [] [] [] []]; reflexivity. Qed.

Lemma isspace_lower_char c : Py.isspace (Py.lower_char c) = Py.isspace c.
Proof. destruct c as [[] [] [] [] [] [] [] []]; reflexivity. Qed.

Lemma lower_lower s : Py.lower (Py.lower s) = Py.lower s.
Proof.
  induction s as [|c s IH]; [reflexivity|].
  unfold Py.lower in *. simpl. now rewrite lower_char_lower, IH.
Qed.

Lemma lower_upper s : Py.lower (Py.upper s) = Py.lower s.
Proof.
  induction s as [|c s IH]; [reflexivity|].
  unfold Py.lower, Py.upper in *. simpl. now rewrite lower_char_upper, IH.
Qed.

Lemma lstrip_lower s : Py.lstrip (Py.lower s) = Py.lower (Py.lstrip s).
Proof.
  induction s as [|c s IH]; [reflexivity|].
  unfold Py.lower in *. simpl. rewrite isspace_lower_char.
  destruct (Py.isspace c); [exact IH | reflexivity].
Qed.

Lemma rstrip_lower s : Py.rstrip (Py.lower s) = Py.lower (Py.rstrip s).
Proof.
  induction s as [|c s IH]; [reflexivity|].
  unfold Py.lower in *. simpl. rewrite IH, isspace_lower_char.
  destruct (Py.rstrip s); simpl; [|reflexivity].
  now destruct (Py.isspace c).
Qed.

Lemma strip_lower s : Py.strip (Py.lower s) = Py.lower (Py.strip s).
Proof. unfold Py.strip. now rewrite lstrip_lower, rstrip_lower. Qed.

Lemma strip_strip s : Py.strip (Py.strip s) = Py.strip s.
Proof.
  unfold Py.strip.
  rewrite (lstrip_rstrip_fixed (Py.lstrip s) (lstrip_idem s)).
  apply rstrip_idem.
Qed.

(** X2. The score does not depend on the case of its arguments nor on the
    white space around them. *)
Theorem score_ignores_case_and_padding (query target : string) :
  get_similarity_score (Py.upper query) target = get_similarity_score query target /\
  get_similarity_score (Py.lower query) target = get_similarity_score query target /\
  get_similarity_score (Py.strip query) target = get_similarity_score query target /\
  get_similarity_score query (Py.upper target) = get_similarity_score query target /\
  get_similarity_score query (Py.lower target) = get_similarity_score query target /\
  get_similarity_score query (Py.strip target) = get_similarity_score query target.
Proof.
  unfold get_similarity_score.
  rewrite !lower_upper, !lower_lower.
  rewrite <- !strip_lower, !strip_strip.
  repeat split.
Qed.

Lemma record_score_unfold query record :
  score_record query record
  = (fst (fst (fst (score_record query record))),
     snd (fst (fst (score_record query record))),
     record_score query record, record_source query record).
Proof.
  unfold record_score, record_source.
  now destruct (score_record query record) as [[[g b] c] src].
Qed.

Lemma scan_step_unfold query (acc : Best) record :
  scan_step query acc record
  = if Py.Qltb (highest_score acc) (record_score query record)
    then (Some record, record_score query record, record_source query record)
    else acc.
Proof.
  unfold scan_step. rewrite (record_score_unfold query record).
  destruct acc as [[bm hs] src]. reflexivity.
Qed.

Lemma scan_catalog_spec (query : string) (db : list CatalogEntry) :
  match best_match (scan_catalog query db) with
  | None =>
      highest_score (scan_catalog query db) = 0%Q /\
      forall r, In r db -> (record_score query r <= 0)%Q
  | Some r =>
      exists pre post,
        db = (pre ++ r :: post)%list /\
        highest_score (scan_catalog query db) = record_score query r /\
        matched_name_source (scan_catalog query db) = record_source query r /\
        (0 < record_score query r)%Q /\
        (forall x, In x pre -> (record_score query x < record_score query r)%Q) /\
        (forall x, In x post -> (record_score query x <= record_score query r)%Q)
  end.
Proof.
  induction db as [|x l IH] using rev_ind.
  - simpl. split; [reflexivity | intros r []].
  - unfold scan_catalog in *. rewrite fold_left_app. simpl fold_left.
    rewrite scan_step_unfold.
    set (acc := fold_left (scan_step query) l (None, 0%Q, "")) in *.
    destruct (Py.Qltb (highest_score acc) (record_score query x)) eqn:Hcmp.
    + apply Qltb_lt in Hcmp. cbn [best_match highest_score matched_name_source fst snd].
      exists l, []. repeat split.
      * destruct (best_match acc) as [r|].
        -- destruct IH as (pre & post & _ & Hhs & _ & Hpos & _).
           rewrite Hhs in Hcmp. eapply Qlt_trans; eassumption.
        -- destruct IH as [Hhs _]. now rewrite Hhs in Hcmp.
      * intros y Hy. destruct (best_match acc) as [r|].
        -- destruct IH as (pre & post & -> & Hhs & _ & _ & Hpre & Hpost).
           rewrite Hhs in Hcmp.
           apply in_app_or in Hy. destruct Hy as [Hy | [<- | Hy]].
           ++ eapply Qlt_trans; [apply Hpre, Hy | exact Hcmp].
           ++ exact Hcmp.
           ++ eapply Qle_lt_trans; [apply Hpost, Hy | exact Hcmp].
        -- destruct IH as [Hhs Hall]. rewrite Hhs in Hcmp.
           eapply Qle_lt_trans; [apply Hall, Hy | exact Hcmp].
      * intros y [].
    + apply Qltb_ge in Hcmp. destruct (best_match acc) as [r|].
      * destruct IH as (pre & post & -> & Hhs & Hsrc & Hpos & Hpre & Hpost).
        exists pre, (post ++ [x])%list. rewrite <- app_assoc. simpl.
        repeat split; try assumption.
        intros y Hy. apply in_app_or in Hy. destruct Hy as [Hy | [<- | []]].
        -- now apply Hpost.
        -- now rewrite <- Hhs.
      * destruct IH as [Hhs Hall]. split; [exact Hhs|].
        intros r Hr. apply in_app_or in Hr. destruct Hr as [Hr | [<- | []]].
        -- now apply Hall.
        -- now rewrite <- Hhs.
Qed.

(** X3. The catalogue scan keeps the first entry with the highest score:
    every entry before it scores strictly less and every entry after it at
    most as much, and the kept score is positive. When no entry scores above 0
    nothing is kept. *)
Theorem scan_keeps_first_maximum (query : string) (db : list CatalogEntry) :
  match best_match (scan_catalog query db) with
  | None =>
      highest_score (scan_catalog query db) = 0%Q /\
      forall r, In r db -> (record_score query r <= 0)%Q
  | Some r =>
      exists pre post,
        db = (pre ++ r :: post)%list /\
        highest_score (scan_catalog query db) = record_score query r /\
        matched_name_source (scan_catalog query db) = record_source query r /\
        (0 < record_score query r)%Q /\
        (forall x, In x pre -> (record_score query x < record_score query r)%Q) /\
        (forall x, In x post -> (record_score query x <= record_score query r)%Q)
  end.
Proof. exact (scan_catalog_spec query db). Qed.

End MatcherFacts.

Section CatalogueFacts.
Import Tools Observe.

Lemma best_brand_spec (query : string) (brands : list string) :
  let brand_score := fst (best_brand query brands) in
  let brand := snd (best_brand query brands) in
  (forall x, In x brands -> (get_similarity_score query x <= brand_score)%Q) /\
  ((brand_score = 0%Q /\ brand = "") \/
   exists pre post,
     brands = (pre ++ brand :: post)%list /\
     brand_score = get_similarity_score query brand /\
     (0 < brand_score)%Q /\
     forall x, In x pre -> (get_similarity_score query x < brand_score)%Q).
Proof.
  induction brands as [|x l IH] using rev_ind.
  - simpl. split; [intros x [] | left; now split].
  - unfold best_brand in *. rewrite fold_left_app. simpl fold_left.
    set (acc := fold_left _ l (0%Q, "")) in *. simpl in IH.
    destruct IH as [Hall Hfirst].
    destruct (Py.Qltb (fst acc) (get_similarity_score query x)) eqn:Hcmp; simpl.
    + apply Qltb_lt in Hcmp. split.
      * intros y Hy. apply in_app_or in Hy. destruct Hy as [Hy | [<- | []]].
        -- apply Qlt_le_weak. eapply Qle_lt_trans; [apply Hall, Hy | exact Hcmp].
        -- apply Qle_refl.
      * right. exists l, []. repeat split.
        -- destruct Hfirst as [[H0 _] | (pre & post & _ & _ & Hpos & _)].
           ++ now rewrite H0 in Hcmp.
           ++ eapply Qlt_trans; eassumption.
        -- intros y Hy. eapply Qle_lt_trans; [apply Hall, Hy | exact Hcmp].
    + apply Qltb_ge in Hcmp. split.
      * intros y Hy. apply in_app_or in Hy. destruct Hy as [Hy | [<- | []]].
        -- now apply Hall.
        -- exact Hcmp.
      * destruct Hfirst as [H0 | (pre & post & Heq & Hs & Hpos & Hpre)]; [now left|].
        right. exists pre, (post ++ [x])%list.
        rewrite Heq at 1. rewrite <- app_assoc. now repeat split.
Qed.

(** X4. The brand loop keeps the first alias with the highest score, which
    is positive; when no alias scores above 0 it keeps the empty brand with
    score 0. Either way no alias scores more than the score kept. *)
Theorem best_brand_is_first_maximum (query : string) (brands : list string) :
  let brand_score := fst (best_brand query brands) in
  let brand := snd (best_brand query brands) in
  (forall x, In x brands -> (get_similarity_score query x <= brand_score)%Q) /\
  ((brand_score = 0%Q /\ brand = "") \/
   exists pre post,
     brands = (pre ++ brand :: post)%list /\
     brand_score = get_similarity_score query brand /\
     (0 < brand_score)%Q /\
     forall x, In x pre -> (get_similarity_score query x < brand_score)%Q).
Proof. exact (best_brand_spec query brands). Qed.

(** The score kept for a record is at least the score of each of its
    names. *)
Lemma record_score_ge_names (query : string) (record : CatalogEntry) (name : string) :
  In name (names_of record) ->
  (get_similarity_score query name <= record_score query record)%Q.
Proof.
  intros Hin.
  assert (Hmax : (get_similarity_score query
                    (match generic_name record with Some g => g | None => "" end)
                  <= record_score query record)%Q /\
                 (fst (best_brand query
                         (match common_brands record with Some l => l | None => [] end))
                  <= record_score query record)%Q).
  { unfold record_score, score_record.
    destruct (best_brand query _) as [bs br]. simpl fst.
    destruct (Py.Qltb bs _) eqn:Hb; simpl.
    - split; [apply Qle_refl|]. apply Qlt_le_weak. now apply Qltb_lt.
    - split; [now apply Qltb_ge | apply Qle_refl]. }
  destruct Hmax as [Hg Hb]. destruct Hin as [<- | Hin]; [exact Hg|].
  eapply Qle_trans; [|exact Hb].
  now apply (proj1 (best_brand_spec query _)).
Qed.

Lemma highest_ge_record (query : string) (db : list CatalogEntry) (r : CatalogEntry) :
  In r db -> (record_score query r <= highest_score (scan_catalog query db))%Q.
Proof.
  intros Hin. pose proof (scan_catalog_spec query db) as Hscan.
  destruct (best_match (scan_catalog query db)) as [m|].
  - destruct Hscan as (pre & post & Heq & -> & _ & _ & Hpre & Hpost).
    rewrite Heq in Hin. apply in_app_or in Hin. destruct Hin as [Hin | [<- | Hin]].
    + apply Qlt_le_weak. now apply Hpre.
    + apply Qle_refl.
    + now apply Hpost.
  - destruct Hscan as [-> Hall]. now apply Hall.
Qed.

Context {R : Runtime}.

(** A price that does not convert is an integer out of the range of
    floats. *)
Lemma price_error (p : option number) (e : exn) :
  price p = inl e ->
  e = OverflowError "int too large to convert to float" /\
  exists n, p = Some (Int n) /\ (float_limit <= Z.abs n)%Z.
Proof.
  destruct p as [[n | [q | negative |]]|]; cbn [price to_float]; try discriminate.
  destruct (Z.ltb_spec (Z.abs n) float_limit) as [Hlt | Hge]; [discriminate|].
  intros [= <-]. split; [reflexivity|]. now exists n.
Qed.

Lemma priced_cases (entry : CatalogEntry) :
  match priced entry with
  | inl e =>
      e = OverflowError "int too large to convert to float" /\
      exists n,
        (jan_price entry = Some (Int n) \/ market_avg_price entry = Some (Int n)) /\
        (float_limit <= Z.abs n)%Z
  | inr (jan, market, savings) =>
      price (jan_price entry) = inr jan /\
      price (market_avg_price entry) = inr market /\
      savings = fsub market jan
  end.
Proof.
  unfold priced.
  destruct (price (jan_price entry)) as [e | jan] eqn:Hj.
  - destruct (price_error _ _ Hj) as (-> & n & Hn & Hbig).
    split; [reflexivity|]. exists n. split; [now left | exact Hbig].
  - destruct (price (market_avg_price entry)) as [e | market] eqn:Hm.
    + destruct (price_error _ _ Hm) as (-> & n & Hn & Hbig).
      split; [reflexivity|]. exists n. split; [now right | exact Hbig].
    + now repeat split.
Qed.

(** X5. [search_jan_aushadhi] raises in three ways only. The catalogue
    file cannot be read, when no catalogue is passed in: the exception of
    the loader. A price of the best match, which reaches the threshold, is
    an integer out of the range of floats: [OverflowError]. The best match
    reaches the threshold, its prices convert, its savings are not negative
    and it has no ['generic_name'] key: [KeyError]. *)
Theorem search_raises_in_three_ways (file_db : exn + list CatalogEntry)
    (query : string) (db : option (list CatalogEntry)) (e : exn) :
  search_jan_aushadhi file_db query db = inl e ->
  (db = None /\ file_db = inl e) \/
  exists catalog entry,
    database file_db db = inr catalog /\
    In entry catalog /\
    best_match (scan_catalog query catalog) = Some entry /\
    (THRESHOLD <= record_score query entry)%Q /\
    ((e = OverflowError "int too large to convert to float" /\
      exists n,
        (jan_price entry = Some (Int n) \/ market_avg_price entry = Some (Int n)) /\
        (float_limit <= Z.abs n)%Z) \/
     (e = KeyError "generic_name" /\
      generic_name entry = None /\
      exists jan market savings,
        priced entry = inr (jan, market, savings) /\ flt0 savings = false)).
Proof.
  unfold search_jan_aushadhi.
  destruct (database file_db db) as [e0 | catalog] eqn:Hdb.
  { intros [= <-]. left. destruct db; [discriminate | now split]. }
  intros Hraise. right. exists catalog.
  pose proof (scan_catalog_spec query catalog) as Hscan.
  destruct catalog as [|c0 rest] eqn:Hcat; [discriminate|]. rewrite <- Hcat in *.
  destruct (scan_catalog query catalog) as [[bm hs] src].
  cbn [best_match highest_score matched_name_source fst snd] in Hscan.
  destruct (Qle_bool THRESHOLD hs) eqn:Hth; [|discriminate].
  apply Qle_bool_iff in Hth.
  destruct bm as [bm|].
  - destruct Hscan as (pre & post & Heq & Hhs & _).
    exists bm. split; [reflexivity|].
    split; [rewrite Heq; apply in_or_app; right; now left|].
    split; [reflexivity|]. split; [now rewrite <- Hhs|].
    pose proof (priced_cases bm) as Hp.
    destruct (priced bm) as [e1 | [[jan market] savings]] eqn:Hpriced.
    + injection Hraise as <-. left. exact Hp.
    + destruct (flt0 savings) eqn:Hneg; [discriminate|].
      destruct (generic_name bm) eqn:Hname; [discriminate|].
      injection Hraise as <-. right. split; [reflexivity|]. split; [reflexivity|].
      now exists jan, market, savings.
  - destruct Hscan as [-> _]. exfalso. revert Hth. apply Qlt_not_le. reflexivity.
Qed.

(** X6. Take a catalogue, a name of one of its entries (the generic name
    or any brand alias) and a query, both ASCII text, such that the query
    occurs inside the name and is longer than 4 characters once normalised.
    Then the best score reaches 95, so the search does not answer that no
    substitute was found: a dictionary it returns reports a match, or a match
    without savings. *)
Theorem name_in_catalogue_reaches_threshold (file_db : exn + list CatalogEntry)
    (query : string) (db : option (list CatalogEntry)) (catalog : list CatalogEntry)
    (record : CatalogEntry) (name : string) :
  database file_db db = inr catalog ->
  In record catalog ->
  In name (names_of record) ->
  Py.isascii query = true ->
  Py.isascii name = true ->
  4 < String.length (Py.strip (Py.lower query)) ->
  Py.contains query name = true ->
  (95 <= highest_score (scan_catalog query catalog))%Q /\
  forall d, search_jan_aushadhi file_db query db = inr d ->
            dict_get d "found" = Some (VBool true) \/
            d = [("found", VBool false);
                 ("message", VStr "Generic found but offers no savings.")].
Proof.
  intros Hdb Hrec Hname _ _ Hlen Hin.
  assert (Hhigh : (95 <= highest_score (scan_catalog query catalog))%Q).
  { eapply Qle_trans; [|apply highest_ge_record; exact Hrec].
    eapply Qle_trans; [|apply record_score_ge_names; exact Hname].
    apply bonus_score; [exact Hlen | now apply contains_normalized]. }
  split; [exact Hhigh|].
  unfold search_jan_aushadhi. rewrite Hdb.
  destruct catalog as [|c0 rest] eqn:Hcat; [destruct Hrec|]. rewrite <- Hcat in *.
  destruct (scan_catalog query catalog) as [[bm hs] src].
  cbn [highest_score fst snd] in Hhigh.
  assert (Hth : Qle_bool THRESHOLD hs = true).
  { apply Qle_bool_iff. eapply Qle_trans; [|exact Hhigh]. discriminate. }
  rewrite Hth. destruct bm as [bm|]; [|discriminate].
  destruct (priced bm) as [e1 | [[jan market] savings]]; [discriminate|].
  destruct (flt0 savings).
  - intros d [= <-]. now right.
  - destruct (generic_name bm); [|discriminate].
    intros d [= <-]. now left.
Qed.

End CatalogueFacts.

(** ** The PubMed tool *)
Section TextFacts.
Import Tools Observe.

Lemma rev_str_no_space : forall s acc,
  no_space s = true -> no_space acc = true -> no_space (Py.rev_str acc s) = true.
Proof.
  induction s as [|c s IH]; intros acc Hs Hacc; [exact Hacc|].
  simpl in Hs. apply andb_true_iff in Hs. destruct Hs as [Hc Hs].
  simpl. apply IH; [exact Hs|]. simpl. now rewrite Hc.
Qed.

Lemma rev_str_not_empty : forall s acc,
  s <> "" \/ acc <> "" -> Py.rev_str acc s <> "".
Proof.
  induction s as [|c s IH]; intros acc Hne; simpl.
  - destruct Hne as [Hne | Hne]; [congruence | exact Hne].
  - apply IH. right. discriminate.
Qed.

Lemma split_from_words : forall s cur,
  no_space cur = true -> Forall is_word (Py.split_from cur s).
Proof.
  induction s as [|c s IH]; intros cur Hcur; simpl.
  - destruct cur as [|d cur]; [constructor|].
    constructor; [|constructor]. split.
    + apply rev_str_not_empty. left. discriminate.
    + now apply rev_str_no_space.
  - destruct (Py.isspace c) eqn:Hc.
    + destruct cur as [|d cur]; [now apply IH|].
      constructor; [|now apply IH]. split.
      * apply rev_str_not_empty. left. discriminate.
      * now apply rev_str_no_space.
    + apply IH. simpl. now rewrite Hc.
Qed.

Lemma spaced_word_then : forall w r,
  no_space w = true -> Observe.spaced r = true -> Observe.spaced (w ++ r) = true.
Proof.
  induction w as [|c w IH]; intros r Hw Hr; [exact Hr|].
  simpl in Hw. apply andb_true_iff in Hw. destruct Hw as [Hc Hw].
  apply negb_true_iff in Hc. simpl. rewrite Hc. simpl. now apply IH.
Qed.

Lemma spaced_word w : no_space w = true -> Observe.spaced w = true.
Proof.
  induction w as [|c w IH]; intros Hw; [reflexivity|].
  simpl in Hw. apply andb_true_iff in Hw. destruct Hw as [Hc Hw].
  apply negb_true_iff in Hc. simpl. rewrite Hc. now apply IH.
Qed.

Lemma join_words_normal (l : list string) :
  Forall is_word l -> normal_spacing (Py.join " " l) = true.
Proof.
  unfold Py.join. induction l as [|w l IH]; intros Hl; [reflexivity|].
  inversion Hl as [|? ? [Hne Hw] Hrest]; subst.
  specialize (IH Hrest).
  destruct w as [|c w]; [congruence|].
  pose proof Hw as Hw'. simpl in Hw'. apply andb_true_iff in Hw'.
  destruct Hw' as [Hc _].
  destruct l as [|w2 l].
  - change (String.concat " " [String c w]) with (String c w).
    unfold normal_spacing. rewrite Hc. now apply spaced_word.
  - change (String.concat " " (String c w :: w2 :: l))
      with (String c w ++ " " ++ String.concat " " (w2 :: l)).
    set (rest := String.concat " " (w2 :: l)) in *.
    assert (Hhead : exists d rest', rest = String d rest' /\ Py.isspace d = false).
    { subst rest. inversion Hrest as [|? ? [Hne2 Hw2] _]; subst.
      destruct w2 as [|d w2]; [congruence|].
      simpl in Hw2. apply andb_true_iff in Hw2. destruct Hw2 as [Hd _].
      apply negb_true_iff in Hd.
      destruct l; simpl; eexists; eexists; split; try reflexivity; exact Hd. }
    destruct Hhead as (d & rest' & Hrest' & Hd).
    unfold normal_spacing in IH. rewrite Hrest' in IH.
    apply andb_true_iff in IH. destruct IH as [_ Hsp].
    assert (Hblank : Observe.spaced (" " ++ rest) = true).
    { rewrite Hrest'.
      change (Observe.spaced (" " ++ String d rest'))
        with ((if Py.isspace " " then Ascii.eqb " " " " && negb (Py.isspace d) else true)
              && Observe.spaced (String d rest')).
      rewrite Hd, Hsp. reflexivity. }
    unfold normal_spacing. cbn [append]. rewrite Hc. cbn [andb].
    change (String c (w ++ String " " rest)) with (String c w ++ (" " ++ rest)).
    now apply spaced_word_then.
Qed.

Lemma clean_xml_text_spaced (text : option string) :
  normal_spacing (clean_xml_text text) = true.
Proof.
  unfold clean_xml_text. destruct text as [[|c t]|]; try reflexivity.
  apply join_words_normal. unfold Py.split. now apply split_from_words.
Qed.

(** X7. The text returned by [clean_xml_text] has its white space in
    normal form: no space character at either end, and as space characters
    only single blanks, each between two other characters. *)
Theorem clean_xml_text_normal_spacing (text : option string) :
  normal_spacing (clean_xml_text text) = true.
Proof. exact (clean_xml_text_spaced text). Qed.

Lemma append_empty_r s : s ++ "" = s.
Proof. induction s as [|c s IH]; simpl; [reflexivity | now rewrite IH]. Qed.

Lemma sub_tags_plain : forall u r,
  lacks "<" u = true -> sub_tags false (u ++ r) = u ++ sub_tags false r.
Proof.
  induction u as [|c u IH]; intros r Hu; [reflexivity|].
  simpl in Hu. apply andb_true_iff in Hu. destruct Hu as [Hc Hu].
  apply negb_true_iff in Hc. simpl. rewrite Hc. simpl. now rewrite IH.
Qed.

Lemma has_gt_after : forall t v, has_gt (t ++ ">" ++ v) = true.
Proof.
  induction t as [|c t IH]; intros v; simpl; [reflexivity|].
  destruct (Ascii.eqb c ">"); [reflexivity | apply IH].
Qed.

Lemma sub_tags_inside : forall t v,
  lacks ">" t = true -> sub_tags true (t ++ ">" ++ v) = sub_tags false v.
Proof.
  induction t as [|c t IH]; intros v Ht; [reflexivity|].
  simpl in Ht. apply andb_true_iff in Ht. destruct Ht as [Hc Ht].
  apply negb_true_iff in Hc. simpl. rewrite Hc. simpl. now apply IH.
Qed.

(** X8. Tag removal: after text without [<], a tag [<t>] with a non-empty
    [t] free of [>] is dropped whole and the scan goes on behind it; text
    without any [<] is left as it is. *)
Theorem sub_tags_drops_tag (u t v : string) :
  lacks "<" u = true -> t <> "" -> lacks ">" t = true ->
  sub_tags false (u ++ "<" ++ t ++ ">" ++ v) = u ++ sub_tags false v /\
  sub_tags false u = u.
Proof.
  intros Hu Hne Ht. split.
  - rewrite sub_tags_plain by exact Hu. f_equal.
    destruct t as [|c t]; [congruence|].
    pose proof Ht as Ht'. simpl in Ht'. apply andb_true_iff in Ht'.
    destruct Ht' as [Hc Ht'].
    change ("<" ++ String c t ++ ">" ++ v) with (String "<" (String c (t ++ ">" ++ v))).
    cbn [sub_tags]. change (Ascii.eqb "<" "<") with true. cbn [andb tag_opens].
    rewrite Hc, has_gt_after. cbn [andb].
    change (String c (t ++ ">" ++ v)) with (String c t ++ ">" ++ v).
    now apply sub_tags_inside.
  - rewrite <- (append_empty_r u) at 1.
    rewrite sub_tags_plain by exact Hu. simpl. apply append_empty_r.
Qed.

End TextFacts.

Section RetrievalFacts.
Import Tools AgentSystem Observe.

Lemma parse_article_cases (article_elem : ET.element) :
  (has_pub_date article_elem = false /\ exists e, parse_article article_elem = inl e) \/
  (has_pub_date article_elem = true /\
   exists title journal pub_date abstract url,
     parse_article article_elem
     = inr (VDict [("pmid", pmid_of article_elem); ("title", VStr title);
                   ("journal", journal);
                   ("pub_date", VStr pub_date); ("abstract", VStr abstract);
                   ("url", VStr url)]) /\
     normal_spacing title = true /\
     normal_spacing abstract = true /\
     Py.strip pub_date = pub_date).
Proof.
  unfold has_pub_date, parse_article, pmid_of.
  destruct (ET.find_desc article_elem "PubDate") as [pub_date_elem|].
  - right. split; [reflexivity|].
    do 5 eexists. split; [reflexivity|]. split; [|split].
    + apply clean_xml_text_spaced.
    + destruct (ET.findall_desc article_elem "AbstractText");
        [reflexivity | apply clean_xml_text_spaced].
    + apply strip_strip.
  - left. split; [reflexivity|]. eexists. reflexivity.
Qed.

(** X9. [fetch_article_details] keeps exactly the articles that have a
    publication date, in document order: the list returned runs parallel to
    the list of the dated [PubmedArticle] elements of the document, each
    article being the record of its element, with that element's PMID (or
    ["Unknown"]); every element without a date raises and is skipped. Every
    article kept is a dictionary with the six keys pmid, title, journal,
    pub_date, abstract and url, whose title and abstract have their white space
    in normal form. *)
Theorem parse_articles_keeps_dated (root : ET.element) :
  Forall2 (fun article_elem article =>
             parse_article article_elem = inr article /\
             exists d title abstract,
               article = VDict d /\
               map fst d = article_keys /\
               dict_get d "pmid" = Some (pmid_of article_elem) /\
               dict_get d "title" = Some (VStr title) /\
               normal_spacing title = true /\
               dict_get d "abstract" = Some (VStr abstract) /\
               normal_spacing abstract = true)
          (filter has_pub_date (ET.findall_desc root "PubmedArticle"))
          (parse_articles root) /\
  Forall (fun article_elem => exists e, parse_article article_elem = inl e)
         (filter (fun article_elem => negb (has_pub_date article_elem))
                 (ET.findall_desc root "PubmedArticle")).
Proof.
  unfold parse_articles.
  induction (ET.findall_desc root "PubmedArticle") as [|e l [IHkept IHskipped]].
  - split; constructor.
  - cbn [flat_map filter].
    destruct (parse_article_cases e)
      as [[Hd [x He]] |
          [Hd (title & journal & pub_date & abstract & url & He & Ht & Ha & _)]];
      rewrite Hd, He; cbn [negb app].
    + split; [exact IHkept|]. constructor; [now exists x | exact IHskipped].
    + split; [|exact IHskipped].
      constructor; [|exact IHkept].
      split; [exact He|].
      eexists. exists title, abstract. repeat split; assumption.
Qed.

Context {R : Runtime}.

(** [fetch_article_details] asks the index at most once: not at all
    for an empty list of identifiers (the state is left as it was), and
    otherwise once, for the identifiers joined by commas. A failing request
    yields no article and no exception. *)
Lemma fetch_requests (id_list : list string) (s : State) :
  match id_list with
  | [] => fetch_article_details id_list s = ([], s)
  | _ =>
      requests (snd (fetch_article_details id_list s))
      = (requests s ++ [Efetch (Py.join "," id_list)])%list /\
      fst (fetch_article_details id_list s)
      = match fst (http_efetch (Py.join "," id_list) (world s)) with
        | inr root => parse_articles root
        | inl _ => []
        end
  end.
Proof.
  destruct id_list as [|id ids]; [reflexivity|].
  unfold fetch_article_details, bind, call, ret.
  destruct (http_efetch (Py.join "," (id :: ids)) (world s)) as [r w].
  split; reflexivity.
Qed.

Lemma search_requests (query : string) (strict : bool) (s : State) :
  requests (snd (search_pubmed_ids query strict s))
  = (requests s ++ [Esearch (final_query query strict)])%list.
Proof.
  unfold search_pubmed_ids, bind, call, ret.
  now destruct (http_esearch (final_query query strict) (world s)) as [r w].
Qed.

Lemma query_requests (query : string) (s : State) :
  let out := fst (query_pubmed_realtime query s) in
  let new := skipn (List.length (requests s))
                   (requests (snd (query_pubmed_realtime query s))) in
  requests (snd (query_pubmed_realtime query s)) = (requests s ++ new)%list /\
  ((out = Dumps no_results /\
    new = [Esearch (final_query query true); Esearch (final_query query false)]) \/
   (exists ids n articles,
      out = Dumps (VDict [("status", VStr "success"); ("evidence_count", VInt n);
                          ("articles", VList articles)]) /\
      (new = [Esearch (final_query query true); Efetch ids] \/
       new = [Esearch (final_query query true); Esearch (final_query query false);
              Efetch ids]))).
Proof.
  intros out new. subst out new.
  pose proof (query_pubmed_realtime_shape query s) as Hshape.
  pose proof (search_requests query true s) as Hr1.
  destruct (search_pubmed_ids query true s) as [strict s1]. simpl in Hr1.
  assert (Hskip : forall l : list request,
             skipn (List.length (requests s)) (requests s ++ l) = l).
  { intros l. rewrite skipn_app, skipn_all, Nat.sub_diag. reflexivity. }
  destruct strict as [|id ids].
  - pose proof (search_requests query false s1) as Hr2.
    destruct (search_pubmed_ids query false s1) as [pmids s2]. simpl in Hr2.
    rewrite Hr1, <- app_assoc in Hr2. simpl in Hr2.
    destruct Hshape as [[-> ->] | [Hne ->]].
    + simpl. rewrite Hr2, Hskip. split; [reflexivity|]. left. now split.
    + destruct pmids as [|id ids]; [congruence|].
      pose proof (fetch_requests (id :: ids) s2) as [Hr3 _].
      cbn [fst snd]. rewrite Hr3, Hr2, <- app_assoc, Hskip.
      split; [reflexivity|]. right. do 3 eexists. split; [reflexivity|]. now right.
  - destruct Hshape as [[Heq _] | [_ ->]]; [discriminate|].
    pose proof (fetch_requests (id :: ids) s1) as [Hr3 _].
    cbn [fst snd]. rewrite Hr3, Hr1, <- app_assoc, Hskip.
    split; [reflexivity|]. right. do 3 eexists. split; [reflexivity|]. now left.
Qed.

(** X10. One retrieval makes two or three requests, in this order. The
    strict search comes first. If it returns identifiers, they are fetched
    and nothing else is asked. If it returns none, the relaxed search
    follows, in the state the strict one left; the identifiers it returns
    are fetched, and if it returns none either the result is the error and
    nothing is fetched. A successful result holds the articles of the fetch
    and their number. *)
Theorem retrieval_requests (query : string) (s : State) :
  let strict := search_pubmed_ids query true s in
  let relaxed := search_pubmed_ids query false (snd strict) in
  let out := query_pubmed_realtime query s in
  match fst strict, fst relaxed with
  | [], [] =>
      out = (Dumps no_results, snd relaxed) /\
      requests (snd out)
      = (requests s ++ [Esearch (final_query query true);
                        Esearch (final_query query false)])%list
  | [], pmids =>
      out = (success_of (fst (fetch_article_details pmids (snd relaxed))),
             snd (fetch_article_details pmids (snd relaxed))) /\
      requests (snd out)
      = (requests s ++ [Esearch (final_query query true);
                        Esearch (final_query query false);
                        Efetch (Py.join "," pmids)])%list
  | pmids, _ =>
      out = (success_of (fst (fetch_article_details pmids (snd strict))),
             snd (fetch_article_details pmids (snd strict))) /\
      requests (snd out)
      = (requests s ++ [Esearch (final_query query true);
                        Efetch (Py.join "," pmids)])%list
  end.
Proof.
  intros strict relaxed out. subst strict relaxed out.
  pose proof (query_pubmed_realtime_shape query s) as Hshape.
  pose proof (search_requests query true s) as Hr1.
  destruct (search_pubmed_ids query true s) as [strict s1]. cbn [fst snd] in *.
  destruct strict as [|id ids].
  - pose proof (search_requests query false s1) as Hr2.
    destruct (search_pubmed_ids query false s1) as [pmids s2]. cbn [fst snd] in *.
    rewrite Hr1, <- app_assoc in Hr2. cbn [app] in Hr2.
    destruct pmids as [|id ids].
    + destruct Hshape as [[_ ->] | [Hne _]]; [|congruence].
      split; [reflexivity | exact Hr2].
    + destruct Hshape as [[Heq _] | [_ ->]]; [discriminate|].
      split; [reflexivity|].
      pose proof (fetch_requests (id :: ids) s2) as [Hr3 _].
      cbn [snd]. rewrite Hr3, Hr2, <- app_assoc. reflexivity.
  - destruct Hshape as [[Heq _] | [_ ->]]; [discriminate|].
    split; [reflexivity|].
    pose proof (fetch_requests (id :: ids) s1) as [Hr3 _].
    cbn [snd]. rewrite Hr3, Hr1, <- app_assoc. reflexivity.
Qed.

End RetrievalFacts.

(** ** The research and safety agents *)
Section AgentFacts.
Import Tools AgentSystem Observe.

Context {R : Runtime}.

(** The loop ends with the output of one of its retrievals. *)
Lemma research_loop_result : forall (terms : list string) (e : option json_text) (s : State),
  terms <> [] ->
  exists v s1,
    In v terms /\
    research_loop terms e s
    = (inr (Some (fst (query_pubmed_realtime v s1))), snd (query_pubmed_realtime v s1)).
Proof.
  induction terms as [|t rest IH]; intros e s Hne; [congruence|].
  cbn [research_loop]. unfold bind.
  pose proof (found_articles_count t s) as Hfound.
  destruct (query_pubmed_realtime t s) as [ev s'] eqn:Hq. simpl in Hfound.
  rewrite Hfound.
  destruct (0 <? article_count ev).
  - exists t, s. rewrite Hq. split; [now left | reflexivity].
  - destruct rest as [|t2 rest].
    + exists t, s. rewrite Hq. split; [now left | reflexivity].
    + destruct (IH (Some ev) s' ltac:(discriminate)) as (v & s1 & Hin & Heq).
      exists v, s1. split; [now right | exact Heq].
Qed.

Lemma research_agent_cases (state : AgentState) (s : State) :
  match search_jan_aushadhi (load_jan_aushadhi_db (world s)) (doctor_query state) None with
  | inl e => research_agent state s = (inl e, s)
  | inr jan =>
      exists v s1,
        In v (search_terms (doctor_query state)
                (match condition_tags (patient_data state) with
                 | Some l => l
                 | None => []
                 end)) /\
        research_agent state s
        = (inr (fst (query_pubmed_realtime v s1), jan),
           snd (query_pubmed_realtime v s1))
  end.
Proof.
  unfold research_agent.
  destruct (search_jan_aushadhi _ _ None) as [e | jan]; [reflexivity|].
  set (terms := search_terms _ _).
  destruct (research_loop_result terms None s ltac:(discriminate))
    as (v & s1 & Hin & Heq).
  exists v, s1. split; [exact Hin|]. rewrite Heq.
  now rewrite query_output_not_empty.
Qed.

(** X11. The research agent raises exactly when the catalogue search does,
    and then before any request is made. Otherwise it returns the matcher's
    result together with the output of one of its own retrievals, for one of
    its four search terms: the built-in "No results found." fallback after the
    loop is never used. *)
Theorem research_agent_outcome (state : AgentState) (s : State) :
  match search_jan_aushadhi (load_jan_aushadhi_db (world s)) (doctor_query state) None with
  | inl e => research_agent state s = (inl e, s)
  | inr jan =>
      exists v s1,
        In v (search_terms (doctor_query state)
                (match condition_tags (patient_data state) with
                 | Some l => l
                 | None => []
                 end)) /\
        research_agent state s
        = (inr (fst (query_pubmed_realtime v s1), jan),
           snd (query_pubmed_realtime v s1))
  end.
Proof. exact (research_agent_cases state s). Qed.

(** X12. When the variants before the last one find nothing, the evidence
    kept is whatever the retrieval for the last variant returns, be it the
    error or a success without articles. *)
Theorem research_falls_back_to_last (state : AgentState) (s s1 : State)
    (jan : dict) (pre : list string) (v : string) :
  search_jan_aushadhi (load_jan_aushadhi_db (world s)) (doctor_query state) None
  = inr jan ->
  search_terms (doctor_query state)
    (match condition_tags (patient_data state) with Some l => l | None => [] end)
  = (pre ++ [v])%list ->
  all_empty pre s = Some s1 ->
  research_agent state s
  = (inr (fst (query_pubmed_realtime v s1), jan), snd (query_pubmed_realtime v s1)).
Proof.
  intros Hjan Hterms Hpre.
  unfold research_agent. rewrite Hjan, Hterms.
  rewrite (research_loop_skip pre s s1 v [] None None Hpre).
  cbn [research_loop]. unfold bind, ret.
  pose proof (found_articles_count v s1) as Hfound.
  pose proof (query_output_not_empty v s1) as Hne.
  destruct (query_pubmed_realtime v s1) as [ev s2]. simpl in *.
  rewrite Hfound. destruct (0 <? article_count ev); now rewrite Hne.
Qed.

Lemma research_loop_requests : forall (terms : list string) (e : option json_text)
    (s : State),
  exists new,
    requests (snd (research_loop terms e s)) = (requests s ++ new)%list /\
    List.length new <= 3 * List.length terms /\
    forallb is_pubmed_request new = true.
Proof.
  induction terms as [|t rest IH]; intros e s.
  - exists []. simpl. rewrite app_nil_r. repeat split. lia.
  - cbn [research_loop]. unfold bind.
    pose proof (query_requests t s) as [Hreq Hnew].
    pose proof (found_articles_count t s) as Hfound.
    destruct (query_pubmed_realtime t s) as [ev s'] eqn:Hq. cbn [fst snd] in *.
    set (new := skipn (List.length (requests s)) (requests s')) in *.
    assert (Hlen : List.length new <= 3 /\ forallb is_pubmed_request new = true).
    { destruct Hnew as [[_ ->] | (ids & n & arts & _ & [-> | ->])];
        split; simpl; try reflexivity; lia. }
    destruct Hlen as [Hlen Hpub].
    rewrite Hfound. destruct (0 <? article_count ev).
    + exists new. cbn [snd ret]. repeat split; [exact Hreq | simpl; lia | exact Hpub].
    + destruct (IH (Some ev) s') as (new' & Hreq' & Hlen' & Hpub').
      exists (new ++ new')%list. rewrite Hreq', Hreq, app_assoc.
      repeat split.
      * rewrite length_app. simpl. lia.
      * rewrite forallb_app. now rewrite Hpub, Hpub'.
Qed.

Lemma research_agent_log (state : AgentState) (s : State) :
  exists new,
    requests (snd (research_agent state s)) = (requests s ++ new)%list /\
    List.length new <= 12 /\
    forallb is_pubmed_request new = true.
Proof.
  unfold research_agent.
  destruct (search_jan_aushadhi _ _ None) as [e | jan].
  - exists []. simpl. rewrite app_nil_r. repeat split. lia.
  - set (terms := search_terms _ _).
    destruct (research_loop_requests terms None s) as (new & Hreq & Hlen & Hpub).
    destruct (research_loop terms None s) as [r s']. cbn [snd] in *.
    exists new. repeat split; [exact Hreq | exact Hlen | exact Hpub].
Qed.

(** X13. The research agent makes at most twelve requests, all of them to
    the literature index (none to the language model), and only appends to
    the log of requests. *)
Theorem research_agent_requests (state : AgentState) (s : State) :
  exists new,
    requests (snd (research_agent state s)) = (requests s ++ new)%list /\
    List.length new <= 12 /\
    forallb is_pubmed_request new = true.
Proof. exact (research_agent_log state s). Qed.

Lemma safety_agent_sources (state : AgentState) (s : State) :
  exists d,
    fst (safety_agent state s) = VDict d /\
    dict_get d "sources" = Some (pubmed_articles (research_evidence state)).
Proof.
  unfold safety_agent, bind, call, ret.
  destruct USE_LLM.
  - destruct (llm_invoke (make_prompt state) (world s)) as [response w]. cbn [fst].
    destruct (decide state _ response) as [e | final] eqn:Hdec.
    + eexists. split; reflexivity.
    + unfold decide in Hdec.
      destruct response as [e0 | content]; [discriminate|].
      destruct (json_loads (clean_json_text content)) as [e1 | draft]; [discriminate|].
      match type of Hdec with
      | (match ?x with inl _ => _ | inr _ => _ end) = _ =>
          destruct x as [e2 | v]; [discriminate|]
      end.
      destruct v as [| | | | | |d]; try discriminate.
      injection Hdec as <-. eexists. split; [reflexivity | apply dict_get_set_same].
  - eexists. split; reflexivity.
Qed.

(** X14. Whatever the language model answers and whether it is configured
    or not, the safety agent returns a dictionary whose [sources] are the
    articles extracted from the research evidence. *)
Theorem safety_agent_always_sources (state : AgentState) (s : State) :
  exists d,
    fst (safety_agent state s) = VDict d /\
    dict_get d "sources" = Some (pubmed_articles (research_evidence state)).
Proof. exact (safety_agent_sources state s). Qed.

(** X15. When the matcher found nothing, or when the draft's status is
    [blocked], a draft that is a dictionary is returned as the model wrote it,
    with only [sources] set: its [savings] are not replaced, and its [status]
    is neither required nor checked. *)
Theorem draft_kept_when_blocked_or_not_found (state : AgentState) (s : State)
    (content : string) (w : World) (draft : dict) :
  USE_LLM = true ->
  llm_invoke (make_prompt state) (world s) = (inr content, w) ->
  json_loads (clean_json_text content) = inr (VDict draft) ->
  truthy_opt (dict_get (jan_aushadhi_result state) "found") = false \/
  dict_get draft "status" = Some (VStr "blocked") ->
  fst (safety_agent state s)
  = VDict (dict_set draft "sources" (pubmed_articles (research_evidence state))) /\
  forall k, k <> "sources" ->
            dict_get (dict_set draft "sources" (pubmed_articles (research_evidence state))) k
            = dict_get draft k.
Proof.
  intros Hllm Hinvoke Hparse Hcase.
  split; [|intros k Hk; apply dict_get_set_other; congruence].
  unfold safety_agent, bind, call, ret. rewrite Hllm, Hinvoke. cbn [fst].
  unfold decide. rewrite Hparse.
  destruct Hcase as [Hnot | Hblocked].
  - rewrite Hnot. reflexivity.
  - destruct (truthy_opt _); [|reflexivity].
    unfold py_getitem at 1. rewrite Hblocked. reflexivity.
Qed.

(** X16. With the model configured, each of these ends in the fail-safe
    response with status [caution]: the call to the model raises; its answer
    parses to something that is not a dictionary; its answer is a dictionary
    without [status] while the matcher found a substitute. *)
Theorem failures_give_caution (state : AgentState) (s : State)
    (response : exn + string) (w : World) :
  USE_LLM = true ->
  llm_invoke (make_prompt state) (world s) = (response, w) ->
  (exists e, response = inl e) \/
  (exists content v,
     response = inr content /\
     json_loads (clean_json_text content) = inr v /\
     forall d, v <> VDict d) \/
  (exists content draft,
     response = inr content /\
     json_loads (clean_json_text content) = inr (VDict draft) /\
     dict_get draft "status" = None /\
     truthy_opt (dict_get (jan_aushadhi_result state) "found") = true) ->
  exists e,
    fst (safety_agent state s)
    = fail_safe_response e (pubmed_articles (research_evidence state)) /\
    py_get (fst (safety_agent state s)) "status" = inr (Some (VStr "caution")).
Proof.
  intros Hllm Hinvoke Hcase.
  assert (Hdec : exists e,
             decide state (pubmed_articles (research_evidence state)) response = inl e).
  { unfold decide.
    destruct Hcase as [[e ->] | [(content & v & -> & Hparse & Hnot) |
                                 (content & draft & -> & Hparse & Hstatus & Hfound)]].
    - now exists e.
    - rewrite Hparse.
      destruct (truthy_opt _).
      + destruct v as [| | | | | |d]; try (eexists; reflexivity).
        exfalso. now apply (Hnot d).
      + destruct v as [| | | | | |d]; try (eexists; reflexivity).
        exfalso. now apply (Hnot d).
    - rewrite Hparse, Hfound. unfold py_getitem at 1. rewrite Hstatus.
      eexists. reflexivity. }
  destruct Hdec as [e Hdec]. exists e.
  assert (Hres : fst (safety_agent state s)
                 = fail_safe_response e (pubmed_articles (research_evidence state))).
  { apply safety_agent_except; [exact Hllm|]. now rewrite Hinvoke. }
  rewrite Hres. split; reflexivity.
Qed.

(** The safety agent asks the model once when it is configured and makes
    no other request. *)
Lemma safety_agent_requests (state : AgentState) (s : State) :
  requests (snd (safety_agent state s))
  = (requests s ++ if USE_LLM then [Invoke (make_prompt state)] else [])%list.
Proof.
  unfold safety_agent, bind, call, ret. destruct USE_LLM.
  - now destruct (llm_invoke (make_prompt state) (world s)) as [response w].
  - simpl. now rewrite app_nil_r.
Qed.

End AgentFacts.

(** ** The workflow *)
Section WorkflowFacts.
Import Tools AgentSystem Workflow Observe.

Context {R : Runtime} {P : PatientStore}.

Lemma personalization_agent_state (state : AgentState) (s : State) :
  snd (personalization_agent state s) = s.
Proof. reflexivity. Qed.

Lemma pubmed_articles_of_query (query : string) (s : State) :
  exists articles,
    pubmed_articles (fst (query_pubmed_realtime query s)) = VList articles.
Proof.
  destruct (query_requests query s) as [_ [[-> _] | (ids & n & articles & -> & _)]].
  - now exists [].
  - now exists articles.
Qed.

Lemma run_agent_workflow_cases (patient_id doctor_query : string) (s : State) :
  match search_jan_aushadhi (load_jan_aushadhi_db (world s)) doctor_query None with
  | inl e => run_agent_workflow patient_id doctor_query s = (inl e, s)
  | inr jan =>
      exists d new p,
        fst (run_agent_workflow patient_id doctor_query s) = inr (VDict d) /\
        requests (snd (run_agent_workflow patient_id doctor_query s))
        = (requests s ++ new ++ if USE_LLM then [Invoke p] else [])%list /\
        List.length new <= 12 /\
        forallb is_pubmed_request new = true /\
        prompt_order p = doctor_query /\
        prompt_savings p = jan
  end.
Proof.
  unfold run_agent_workflow, bind.
  destruct (personalization_agent (initial_state patient_id doctor_query) s)
    as [patient s0] eqn:Hp.
  assert (Hs0 : s0 = s).
  { rewrite <- (personalization_agent_state (initial_state patient_id doctor_query) s).
    now rewrite Hp. }
  subst s0.
  set (state1 := with_patient (initial_state patient_id doctor_query) patient).
  pose proof (research_agent_cases state1 s) as Hout.
  pose proof (research_agent_log state1 s) as (new & Hreq & Hlen & Hpub).
  change (AgentSystem.doctor_query state1) with doctor_query in Hout.
  destruct (search_jan_aushadhi (load_jan_aushadhi_db (world s)) doctor_query None)
    as [e | jan].
  - now rewrite Hout.
  - destruct Hout as (v & s1 & _ & Heq). rewrite Heq in *. cbn [snd] in Hreq.
    set (ev := fst (query_pubmed_realtime v s1)) in *.
    set (s2 := snd (query_pubmed_realtime v s1)) in *.
    set (state2 := with_research state1 ev jan).
    destruct (safety_agent_sources state2 s2) as (d & Hd & Hsrc).
    destruct (pubmed_articles_of_query v s1) as [articles Harts].
    change (research_evidence state2) with ev in Hsrc. unfold ev in Hsrc.
    rewrite Harts in Hsrc.
    pose proof (safety_agent_requests state2 s2) as Hreq2.
    destruct (safety_agent state2 s2) as [final s3]. cbn [fst snd] in *. subst final.
    exists d, new, (make_prompt state2). unfold ret. cbn [fst snd py_get].
    rewrite Hsrc. cbn [py_len].
    rewrite Hreq2, Hreq, <- app_assoc. repeat split; assumption.
Qed.

(** X17. The workflow raises exactly when the catalogue search for the
    doctor's order raises, and then before any request. Otherwise it returns a
    dictionary; every request to the literature index (at most twelve) comes
    before the single request to the language model, which is made only when
    the model is configured and whose prompt carries the doctor's order and the
    matcher's result. *)
Theorem workflow_outcome (patient_id doctor_query : string) (s : State) :
  match search_jan_aushadhi (load_jan_aushadhi_db (world s)) doctor_query None with
  | inl e => run_agent_workflow patient_id doctor_query s = (inl e, s)
  | inr jan =>
      exists d new p,
        fst (run_agent_workflow patient_id doctor_query s) = inr (VDict d) /\
        requests (snd (run_agent_workflow patient_id doctor_query s))
        = (requests s ++ new ++ if USE_LLM then [Invoke p] else [])%list /\
        List.length new <= 12 /\
        forallb is_pubmed_request new = true /\
        prompt_order p = doctor_query /\
        prompt_savings p = jan
  end.
Proof. exact (run_agent_workflow_cases patient_id doctor_query s). Qed.

Lemma research_loop_first_request (t : string) (rest : list string)
    (e : option json_text) (s : State) :
  exists more,
    requests (snd (research_loop (t :: rest) e s))
    = (requests s ++ Esearch (final_query t true) :: more)%list.
Proof.
  cbn [research_loop]. unfold bind.
  pose proof (query_requests t s) as [Hreq Hnew].
  pose proof (found_articles_count t s) as Hfound.
  destruct (query_pubmed_realtime t s) as [ev s'] eqn:Hq. cbn [fst snd] in *.
  set (new := skipn (List.length (requests s)) (requests s')) in *.
  assert (Hhead : exists tl, new = Esearch (final_query t true) :: tl).
  { destruct Hnew as [[_ ->] | (ids & n & arts & _ & [-> | ->])]; eexists; reflexivity. }
  destruct Hhead as [tl Htl]. rewrite Htl in Hreq.
  rewrite Hfound. destruct (0 <? article_count ev).
  - exists tl. exact Hreq.
  - destruct (research_loop_requests rest (Some ev) s') as (new' & Hreq' & _).
    exists (tl ++ new')%list. rewrite Hreq', Hreq, <- app_assoc. reflexivity.
Qed.

(** X18. An unknown patient identifier, an empty profile or an unreadable
    patient store does not stop the workflow: when the catalogue search does
    not raise, a dictionary is returned, and the first request is the strict
    search built without any condition of the patient. *)
Theorem workflow_without_patient (patient_id doctor_query : string) (s : State)
    (jan : dict) :
  search_jan_aushadhi (load_jan_aushadhi_db (world s)) doctor_query None = inr jan ->
  match load_patients (world s) with
  | inl _ => True
  | inr all_patients =>
      match lookup_patient all_patients patient_id with
      | Some patient => is_empty_patient patient = true
      | None => True
      end
  end ->
  exists d more,
    fst (run_agent_workflow patient_id doctor_query s) = inr (VDict d) /\
    requests (snd (run_agent_workflow patient_id doctor_query s))
    = (requests s
       ++ Esearch (final_query (doctor_query ++ "  contraindications adverse effects") true)
       :: more)%list.
Proof.
  intros Hjan Hstore.
  pose proof (run_agent_workflow_cases patient_id doctor_query s) as Hout.
  rewrite Hjan in Hout. destruct Hout as (d & _ & _ & Hd & _).
  exists d. 
  unfold run_agent_workflow, bind in *.
  assert (Htags : condition_tags (fst (personalization_agent
                                         (initial_state patient_id doctor_query) s))
                  = None).
  { unfold personalization_agent. cbn [fst].
    change (AgentSystem.patient_id (initial_state patient_id doctor_query))
      with patient_id.
    destruct (load_patients (world s)) as [e | all_patients]; [reflexivity|].
    destruct (lookup_patient all_patients patient_id) as [patient|]; [|reflexivity].
    now rewrite Hstore. }
  destruct (personalization_agent (initial_state patient_id doctor_query) s)
    as [patient s0] eqn:Hp.
  assert (Hs0 : s0 = s).
  { rewrite <- (personalization_agent_state (initial_state patient_id doctor_query) s).
    now rewrite Hp. }
  subst s0. cbn [fst] in Htags.
  set (state1 := with_patient (initial_state patient_id doctor_query) patient) in *.
  assert (Hfirst : exists more1,
             requests (snd (research_agent state1 s))
             = (requests s
                ++ Esearch (final_query
                              (doctor_query ++ "  contraindications adverse effects") true)
                :: more1)%list).
  { unfold research_agent.
    change (AgentSystem.doctor_query state1) with doctor_query.
    change (patient_data state1) with patient. rewrite Hjan, Htags.
    destruct (research_loop_first_request
                (doctor_query ++ "  contraindications adverse effects")
                (tl (search_terms doctor_query [])) None s) as [more1 Hreq].
    change (_ :: tl (search_terms doctor_query []))
      with (search_terms doctor_query []) in Hreq.
    destruct (research_loop (search_terms doctor_query []) None s) as [r s'].
    cbn [snd] in *. exists more1. exact Hreq. }
  destruct Hfirst as [more1 Hfirst].
  destruct (research_agent state1 s) as [[e | [ev jan']] s1]; [discriminate|].
  cbn [snd] in Hfirst.
  pose proof (safety_agent_requests (with_research state1 ev jan') s1) as Hreq2.
  destruct (safety_agent (with_research state1 ev jan') s1) as [final s3].
  cbn [fst snd] in *. unfold ret in *. cbn [fst snd] in *.
  eexists. split; [exact Hd|].
  rewrite Hreq2, Hfirst, <- app_assoc. reflexivity.
Qed.

End WorkflowFacts.

(** ** The callers in [app.py] *)
Section AppFacts.
Import Tools AgentSystem Workflow App Observe.

Lemma split_space_not_nil s : split_space s <> [].
Proof.
  destruct s as [|c s]; simpl; [discriminate|].
  destruct (Ascii.eqb c " "); [discriminate|].
  destruct (split_space s); discriminate.
Qed.

Lemma concat_empty_cons x l : String.concat "" (x :: l) = x ++ String.concat "" l.
Proof. destruct l; simpl; [now rewrite append_empty_r | reflexivity]. Qed.

Lemma chunks_cons word next rest :
  chunks (word :: next :: rest) = (word ++ " ") :: chunks (next :: rest).
Proof. reflexivity. Qed.

Lemma append_assoc (x y z : string) : (x ++ y) ++ z = x ++ (y ++ z).
Proof. induction x as [|c x IH]; simpl; [reflexivity | now rewrite IH]. Qed.

Lemma concat_chunks (message : string) :
  String.concat "" (chunks (split_space message)) = message.
Proof.
  induction message as [|c s IH]; [reflexivity|].
  simpl split_space.
  destruct (Ascii.eqb_spec c " ") as [-> | Hc].
  - pose proof (split_space_not_nil s) as Hne.
    destruct (split_space s) as [|w l]; [congruence|].
    rewrite chunks_cons, concat_empty_cons, IH. reflexivity.
  - pose proof (split_space_not_nil s) as Hne.
    destruct (split_space s) as [|w l]; [congruence|].
    destruct l as [|w2 l].
    + simpl in *. now rewrite IH.
    + rewrite chunks_cons, concat_empty_cons in *.
      change ((String c w ++ " ") ++ String.concat "" (chunks (w2 :: l)))
        with (String c ((w ++ " ") ++ String.concat "" (chunks (w2 :: l)))).
      now rewrite IH.
Qed.

(** X19. Streaming loses nothing: the chunks made from a message,
    concatenated in order, are the message again, whatever blanks it holds. *)
Theorem chunks_reassemble (message : string) :
  String.concat "" (chunks (split_space message)) = message.
Proof. exact (concat_chunks message). Qed.

Context {R : Runtime} {P : PatientStore}.

(** X20. Every stream ends with exactly one event marked done, and it is
    the last one: all events before it are chunks with [done] false. The
    stream is never empty and no exception leaves the generator. *)
Theorem stream_ends_with_done (message : string) (patient_id : option string)
    (s : State) :
  exists body last,
    fst (generate_stream message patient_id s) = (body ++ [last])%list /\
    py_get last "done" = inr (Some (VBool true)) /\
    Forall (fun event => exists chunk, event = chunk_event chunk) body.
Proof.
  assert (Hwords : forall l, Forall (fun event => exists chunk, event = chunk_event chunk)
                                    (map chunk_event l)).
  { induction l; constructor; [now eexists | assumption]. }
  unfold generate_stream.
  destruct (match patient_id with Some id => negb (id =? "")%string | None => false end).
  - unfold bind, ret.
    destruct (run_agent_workflow _ message s) as [r s']. cbn [fst].
    destruct r as [e | agent_response].
    + exists [], (error_event e). repeat split. constructor.
    + destruct (py_get agent_response "message") as [e | full_message].
      * exists [], (error_event e). repeat split. constructor.
      * destruct (py_split_space _) as [e | words].
        -- exists [], (error_event e). repeat split. constructor.
        -- eexists. eexists. split; [reflexivity|]. split; [reflexivity | apply Hwords].
  - destruct (wants_research message).
    + unfold bind, ret.
      destruct (query_pubmed_realtime message s) as [pubmed_results s']. cbn [fst].
      eexists. eexists. split; [reflexivity|].
      split; [|apply Hwords].
      destruct (loads pubmed_results); reflexivity.
    + eexists. eexists. split; [reflexivity|]. split; [reflexivity | apply Hwords].
Qed.

(** X21. With a patient identifier, when the workflow returns a response
    whose [message] is a string, the stream is that message cut into chunks,
    which put together give the message back, followed by the done event that
    carries the whole response. *)
Theorem stream_carries_response (message id : string) (s : State)
    (agent_response : value) (full_message : string) :
  id <> "" ->
  fst (run_agent_workflow id message s) = inr agent_response ->
  py_get agent_response "message" = inr (Some (VStr full_message)) ->
  fst (generate_stream message (Some id) s)
  = (map chunk_event (chunks (split_space full_message))
     ++ [done_event (Some agent_response)])%list /\
  String.concat "" (chunks (split_space full_message)) = full_message.
Proof.
  intros Hid Hrun Hmsg. split; [|apply concat_chunks].
  unfold generate_stream. apply String.eqb_neq in Hid. rewrite Hid. cbn [negb].
  unfold bind, ret.
  destruct (run_agent_workflow id message s) as [r s']. cbn [fst] in *.
  rewrite Hrun, Hmsg. reflexivity.
Qed.

(** X22. With a patient identifier, when the workflow raises, or when the
    [message] of its response is not a string, the stream is the single error
    event, marked done; nothing reaches the caller as an exception. *)
Theorem stream_reports_failure (message id : string) (s : State) :
  id <> "" ->
  (exists e, fst (run_agent_workflow id message s) = inl e) \/
  (exists agent_response v,
     fst (run_agent_workflow id message s) = inr agent_response /\
     py_get agent_response "message" = inr (Some v) /\
     forall m, v <> VStr m) ->
  exists e,
    fst (generate_stream message (Some id) s) = [error_event e].
Proof.
  intros Hid Hcase.
  unfold generate_stream. apply String.eqb_neq in Hid. rewrite Hid. cbn [negb].
  unfold bind, ret.
  destruct (run_agent_workflow id message s) as [r s']. cbn [fst] in *.
  destruct Hcase as [[e ->] | (agent_response & v & -> & Hmsg & Hnot)].
  - now exists e.
  - rewrite Hmsg. destruct v; try (eexists; reflexivity).
    exfalso. now apply (Hnot s0).
Qed.

(** X23. Without a patient identifier the workflow is not run and the
    language model is never asked: a message that names none of the five
    keywords makes no request at all, and any other makes one retrieval, of two
    or three requests to the literature index. *)
Theorem stream_without_patient (message : string) (patient_id : option string)
    (s : State) :
  patient_id = None \/ patient_id = Some "" ->
  exists new,
    requests (snd (generate_stream message patient_id s)) = (requests s ++ new)%list /\
    forallb is_pubmed_request new = true /\
    if wants_research message
    then 2 <= List.length new <= 3
    else new = [] /\ snd (generate_stream message patient_id s) = s.
Proof.
  intros Hpid. unfold generate_stream.
  assert (Hgiven : match patient_id with
                   | Some id => negb (id =? "")%string
                   | None => false
                   end = false) by (destruct Hpid as [-> | ->]; reflexivity).
  rewrite Hgiven. destruct (wants_research message).
  - unfold bind, ret.
    pose proof (query_requests message s) as [Hreq Hnew].
    destruct (query_pubmed_realtime message s) as [out s']. cbn [fst snd] in *.
    eexists. split; [exact Hreq|].
    destruct Hnew as [[_ ->] | (ids & n & arts & _ & [-> | ->])];
      split; try reflexivity; simpl; lia.
  - exists []. cbn [snd ret]. rewrite app_nil_r. repeat split.
Qed.

End AppFacts.

(** ** The catalogue endpoint and the account lookups *)
Section EndpointFacts.
Import Tools AgentSystem App Auth Observe.

(** Merging sets the keys of the second dictionary over the first. *)
Lemma merge_get (extra : dict) : forall (base : dict) (k : string),
  NoDup (map fst extra) ->
  dict_get (merge base extra) k
  = match dict_get extra k with
    | Some v => Some v
    | None => dict_get base k
    end.
Proof.
  unfold merge. induction extra as [|[k0 v0] extra IH]; intros base k Hnd; [reflexivity|].
  inversion Hnd as [|? ? Hnotin Hnd']; subst.
  simpl fold_left. rewrite IH by exact Hnd'. simpl dict_get.
  destruct (String.eqb_spec k0 k) as [<- | Hne].
  - assert (Hnone : dict_get extra k0 = None).
    { clear -Hnotin. induction extra as [|[k1 v1] extra IH]; [reflexivity|].
      simpl in *. destruct (String.eqb_spec k1 k0) as [-> | _].
      - exfalso. apply Hnotin. now left.
      - apply IH. intros Hin. apply Hnotin. now right. }
    rewrite Hnone. apply dict_get_set_same.
  - destruct (dict_get extra k); [reflexivity|]. now apply dict_get_set_other.
Qed.

Context {R : Runtime}.

Lemma search_result_keys (file_db : exn + list CatalogEntry) (query : string)
    (db : option (list CatalogEntry)) (d : dict) :
  search_jan_aushadhi file_db query db = inr d ->
  map fst d = ["found"; "message"] \/ map fst d = ["found"; "drug_data"; "message"].
Proof.
  unfold search_jan_aushadhi.
  destruct (database file_db db) as [e0 | [|e db']]; [discriminate | |].
  { intros [= <-]. now left. }
  destruct (scan_catalog query (e :: db')) as [[bm hs] src].
  destruct (Qle_bool THRESHOLD hs); [|intros [= <-]; now left].
  destruct bm as [bm|]; [|discriminate].
  destruct (priced bm) as [e1 | [[jan market] savings]]; [discriminate|].
  destruct (flt0 savings); [intros [= <-]; now left|].
  destruct (generic_name bm); [|discriminate].
  intros [= <-]. now right.
Qed.

(** X24. The search endpoint answers with status [success] and the drug
    name asked for, also when nothing was found, and hands every key of the
    matcher's result through unchanged. It searches the catalogue file, as the
    research agent does, and fails exactly when the matcher raises. *)
Theorem endpoint_wraps_search (drug_name : string) (s : State) :
  match search_jan_aushadhi (load_jan_aushadhi_db (world s)) drug_name None with
  | inl e => search_jan_aushadhi_drug drug_name s = inl e
  | inr result =>
      exists response,
        search_jan_aushadhi_drug drug_name s = inr response /\
        dict_get response "status" = Some (VStr "success") /\
        dict_get response "query" = Some (VStr drug_name) /\
        forall k, k <> "status" -> k <> "query" ->
                  dict_get response k = dict_get result k
  end.
Proof.
  unfold search_jan_aushadhi_drug.
  assert (Hsame : forall jan_db,
             load_jan_aushadhi_db (world s) = inr jan_db ->
             search_jan_aushadhi (load_jan_aushadhi_db (world s)) drug_name (Some jan_db)
             = search_jan_aushadhi (load_jan_aushadhi_db (world s)) drug_name None).
  { intros jan_db Hload. unfold search_jan_aushadhi, database. now rewrite Hload. }
  destruct (load_jan_aushadhi_db (world s)) as [e0 | jan_db] eqn:Hload.
  { reflexivity. }
  cbn beta iota. rewrite (Hsame jan_db eq_refl).
  destruct (search_jan_aushadhi (inr jan_db) drug_name None)
    as [e | result] eqn:Hsearch; [reflexivity|].
  eexists. split; [reflexivity|].
  assert (Hnd : NoDup (map fst result) /\
                dict_get result "status" = None /\ dict_get result "query" = None).
  { destruct (search_result_keys _ _ _ _ Hsearch) as [Hk | Hk].
    - destruct result as [|[k1 v1] [|[k2 v2] [|]]]; try discriminate.
      simpl in Hk. injection Hk as -> ->.
      repeat split. repeat constructor; simpl; intuition discriminate.
    - destruct result as [|[k1 v1] [|[k2 v2] [|[k3 v3] [|]]]]; try discriminate.
      simpl in Hk. injection Hk as -> -> ->.
      repeat split. repeat constructor; simpl; intuition discriminate. }
  destruct Hnd as (Hnd & Hst & Hq).
  rewrite !merge_get by exact Hnd. rewrite Hst, Hq.
  repeat split.
  intros k Hk1 Hk2. rewrite merge_get by exact Hnd.
  destruct (dict_get result k); [reflexivity|].
  assert (H1 : String.eqb "status" k = false) by (apply String.eqb_neq; congruence).
  assert (H2 : String.eqb "query" k = false) by (apply String.eqb_neq; congruence).
  cbn [dict_get]. now rewrite H1, H2.
Qed.

Context {A : Accounts}.

Lemma find_user_upper (doctors : list (string * dict)) (email : string) :
  find_user doctors (Py.upper email) = find_user doctors email.
Proof.
  induction doctors as [|[id data] rest IH]; [reflexivity|].
  simpl. now rewrite lower_upper, IH.
Qed.

(** A record answers to [email]: its e-mail address or its user name is
    [email], up to case. *)
Lemma find_user_found : forall (doctors : list (string * dict)) (email : string) (user : dict),
  find_user doctors email = inr (Some user) ->
  exists pre doctor_id doctor_data post,
    doctors = (pre ++ (doctor_id, doctor_data) :: post)%list /\
    user = merge [("id", VStr doctor_id)] doctor_data /\
    (lower_field doctor_data "email" = inr (Py.lower email) \/
     lower_field doctor_data "username" = inr (Py.lower email)) /\
    Forall (fun entry =>
              lower_field (snd entry) "email" <> inr (Py.lower email) /\
              lower_field (snd entry) "username" <> inr (Py.lower email)) pre.
Proof.
  induction doctors as [|[id data] rest IH]; intros email user Hfind; [discriminate|].
  simpl in Hfind.
  destruct (lower_field data "email") as [e1 | de] eqn:He; [discriminate|].
  destruct (lower_field data "username") as [e2 | du] eqn:Hu; [discriminate|].
  destruct (String.eqb_spec de (Py.lower email)) as [-> | Hne1].
  - injection Hfind as <-. exists [], id, data, rest.
    repeat split; [now left | constructor].
  - destruct (String.eqb_spec du (Py.lower email)) as [-> | Hne2].
    + injection Hfind as <-. exists [], id, data, rest.
      repeat split; [now right | constructor].
    + destruct (IH email user Hfind) as (pre & id' & data' & post & -> & Hu' & Hm & Hpre).
      exists ((id, data) :: pre), id', data', post.
      repeat split; try assumption.
      constructor; [|exact Hpre]. simpl. rewrite He, Hu. split; congruence.
Qed.

(** X25. On ASCII text (the name asked for, and the e-mail addresses and
    user names of the file), [get_user_by_email] ignores the case of the name
    and returns the first record of the file whose e-mail address or user
    name equals it up to case; no record before it answers to the name. The
    user returned carries the record's own [id] if it has one, and the
    record's key otherwise. *)
Theorem get_user_by_email_first_match (email : string) (s : State) (user : dict) :
  Py.isascii email = true ->
  ascii_accounts (load_doctors_db (world s)) = true ->
  get_user_by_email email s = inr (Some user) ->
  get_user_by_email (Py.upper email) s = inr (Some user) /\
  exists pre doctor_id doctor_data post,
    load_doctors_db (world s) = (pre ++ (doctor_id, doctor_data) :: post)%list /\
    (lower_field doctor_data "email" = inr (Py.lower email) \/
     lower_field doctor_data "username" = inr (Py.lower email)) /\
    Forall (fun entry =>
              lower_field (snd entry) "email" <> inr (Py.lower email) /\
              lower_field (snd entry) "username" <> inr (Py.lower email)) pre /\
    (NoDup (map fst doctor_data) ->
     dict_get user "id"
     = Some (match dict_get doctor_data "id" with
             | Some v => v
             | None => VStr doctor_id
             end)).
Proof.
  unfold get_user_by_email. intros _ _ Hfind. split.
  - now rewrite find_user_upper.
  - destruct (find_user_found _ _ _ Hfind)
      as (pre & id & data & post & Heq & -> & Hm & Hpre).
    exists pre, id, data, post. repeat split; try assumption.
    intros Hnd. rewrite merge_get by exact Hnd.
    now destruct (dict_get data "id").
Qed.

(** X26. [authenticate_user] accepts a login exactly when the user exists
    and either the password is the fixed string ["doctor123"], whatever hash
    is stored, or a hash is stored and the hasher confirms the password. An
    exception of the hasher counts as a refusal. *)
Theorem authenticate_user_accepts (email password : string) (s : State) (user : dict) :
  authenticate_user email password s = inr (Some user) <->
  get_user_by_email email s = inr (Some user) /\
  (password = "doctor123" \/
   (truthy (stored_hash user) = true /\
    pwd_verify password (stored_hash user) = inr true)).
Proof.
  unfold authenticate_user.
  destruct (get_user_by_email email s) as [e | [u|]].
  - split; [discriminate | intros [H _]; discriminate].
  - destruct (String.eqb_spec password "doctor123") as [-> | Hpw].
    + split.
      * intros [= ->]. split; [reflexivity | now left].
      * intros [[= ->] _]. reflexivity.
    + destruct (truthy (stored_hash u)) eqn:Ht.
      * destruct (pwd_verify password (stored_hash u)) as [e | [|]] eqn:Hv.
        -- split; [discriminate|]. intros [[= ->] [Hp | [_ Hv']]]; congruence.
        -- split.
           ++ intros [= ->]. split; [reflexivity | right; now split].
           ++ intros [[= ->] _]. reflexivity.
        -- split; [discriminate|]. intros [[= ->] [Hp | [_ Hv']]]; congruence.
      * split; [discriminate|]. intros [[= ->] [Hp | [Ht' _]]]; congruence.
  - split; [discriminate | intros [H _]; discriminate].
Qed.

End EndpointFacts.

(** ** Sessions: [login] and [get_current_user] *)
Section SessionFacts.
Import AgentSystem App Auth Api Observe.

Lemma user_safe_hidden (user : dict) :
  dict_get (user_safe user) "hashed_password" = None.
Proof.
  unfold user_safe. induction user as [|[k v] user IH]; [reflexivity|].
  cbn [filter fst].
  destruct (String.eqb_spec k "hashed_password") as [-> | Hne]; cbn [negb]; [exact IH|].
  cbn [dict_get].
  destruct (String.eqb_spec k "hashed_password"); [contradiction | exact IH].
Qed.

Lemma user_safe_kept (user : dict) (k : string) :
  k <> "hashed_password" ->
  dict_get (user_safe user) k = dict_get user k.
Proof.
  intros Hk. unfold user_safe. induction user as [|[k0 v] user IH]; [reflexivity|].
  cbn [filter fst].
  destruct (String.eqb_spec k0 "hashed_password") as [-> | Hne]; cbn [negb dict_get].
  - destruct (String.eqb_spec "hashed_password" k); [congruence | exact IH].
  - destruct (String.eqb_spec k0 k); [reflexivity | exact IH].
Qed.

Lemma dict_set_not_empty (d : dict) (k : string) (v : value) :
  dict_set d k v <> [].
Proof.
  destruct d as [|[k0 v0] d]; simpl; [discriminate|].
  destruct (String.eqb k0 k); discriminate.
Qed.

Lemma merge_not_empty (extra : dict) : forall base : dict,
  base <> [] -> merge base extra <> [].
Proof.
  unfold merge. induction extra as [|[k v] extra IH]; intros base Hbase; [exact Hbase|].
  simpl. apply IH, dict_set_not_empty.
Qed.

Lemma find_user_not_empty : forall (doctors : list (string * dict)) (email : string)
    (user : dict),
  find_user doctors email = inr (Some user) -> user <> [].
Proof.
  intros doctors email user Hfind.
  destruct (find_user_found _ _ _ Hfind) as (pre & id & data & post & _ & -> & _).
  apply merge_not_empty. discriminate.
Qed.

(** Whoever is found under one name is found, or hides behind an earlier
    record, under the user name of the record found. *)
Lemma find_user_again : forall (doctors : list (string * dict)) (email u : string)
    (user : dict),
  find_user doctors email = inr (Some user) ->
  (forall id data, In (id, data) doctors ->
                   user = merge [("id", VStr id)] data ->
                   lower_field data "username" = inr (Py.lower u)) ->
  exists current, find_user doctors u = inr (Some current).
Proof.
  induction doctors as [|[id data] rest IH]; intros email u user Hfind Hname; [discriminate|].
  simpl in Hfind. simpl.
  destruct (lower_field data "email") as [e1 | de] eqn:He; [discriminate|].
  destruct (lower_field data "username") as [e2 | du] eqn:Hu; [discriminate|].
  simpl in *.
  destruct (String.eqb de (Py.lower u) || String.eqb du (Py.lower u)) eqn:Hm;
    [eexists; reflexivity|].
  destruct (String.eqb de (Py.lower email) || String.eqb du (Py.lower email)) eqn:Hm'.
  - injection Hfind as <-.
    specialize (Hname id data (or_introl eq_refl) eq_refl).
    rewrite Hu in Hname. injection Hname as ->.
    rewrite String.eqb_refl, orb_true_r in Hm. discriminate.
  - apply (IH email u user Hfind).
    intros id' data' Hin. apply Hname. now right.
Qed.

Context {R : Runtime} {A : @Accounts R} {T : @Tokens R}.

Lemma authenticate_user_found (email password : string) (s : State) (user : dict) :
  authenticate_user email password s = inr (Some user) ->
  get_user_by_email email s = inr (Some user).
Proof.
  unfold authenticate_user.
  destruct (get_user_by_email email s) as [e | [u|]]; try discriminate.
  simpl. destruct (String.eqb password "doctor123"); [congruence|].
  destruct (truthy (stored_hash u)); [|discriminate].
  destruct (pwd_verify password (stored_hash u)) as [e | [|]]; congruence.
Qed.

(** X27. [login] hands out a token only to an authenticated user whose
    record has a [username], which becomes the subject of the token: for a
    record without it the route fails with a [KeyError] instead. The user
    sent back has lost the key [hashed_password] and nothing else: a hash
    stored under [password_hash] is sent along. *)
Theorem login_token_needs_username (email password : string) (s : State) (r : dict) :
  login email password s = Ok r ->
  exists user username token,
    authenticate_user email password s = inr (Some user) /\
    dict_get user "username" = Some username /\
    create_access_token [("sub", username)] (world s) = inr token /\
    dict_get r "access_token" = Some (VStr token) /\
    dict_get r "user" = Some (VDict (user_safe user)) /\
    dict_get (user_safe user) "hashed_password" = None /\
    forall k, k <> "hashed_password" ->
              dict_get (user_safe user) k = dict_get user k.
Proof.
  unfold login.
  destruct (authenticate_user email password s) as [e | [user|]]; try discriminate.
  destruct user as [|kv user]; [discriminate|].
  destruct (dict_get (kv :: user) "username") as [username|] eqn:Hname; [|discriminate].
  destruct (create_access_token [("sub", username)] (world s)) as [e | token] eqn:Htok;
    [discriminate|].
  intros [= <-]. exists (kv :: user), username, token.
  split; [reflexivity|]. split; [exact Hname|]. split; [exact Htok|].
  split; [reflexivity|]. split; [reflexivity|].
  split; [apply user_safe_hidden|].
  intros k Hk. now apply user_safe_kept.
Qed.

(** X28. The password ["doctor123"] opens every account that can be found
    and has a [username]: whatever hash is stored, [login] answers with a
    token for that user name. *)
Theorem bypass_password_opens_account (email : string) (s : State) (user : dict)
    (username : value) (token : string) :
  get_user_by_email email s = inr (Some user) ->
  dict_get user "username" = Some username ->
  create_access_token [("sub", username)] (world s) = inr token ->
  login email "doctor123" s
  = Ok [("access_token", VStr token);
        ("token_type", VStr "bearer");
        ("user", VDict (user_safe user))].
Proof.
  intros Hfind Hname Htok. unfold login, authenticate_user.
  rewrite Hfind. simpl.
  pose proof (find_user_not_empty _ _ _ Hfind) as Hne.
  destruct user as [|kv user]; [contradiction|].
  now rewrite Hname, Htok.
Qed.

(** X29. A token whose subject is the user name of the user who logged in
    always resolves to a user: [get_current_user] answers with the first
    record of the file whose e-mail address or user name equals that user
    name up to case. This is the user who logged in only if no earlier record
    answers to the name. *)
Theorem session_resolves_first_match (email password token u : string) (s : State)
    (user payload : dict) :
  Forall (fun entry => NoDup (map fst (snd entry))) (load_doctors_db (world s)) ->
  authenticate_user email password s = inr (Some user) ->
  dict_get user "username" = Some (VStr u) ->
  decode_access_token token (world s) = Some payload ->
  dict_get payload "sub" = Some (VStr u) ->
  exists current pre doctor_id doctor_data post,
    get_current_user token s = Ok current /\
    load_doctors_db (world s) = (pre ++ (doctor_id, doctor_data) :: post)%list /\
    current = merge [("id", VStr doctor_id)] doctor_data /\
    (lower_field doctor_data "email" = inr (Py.lower u) \/
     lower_field doctor_data "username" = inr (Py.lower u)) /\
    Forall (fun entry =>
              lower_field (snd entry) "email" <> inr (Py.lower u) /\
              lower_field (snd entry) "username" <> inr (Py.lower u)) pre.
Proof.
  intros Hnd Hauth Hname Hdec Hsub.
  apply authenticate_user_found in Hauth. unfold get_user_by_email in Hauth.
  destruct (find_user_again _ email u user Hauth) as [current Hcur].
  { intros id data Hin ->.
    rewrite Forall_forall in Hnd. specialize (Hnd _ Hin). simpl in Hnd.
    rewrite merge_get in Hname by exact Hnd.
    unfold lower_field.
    destruct (dict_get data "username") as [v|]; [|discriminate].
    now injection Hname as ->. }
  destruct (find_user_found _ _ _ Hcur) as (pre & id & data & post & Heq & Hu & Hm & Hpre).
  exists current, pre, id, data, post.
  repeat split; try assumption.
  unfold get_current_user. rewrite Hdec.
  destruct payload as [|kv payload]; [discriminate|].
  rewrite Hsub. unfold get_user_by_sub, get_user_by_email. rewrite Hcur.
  pose proof (find_user_not_empty _ _ _ Hcur) as Hne.
  destruct current; [contradiction | reflexivity].
Qed.

End SessionFacts.

(** ** The further properties on concrete runs *)
Section MoreRuns.
Import Tools AgentSystem Workflow App Auth Observe Sample Cases.

Lemma search_raises_in_three_ways_witness :
  exists catalog entry,
    database (inr []) (Some [astronomic]) = inr catalog /\
    In entry catalog /\
    best_match (scan_catalog "crocin" catalog) = Some entry /\
    (THRESHOLD <= record_score "crocin" entry)%Q /\
    ((OverflowError "int too large to convert to float"
      = OverflowError "int too large to convert to float" /\
      exists n,
        (jan_price entry = Some (Int n) \/ market_avg_price entry = Some (Int n)) /\
        (float_limit <= Z.abs n)%Z) \/
     (OverflowError "int too large to convert to float" = KeyError "generic_name" /\
      generic_name entry = None /\
      exists jan market savings,
        priced entry = inr (jan, market, savings) /\ flt0 savings = false)).
Proof.
  destruct (@search_raises_in_three_ways offline (inr []) "crocin" (Some [astronomic])
              (OverflowError "int too large to convert to float"))
    as [[Hnone _] | Hentry].
  - vm_compute. reflexivity.
  - discriminate.
  - exact Hentry.
Defined.

Lemma name_in_catalogue_reaches_threshold_witness :
  (95 <= highest_score (scan_catalog "torvas" (iron :: mock_db)))%Q /\
  forall d, @search_jan_aushadhi offline (inr []) "torvas" (Some (iron :: mock_db)) = inr d ->
            dict_get d "found" = Some (VBool true) \/
            d = [("found", VBool false);
                 ("message", VStr "Generic found but offers no savings.")].
Proof.
  apply (@name_in_catalogue_reaches_threshold offline (inr []) "torvas"
           (Some (iron :: mock_db)) (iron :: mock_db)
           {| generic_name := Some "Atorvastatin";
              common_brands := Some ["Lipitor"; "Storvas"];
              jan_price := Some (Int 12);
              market_avg_price := Some (Int 140);
              savings_percentage := Some "91%" |}
           "Storvas").
  - reflexivity.
  - right. left. reflexivity.
  - right. right. left. reflexivity.
  - reflexivity.
  - reflexivity.
  - vm_compute. lia.
  - reflexivity.
Defined.

Lemma sub_tags_drops_tag_witness :
  sub_tags false ("NSAIDs are " ++ "<" ++ "i" ++ ">" ++ "nephrotoxic") 
  = "NSAIDs are " ++ sub_tags false "nephrotoxic".
Proof.
  apply (sub_tags_drops_tag "NSAIDs are " "i" "nephrotoxic");
    [reflexivity | discriminate | reflexivity].
Defined.

Lemma research_falls_back_to_last_witness :
  @research_agent nothing_found lipitor_state (start nothing_found tt)
  = (inr (fst (@query_pubmed_realtime nothing_found
                 "Lipitor clinical guidelines" after_three_variants),
          lipitor_result),
     snd (@query_pubmed_realtime nothing_found
            "Lipitor clinical guidelines" after_three_variants)).
Proof.
  apply (@research_falls_back_to_last nothing_found lipitor_state
           (start nothing_found tt) after_three_variants lipitor_result
           [ "Lipitor CKD Hypertension contraindications adverse effects";
             "Lipitor CKD Hypertension safety";
             "Lipitor chronic kidney disease" ]
           "Lipitor clinical guidelines").
  - vm_compute. reflexivity.
  - reflexivity.
  - reflexivity.
Defined.

Lemma draft_kept_when_blocked_or_not_found_witness :
  fst (@safety_agent (with_llm blocked_draft) lipitor_state
         (start (with_llm blocked_draft) tt))
  = VDict [("status", VStr "blocked");
           ("savings", VDict [("found", VBool false)]);
           ("sources", VList [VDict [("pmid", VStr "31234567")]])].
Proof.
  apply (@draft_kept_when_blocked_or_not_found (with_llm blocked_draft) lipitor_state
           (start (with_llm blocked_draft) tt) blocked_draft tt
           [("status", VStr "blocked"); ("savings", VDict [("found", VBool false)])]).
  - reflexivity.
  - reflexivity.
  - vm_compute. reflexivity.
  - right. reflexivity.
Defined.

Lemma failures_give_caution_witness :
  exists e,
    fst (@safety_agent (with_llm "[1, 2]") lipitor_state (start (with_llm "[1, 2]") tt))
    = fail_safe_response e
        (@pubmed_articles (with_llm "[1, 2]") (research_evidence lipitor_state)) /\
    py_get (fst (@safety_agent (with_llm "[1, 2]") lipitor_state
                   (start (with_llm "[1, 2]") tt))) "status"
    = inr (Some (VStr "caution")).
Proof.
  apply (@failures_give_caution (with_llm "[1, 2]") lipitor_state
           (start (with_llm "[1, 2]") tt) (inr "[1, 2]") tt).
  - reflexivity.
  - reflexivity.
  - right. left. eexists "[1, 2]", _.
    split; [reflexivity|]. split; [vm_compute; reflexivity | discriminate].
Defined.

Lemma workflow_without_patient_witness :
  exists d more,
    fst (@run_agent_workflow third_variant_only (store third_variant_only)
           "PAT-404" "Lipitor" (start third_variant_only tt)) = inr (VDict d) /\
    requests (snd (@run_agent_workflow third_variant_only (store third_variant_only)
                     "PAT-404" "Lipitor" (start third_variant_only tt)))
    = (requests (start third_variant_only tt)
       ++ Esearch (final_query "Lipitor  contraindications adverse effects" true)
       :: more)%list.
Proof.
  apply (@workflow_without_patient third_variant_only (store third_variant_only)
           "PAT-404" "Lipitor" (start third_variant_only tt) lipitor_result).
  - vm_compute. reflexivity.
  - exact I.
Defined.

Lemma stream_carries_response_witness :
  exists agent_response,
    fst (@generate_stream offline (store offline) "Lipitor" (Some "PAT-001")
           (start offline tt))
    = (map chunk_event
         ["Query: "; "Lipitor. "; "Please "; "review "; "PubMed "; "evidence "; "and ";
          "patient "; "history "; "manually."]
       ++ [done_event (Some agent_response)])%list.
Proof.
  eexists.
  apply (@stream_carries_response offline (store offline) "Lipitor" "PAT-001"
           (start offline tt) _
           "Query: Lipitor. Please review PubMed evidence and patient history manually.").
  - discriminate.
  - vm_compute. reflexivity.
  - reflexivity.
Defined.

Lemma stream_reports_failure_witness :
  exists e,
    fst (@generate_stream broken_catalogue (store broken_catalogue)
           "crocin advance" (Some "PAT-001") (start broken_catalogue tt))
    = [error_event e].
Proof.
  apply (@stream_reports_failure broken_catalogue (store broken_catalogue)
           "crocin advance" "PAT-001" (start broken_catalogue tt)).
  - discriminate.
  - left. exists (KeyError "generic_name"). reflexivity.
Defined.

Lemma stream_without_patient_witness :
  exists new,
    requests (snd (@generate_stream online (store online)
                     "any evidence on statins" None (start online tt)))
    = (requests (start online tt) ++ new)%list /\
    forallb is_pubmed_request new = true /\
    2 <= List.length new <= 3.
Proof.
  apply (@stream_without_patient online (store online) "any evidence on statins" None
           (start online tt)).
  left. reflexivity.
Defined.

Lemma get_user_by_email_first_match_witness :
  @get_user_by_email offline (accounts offline) (Py.upper "Asha") (start offline tt)
  = inr (Some [("id", VStr "DOC-001"); ("email", VStr "Asha@Clinic.in");
               ("username", VStr "asha"); ("password_hash", VStr "$2b$12$stored")]).
Proof.
  apply (@get_user_by_email_first_match offline (accounts offline) "Asha"
           (start offline tt)); reflexivity.
Defined.

Lemma login_token_needs_username_witness :
  exists user username token,
    @authenticate_user offline (accounts offline) "asha" "correct horse" (start offline tt)
    = inr (Some user) /\
    dict_get user "username" = Some username /\
    Api.create_access_token (Tokens := tokens offline) [("sub", username)]
      (world (start offline tt)) = inr token /\
    dict_get [("access_token", VStr "for:asha"); ("token_type", VStr "bearer");
              ("user", VDict [("id", VStr "DOC-001"); ("email", VStr "Asha@Clinic.in");
                              ("username", VStr "asha");
                              ("password_hash", VStr "$2b$12$stored")])]
      "access_token" = Some (VStr token) /\
    dict_get [("access_token", VStr "for:asha"); ("token_type", VStr "bearer");
              ("user", VDict [("id", VStr "DOC-001"); ("email", VStr "Asha@Clinic.in");
                              ("username", VStr "asha");
                              ("password_hash", VStr "$2b$12$stored")])]
      "user" = Some (VDict (Api.user_safe user)) /\
    dict_get (Api.user_safe user) "hashed_password" = None /\
    forall k, k <> "hashed_password" ->
              dict_get (Api.user_safe user) k = dict_get user k.
Proof.
  apply (@login_token_needs_username offline (accounts offline) (tokens offline)
           "asha" "correct horse" (start offline tt)).
  reflexivity.
Defined.

Lemma bypass_password_opens_account_witness :
  @Api.login offline (accounts offline) (tokens offline) "ravi@clinic.in" "doctor123"
    (start offline tt)
  = Api.Ok [("access_token", VStr "for:Asha");
            ("token_type", VStr "bearer");
            ("user", VDict (Api.user_safe
                              [("id", VStr "legacy-7"); ("email", VStr "ravi@clinic.in");
                               ("username", VStr "Asha")]))].
Proof.
  apply (@bypass_password_opens_account offline (accounts offline) (tokens offline)
           "ravi@clinic.in" (start offline tt)
           [("id", VStr "legacy-7"); ("email", VStr "ravi@clinic.in");
            ("username", VStr "Asha")]
           (VStr "Asha") "for:Asha").
  - reflexivity.
  - reflexivity.
  - reflexivity.
Defined.

Lemma session_resolves_first_match_witness :
  exists current pre doctor_id doctor_data post,
    @Api.get_current_user offline (accounts offline) (tokens offline) "for:Asha"
      (start offline tt) = Api.Ok current /\
    doctors = (pre ++ (doctor_id, doctor_data) :: post)%list /\
    current = merge [("id", VStr doctor_id)] doctor_data /\
    (lower_field doctor_data "email" = inr (Py.lower "Asha") \/
     lower_field doctor_data "username" = inr (Py.lower "Asha")) /\
    Forall (fun entry =>
              lower_field (snd entry) "email" <> inr (Py.lower "Asha") /\
              lower_field (snd entry) "username" <> inr (Py.lower "Asha")) pre.
Proof.
  apply (@session_resolves_first_match offline (accounts offline) (tokens offline)
           "ravi@clinic.in" "doctor123" "for:Asha" "Asha" (start offline tt)
           [("id", VStr "legacy-7"); ("email", VStr "ravi@clinic.in");
            ("username", VStr "Asha")]
           [("sub", VStr "Asha"); ("exp", VInt 1790000000)]).
  - change (Forall (fun entry : string * dict => NoDup (map fst (snd entry))) doctors).
    repeat constructor; simpl; intuition discriminate.
  - reflexivity.
  - reflexivity.
  - reflexivity.
  - reflexivity.
Defined.

(** *** More scenarios *)

(** A catalogue file that cannot be read stops the search, the research
    agent (before any request) and the endpoint; a catalogue passed in is
    searched all the same. *)
Example unreadable_catalogue_ex :
  @search_jan_aushadhi unreadable_catalogue
    (load_jan_aushadhi_db (world (start unreadable_catalogue tt))) "Lipitor" None
  = inl (ExternalError "'utf-8' codec can't decode byte 0xff in position 0") /\
  @research_agent unreadable_catalogue lipitor_state (start unreadable_catalogue tt)
  = (inl (ExternalError "'utf-8' codec can't decode byte 0xff in position 0"),
     start unreadable_catalogue tt) /\
  @search_jan_aushadhi_drug unreadable_catalogue "Lipitor" (start unreadable_catalogue tt)
  = inl (ExternalError "'utf-8' codec can't decode byte 0xff in position 0") /\
  @search_jan_aushadhi unreadable_catalogue
    (load_jan_aushadhi_db (world (start unreadable_catalogue tt))) "Lipitor" (Some mock_db)
  = inr lipitor_result.
Proof. repeat split. Qed.

(** Prices that are no finite numbers: the text of a match with NaN
    savings, and an infinite market price. *)
Example nan_savings_ex :
  option_map (fun d => dict_get d "message")
    (match @search_jan_aushadhi offline (inr []) "Paracetamol" (Some [unpriced]) with
     | inr d => Some d
     | inl _ => None
     end)
  = Some (Some (VStr "Switch Available: Jan Aushadhi Paracetamol costs ₹8.0 (vs ₹nan). Save ₹nan.")).
Proof. vm_compute. reflexivity. Qed.

Example number_formats_ex :
  repr (1015 # 1000) = "1.015" /\ fixed 2 (1015 # 1000) = "1.01" /\
  repr (1225 # 100) = "12.25" /\ repr (inject_Z (10 ^ 16)) = "1e+16" /\
  repr (1 # 100000) = "1e-05" /\ fixed 2 (- (1 # 1000)) = "-0.00".
Proof. vm_compute. repeat split. Qed.

(** The second doctor logs in and is then taken for the first one, whose
    user name differs only by case. *)
Example session_mixup_ex :
  @Api.get_current_user offline (accounts offline) (tokens offline) "for:Asha"
    (start offline tt)
  = Api.Ok [("id", VStr "DOC-001"); ("email", VStr "Asha@Clinic.in");
            ("username", VStr "asha"); ("password_hash", VStr "$2b$12$stored")].
Proof. reflexivity. Qed.

(** A token without subject: no user, or no answer at all. *)
Example token_without_subject_ex :
  @Api.get_user_by_sub offline (accounts offline) None (start offline tt)
  = inl (AttributeError "'NoneType' object has no attribute 'lower'").
Proof. reflexivity. Qed.


(** The second record of the sample file has an [id] of its own, which
    replaces the key of the record; the password ["doctor123"] opens the
    first account although its stored hash does not match. *)
Example own_id_ex :
  option_map (fun user => dict_get user "id")
    (match @get_user_by_email offline (accounts offline) "ravi@clinic.in"
             (start offline tt) with
     | inr user => user
     | inl _ => None
     end)
  = Some (Some (VStr "legacy-7")).
Proof. reflexivity. Qed.

Example bypass_ex :
  @authenticate_user offline (accounts offline) "asha" "doctor123" (start offline tt)
  = @get_user_by_email offline (accounts offline) "asha" (start offline tt) /\
  @authenticate_user offline (accounts offline) "asha" "correct horse" (start offline tt)
  = @get_user_by_email offline (accounts offline) "asha" (start offline tt) /\
  @authenticate_user offline (accounts offline) "asha" "guess" (start offline tt)
  = inr None.
Proof. repeat split. Qed.

Example chunks_ex :
  chunks (split_space "a  b ") = ["a "; " "; "b "; ""].
Proof. reflexivity. Qed.

Example endpoint_ex :
  option_map (fun response => map fst response)
    (match @search_jan_aushadhi_drug offline "Lipitor" (start offline tt) with
     | inr response => Some response
     | inl _ => None
     end)
  = Some ["status"; "query"; "found"; "drug_data"; "message"].
Proof. vm_compute. reflexivity. Qed.

End MoreRuns.
